(** * sms-sites: domain validation and certificate gatekeeping

    A shallow embedding of the domain-ownership validation engine of the
    sms-sites application, and its properties.

    Embedded code:
    - services/domainValidation.js: [normHost], [resolveCnames],
      [resolveIps], [checkDnsTarget], [checkHttpsHealth];
    - the earlier domainValidation module: [checkDnsCname],
      [checkHttpsHealth];
    - server.js: the handler of [GET /caddy-ask];
    - routes/adminSites.js and routes/portal.js: the handlers of
      [POST .../sites/:id/validate-domain].

    Conventions:
    - a JavaScript string is a [string]; each [ascii] is the code point
      of the same number (U+0000 .. U+00FF), except in the literal text
      of messages, kept byte for byte;
    - promises and [await] are sequenced in a state-and-exception monad;
      a rejected promise is a thrown error;
    - DNS and HTTPS answers come from an [environment]; what the code
      does on the network is recorded in a trace;
    - [undefined] is [None]. *)

From Stdlib Require Import Bool List Ascii String ZArith Lia.
From Stdlib Require Import Numbers.DecimalString.
Import ListNotations.

Local Open Scope string_scope.
Local Open Scope Z_scope.

(* ================================================================= *)
(** ** JavaScript string primitives *)

Module JsString.

Definition code (c : ascii) : N := N_of_ascii c.

Definition between (lo hi : N) (c : ascii) : bool :=
  (N.leb lo (code c) && N.leb (code c) hi)%bool.

(** White space and line terminators removed by [String.prototype.trim]
    (those below U+0100): TAB, LF, VT, FF, CR, SP, NBSP. *)
Definition is_ws (c : ascii) : bool :=
  (between 9 13 c || N.eqb (code c) 32 || N.eqb (code c) 160)%bool.

Fixpoint trimStart (s : string) : string :=
  match s with
  | EmptyString => EmptyString
  | String c s' => if is_ws c then trimStart s' else s
  end.

Fixpoint trimEnd (s : string) : string :=
  match s with
  | EmptyString => EmptyString
  | String c s' =>
      match trimEnd s' with
      | EmptyString => if is_ws c then EmptyString else String c EmptyString
      | r => String c r
      end
  end.

Definition trim (s : string) : string := trimEnd (trimStart s).

(** [toLowerCase] on U+0000 .. U+00FF: A-Z, and the Latin-1 capitals
    U+00C0 .. U+00DE except the multiplication sign U+00D7. *)
Definition lower_char (c : ascii) : ascii :=
  if (between 65 90 c
      || (between 192 222 c && negb (N.eqb (code c) 215)))%bool
  then ascii_of_N (code c + 32)
  else c.

Fixpoint toLowerCase (s : string) : string :=
  match s with
  | EmptyString => EmptyString
  | String c s' => String (lower_char c) (toLowerCase s')
  end.

(** [s.replace(/\.$/, '')]: drop one final dot. *)
Fixpoint stripTrailingDot (s : string) : string :=
  match s with
  | EmptyString => EmptyString
  | String c EmptyString =>
      if Ascii.eqb c "."%char then EmptyString else s
  | String c s' => String c (stripTrailingDot s')
  end.

(** [s.split(sep)[0]] for a one-character separator. *)
Fixpoint splitFirst (sep : ascii) (s : string) : string :=
  match s with
  | EmptyString => EmptyString
  | String c s' =>
      if Ascii.eqb c sep then EmptyString else String c (splitFirst sep s')
  end.

Fixpoint startsWith (s p : string) : bool :=
  match p, s with
  | EmptyString, _ => true
  | String _ _, EmptyString => false
  | String a p', String b s' => (Ascii.eqb a b && startsWith s' p')%bool
  end.

(** [s.slice(n)] for [0 <= n]. *)
Fixpoint sliceFrom (n : nat) (s : string) : string :=
  match n, s with
  | O, _ => s
  | S _, EmptyString => EmptyString
  | S n', String _ s' => sliceFrom n' s'
  end.

(** [s.slice(0, n)]. *)
Fixpoint sliceTo (n : nat) (s : string) : string :=
  match n, s with
  | O, _ => EmptyString
  | S _, EmptyString => EmptyString
  | S n', String c s' => String c (sliceTo n' s')
  end.

(** [xs.join(sep)]. *)
Fixpoint join (sep : string) (xs : list string) : string :=
  match xs with
  | [] => EmptyString
  | [x] => x
  | x :: rest => x ++ sep ++ join sep rest
  end.

(** Truthiness of a string: [!s] holds exactly for the empty string. *)
Definition falsy (s : string) : bool :=
  match s with EmptyString => true | _ => false end.

(** [String(v || '')] for [v] undefined or a string. *)
Definition orEmpty (v : option string) : string :=
  match v with
  | Some s => s
  | None => EmptyString
  end.

(** A number in a template literal. *)
Definition ofZ (z : Z) : string := NilEmpty.string_of_int (Z.to_int z).

Fixpoint chars (s : string) : list ascii :=
  match s with
  | EmptyString => []
  | String c s' => c :: chars s'
  end.

End JsString.

(* ================================================================= *)
(** ** Regular expressions

    The two patterns of [/caddy-ask] are used anchored at both ends, so
    [test] is a full match, decided by derivatives. *)

Module Regex.

Inductive regex : Type :=
| Void
| Eps
| Class (p : ascii -> bool)
| Cat (r1 r2 : regex)
| Alt (r1 r2 : regex)
| Star (r : regex).

Fixpoint nullable (r : regex) : bool :=
  match r with
  | Void => false
  | Eps => true
  | Class _ => false
  | Cat r1 r2 => nullable r1 && nullable r2
  | Alt r1 r2 => nullable r1 || nullable r2
  | Star _ => true
  end.

Fixpoint deriv (c : ascii) (r : regex) : regex :=
  match r with
  | Void => Void
  | Eps => Void
  | Class p => if p c then Eps else Void
  | Cat r1 r2 =>
      if nullable r1
      then Alt (Cat (deriv c r1) r2) (deriv c r2)
      else Cat (deriv c r1) r2
  | Alt r1 r2 => Alt (deriv c r1) (deriv c r2)
  | Star r1 => Cat (deriv c r1) (Star r1)
  end.

(** [/^r$/.test(s)] *)
Fixpoint test (r : regex) (s : string) : bool :=
  match s with
  | EmptyString => nullable r
  | String c s' => test (deriv c r) s'
  end.

Definition Plus (r : regex) : regex := Cat r (Star r).
Definition Opt (r : regex) : regex := Alt r Eps.

(** [r{n}] *)
Fixpoint Rep (n : nat) (r : regex) : regex :=
  match n with
  | O => Eps
  | S n' => Cat r (Rep n' r)
  end.

(** at most [n] copies of [r] *)
Fixpoint UpTo (n : nat) (r : regex) : regex :=
  match n with
  | O => Eps
  | S n' => Opt (Cat r (UpTo n' r))
  end.

(** [r{lo,lo+extra}] *)
Definition Range (lo extra : nat) (r : regex) : regex :=
  Cat (Rep lo r) (UpTo extra r).

Definition Chr (a : ascii) : regex := Class (Ascii.eqb a).

(** [\d] *)
Definition digit : ascii -> bool := JsString.between 48 57.

End Regex.

(* ================================================================= *)
(** ** The tenant registry (table [sites]) *)

Record site_row : Type := {
  site_id : Z;
  site_domain : string;
  domain_status : option string;
  domain_last_checked_at : option string;
  other_columns : list (string * string)
}.

(** The store: the rows of [sites], and whether the store currently fails
    (every query then calls back with an error, every update is lost). *)
Record database : Type := {
  sites : list site_row;
  db_failing : bool
}.

Inductive db_result (A : Type) : Type :=
| DbErr
| DbRow (row : option A).
Arguments DbErr {A}.
Arguments DbRow {A} row.

(** [SELECT id FROM sites WHERE domain = ? LIMIT 1] *)
Definition select_id_by_domain (db : database) (d : string) : db_result Z :=
  if db_failing db then DbErr
  else DbRow (option_map site_id
                (find (fun r => String.eqb (site_domain r) d) (sites db))).

(** [SELECT * FROM sites WHERE id = ?] *)
Definition select_site_by_id (db : database) (id : Z) : db_result site_row :=
  if db_failing db then DbErr
  else DbRow (find (fun r => Z.eqb (site_id r) id) (sites db)).

Definition set_last_checked (ts : string) (r : site_row) : site_row :=
  {| site_id := site_id r;
     site_domain := site_domain r;
     domain_status := domain_status r;
     domain_last_checked_at := Some ts;
     other_columns := other_columns r |}.

Definition set_status (st : string) (r : site_row) : site_row :=
  {| site_id := site_id r;
     site_domain := site_domain r;
     domain_status := Some st;
     domain_last_checked_at := domain_last_checked_at r;
     other_columns := other_columns r |}.

Definition update_where_id (f : site_row -> site_row) (id : Z)
  (db : database) : database :=
  if db_failing db then db
  else {| sites := map (fun r => if Z.eqb (site_id r) id then f r else r)
                       (sites db);
          db_failing := false |}.

(* ================================================================= *)
(** ** [GET /caddy-ask] (server.js) *)

Module Gatekeeper.
Import JsString Regex.

Inductive response : Type :=
| Send (status : Z) (body : string).

(** [/^\d{1,3}(\.\d{1,3}){3}$/] *)
Definition IPV4_RE : regex :=
  Cat (Range 1 2 (Class digit))
      (Rep 3 (Cat (Chr "."%char) (Range 1 2 (Class digit)))).

(** the class [[a-z0-9.-]] *)
Definition host_char (c : ascii) : bool :=
  (between 97 122 c || between 48 57 c
   || Ascii.eqb c "."%char || Ascii.eqb c "-"%char)%bool.

(** [/^[a-z0-9.-]+$/] *)
Definition HOST_RE : regex := Plus (Class host_char).

Definition isIPv4 (domain : string) : bool := test IPV4_RE domain.

(** The candidate as the handler has it when it reaches the checks:
    trimmed, lower-cased, cut at the first colon, one leading [www.]
    removed. *)
Definition stripWww (domain : string) : string :=
  if startsWith domain "www." then sliceFrom 4 domain else domain.

Definition normalizeCandidate (q_domain : option string) : string :=
  stripWww (splitFirst ":"%char (toLowerCase (trim (orEmpty q_domain)))).

(** [env_token] is [process.env.CADDY_ASK_TOKEN]; [q_token] and
    [q_domain] are [req.query.token] and [req.query.domain]. *)
Definition caddy_ask (env_token : option string) (db : database)
  (q_token q_domain : option string) : response :=
  let token := trim (orEmpty q_token) in
  let expected := orEmpty env_token in
  if (falsy expected || negb (String.eqb token expected))%bool
  then Send 403 "forbidden"
  else
    let domain := toLowerCase (trim (orEmpty q_domain)) in
    if falsy domain then Send 400 "missing domain"
    else
      let domain := splitFirst ":"%char domain in
      let domain := stripWww domain in
      if String.eqb domain "localhost" then Send 403 "denied"
      else if isIPv4 domain then Send 403 "denied"
      else if negb (test HOST_RE domain) then Send 403 "denied"
      else
        match select_id_by_domain db domain with
        | DbErr => Send 500 "error"
        | DbRow None => Send 403 "denied"
        | DbRow (Some _) => Send 200 "ok"
        end.

(** Caddy issues the certificate exactly on a 200 answer. *)
Definition shouldIssueCertificate (env_token : option string)
  (db : database) (candidateDomain presentedToken : option string) : bool :=
  match caddy_ask env_token db presentedToken candidateDomain with
  | Send status _ => Z.eqb status 200
  end.

End Gatekeeper.

(* ================================================================= *)
(** ** Promises, [await] and [try]/[catch]

    An asynchronous computation over a state [S] either completes with a
    value or rejects with an error; [await] of a rejected promise throws. *)

Record js_error : Type := {
  err_name : string;
  err_code : option string;
  err_message : string
}.

Inductive completion (A : Type) : Type :=
| Normal (a : A)
| Throw (e : js_error).
Arguments Normal {A} a.
Arguments Throw {A} e.

Definition M (S A : Type) : Type := S -> completion A * S.

Definition ret {S A : Type} (a : A) : M S A := fun s => (Normal a, s).

Definition throw {S A : Type} (e : js_error) : M S A := fun s => (Throw e, s).

Definition bind {S A B : Type} (m : M S A) (k : A -> M S B) : M S B :=
  fun s =>
    match m s with
    | (Normal a, s') => k a s'
    | (Throw e, s') => (Throw e, s')
    end.

Definition try_catch {S A : Type} (m : M S A) (h : js_error -> M S A)
  : M S A :=
  fun s =>
    match m s with
    | (Normal a, s') => (Normal a, s')
    | (Throw e, s') => h e s'
    end.

Declare Scope js_scope.
Delimit Scope js_scope with js.
Notation "x <- m ;; k" := (bind m (fun x => k))
  (at level 61, m at next level, right associativity) : js_scope.
Notation "m ;;; k" := (bind m (fun _ => k))
  (at level 61, right associativity) : js_scope.

(** [x is not a function] / [Cannot read properties of undefined] *)
Definition TypeError (msg : string) : js_error :=
  {| err_name := "TypeError"; err_code := None; err_message := msg |}.

(** [new Error(msg)] *)
Definition Error (msg : string) : js_error :=
  {| err_name := "Error"; err_code := None; err_message := msg |}.

(** [err.code || dflt], [String(err)] and [err.message || String(err)] *)
Definition code_or (dflt : string) (e : js_error) : string :=
  match err_code e with
  | Some c => if JsString.falsy c then dflt else c
  | None => dflt
  end.

Definition error_to_string (e : js_error) : string :=
  if JsString.falsy (err_message e) then err_name e
  else err_name e ++ ": " ++ err_message e.

Definition message_or_string (e : js_error) : string :=
  if JsString.falsy (err_message e) then error_to_string e
  else err_message e.

(* ================================================================= *)
(** ** The network: DNS and HTTPS *)

Module Net.

Inductive dns_answer : Type :=
| DnsThrow (e : js_error)
| DnsRecords (records : list string).

Inductive http_outcome : Type :=
| HttpResponse (statusCode : Z) (headers : list (string * string))
    (chunks : list string)
| HttpError (e : js_error)
| HttpTimeout.

(** What the outside world answers.  [https_get n host] is the outcome
    of the request to [host] issued after [n] earlier requests. *)
Record environment : Type := {
  dns_resolveCname : string -> dns_answer;
  dns_resolve4 : string -> dns_answer;
  dns_resolve6 : string -> dns_answer;
  https_get : nat -> string -> http_outcome
}.

Inductive net_event : Type :=
| QueryCname (host : string)
| Query4 (host : string)
| Query6 (host : string)
| HttpsRequest (host : string)
| Sleep (ms : Z).

(** Everything done on the network so far, oldest first. *)
Record net_state : Type := {
  trace : list net_event;
  requests : nat
}.

Definition idle : net_state := {| trace := []; requests := 0 |}.

Definition emit (e : net_event) (n : net_state) : net_state :=
  {| trace := trace n ++ [e]; requests := requests n |}.


Definition is_https_request (e : net_event) : bool :=
  match e with
  | HttpsRequest _ => true
  | _ => false
  end.

Definition is_sleep (e : net_event) : bool :=
  match e with
  | Sleep _ => true
  | _ => false
  end.

Definition count (p : net_event -> bool) (n : net_state) : nat :=
  List.length (filter p (trace n)).

Section WithEnvironment.
Variable env : environment.

Definition of_answer (a : dns_answer) : completion (list string) :=
  match a with
  | DnsThrow e => Throw e
  | DnsRecords rs => Normal rs
  end.

(** [await dns.resolveCname(host)] *)
Definition resolveCname (host : string) : M net_state (list string) :=
  fun n => (of_answer (dns_resolveCname env host),
            emit (QueryCname host) n).

(** [await dns.resolve4(host)] *)
Definition resolve4 (host : string) : M net_state (list string) :=
  fun n => (of_answer (dns_resolve4 env host), emit (Query4 host) n).

(** [await dns.resolve6(host)] *)
Definition resolve6 (host : string) : M net_state (list string) :=
  fun n => (of_answer (dns_resolve6 env host), emit (Query6 host) n).

(** One [https.request(...)] / [req.end()] to [host:443/health],
    up to the first of its [end], [error] and [timeout] events. *)
Definition request (host : string) : M net_state http_outcome :=
  fun n => (Normal (https_get env (requests n) host),
            {| trace := trace n ++ [HttpsRequest host];
               requests := S (requests n) |}).

(** [await new Promise(r => setTimeout(r, ms))] *)
Definition sleep (ms : Z) : M net_state unit :=
  fun n => (Normal tt, emit (Sleep ms) n).

End WithEnvironment.

End Net.

(** The result object of a check.  [method] is absent where the source
    builds the object without it. *)
Record check_result : Type := {
  ok : bool;
  method : option string;
  detail : string
}.

(* ================================================================= *)
(** ** services/domainValidation.js *)

Module DomainValidation.
Import JsString Net.
Local Open Scope js_scope.

Section Configured.
(** [CNAME_URL] of [config/appConfig] and the network. *)
Variable CNAME_URL : string.
Variable env : environment.

Definition EXPECTED_CNAME_TARGET : string :=
  toLowerCase (stripTrailingDot (trim CNAME_URL)).

Definition HEALTH_SIGNATURE_HEADER : string := "x-sms-sites".

Definition normHost (h : string) : string :=
  stripTrailingDot (toLowerCase (trim h)).

Definition resolveCnames (host : string) : M net_state (list string) :=
  try_catch
    (cn <- resolveCname env host ;; ret (map normHost cn))
    (fun _ => ret []).

(** [ips.add(ip)] on a [Set], kept in insertion order. *)
Definition set_add (ips : list string) (ip : string) : list string :=
  if existsb (String.eqb ip) ips then ips else ips ++ [ip].

Definition add_all (ips : list string) (new : list string)
  : list string :=
  fold_left set_add new ips.

Definition resolveIps (host : string) : M net_state (list string) :=
  ips <- try_catch
           (rs <- resolve4 env host ;; ret (add_all [] rs))
           (fun _ => ret []) ;;
  ips <- try_catch
           (rs <- resolve6 env host ;; ret (add_all ips rs))
           (fun _ => ret ips) ;;
  ret ips.

(** [xs.includes(x)] *)
Definition includes (xs : list string) (x : string) : bool :=
  existsb (String.eqb x) xs.

Definition checkDnsTarget (domain : string)
  : M net_state check_result :=
  let host := normHost domain in
  if falsy host
  then ret {| ok := false; method := None; detail := "Empty domain" |}
  else
    cnames <- resolveCnames host ;;
    if negb (Nat.eqb (List.length cnames) 0)
    then
      let ok_ := existsb (fun c => String.eqb c EXPECTED_CNAME_TARGET)
                         cnames in
      if ok_
      then ret {| ok := true; method := Some "cname";
                  detail := "CNAME OK → " ++ join ", " cnames |}
      else ret {| ok := false; method := Some "cname";
                  detail := "CNAME points to [" ++ join ", " cnames
                            ++ "], expected " ++ EXPECTED_CNAME_TARGET |}
    else
      hostIps <- resolveIps host ;;
      if Nat.eqb (List.length hostIps) 0
      then ret {| ok := false; method := Some "a/aaaa";
                  detail := "No A/AAAA records found for " ++ host |}
      else
        expectedIps <- resolveIps EXPECTED_CNAME_TARGET ;;
        if Nat.eqb (List.length expectedIps) 0
        then ret {| ok := false; method := Some "a/aaaa";
                    detail := "Expected target " ++ EXPECTED_CNAME_TARGET
                      ++ " has no A/AAAA records (cannot compare)" |}
        else
          let match_ := existsb (includes expectedIps) hostIps in
          if match_
          then ret {| ok := true; method := Some "a/aaaa";
                      detail := "A/AAAA OK → " ++ join ", " hostIps |}
          else ret {| ok := false; method := Some "a/aaaa";
                      detail := "A/AAAA was [" ++ join ", " hostIps
                        ++ "], expected one of ["
                        ++ join ", " expectedIps
                        ++ "] (Cloudflare proxy can cause this)" |}.

(** [headers[name]] *)
Fixpoint header_get (headers : list (string * string)) (name : string)
  : option string :=
  match headers with
  | [] => None
  | (k, v) :: rest =>
      if String.eqb k name then Some v else header_get rest name
  end.

(** The [data] listener: append, then keep the first 64 units. *)
Definition on_data (body chunk : string) : string :=
  let body := body ++ chunk in
  if Nat.ltb 64 (String.length body) then sliceTo 64 body else body.

Definition read_body (chunks : list string) : string :=
  fold_left on_data chunks EmptyString.

Definition sigHeader (headers : list (string * string)) : string :=
  trim (orEmpty (header_get headers HEALTH_SIGNATURE_HEADER)).

Definition bodyTrim (chunks : list string) : string :=
  trim (read_body chunks).

Definition isOurApp (headers : list (string * string))
  (chunks : list string) : bool :=
  (String.eqb (sigHeader headers) "1"
   || String.eqb (bodyTrim chunks) "OK")%bool.

(** What one attempt resolves to, from what the request met. *)
Definition attempt_result (o : http_outcome) : check_result :=
  match o with
  | HttpResponse statusCode headers chunks =>
      if (Z.eqb statusCode 200 && isOurApp headers chunks)%bool
      then {| ok := true; method := None;
              detail := "HTTPS /health returned 200 (validated)" |}
      else if (Z.eqb statusCode 200
               && negb (isOurApp headers chunks))%bool
      then {| ok := false; method := None;
              detail := "HTTPS /health returned 200 but did not match signature (missing "
                        ++ HEALTH_SIGNATURE_HEADER ++ ": 1)" |}
      else {| ok := false; method := None;
              detail := "HTTPS /health returned status "
                        ++ ofZ statusCode |}
  | HttpError e =>
      {| ok := false; method := None;
         detail := "HTTPS error: " ++ code_or "" e ++ " "
                   ++ message_or_string e |}
  | HttpTimeout =>
      {| ok := false; method := None;
         detail := "HTTPS timeout when calling /health" |}
  end.

Definition attemptOnce (host : string) : M net_state check_result :=
  o <- request env host ;; ret (attempt_result o).

(** [for (let i = 0; i <= retries; i++) { ... } return last;]
    [fuel] bounds the iterations still to run. *)
Fixpoint retry_loop (fuel : nat) (host : string)
  (retries retryDelayMs i : Z) (last : option check_result)
  : M net_state (option check_result) :=
  match fuel with
  | O => ret last
  | S fuel' =>
      if i <=? retries
      then
        r <- attemptOnce host ;;
        if ok r then ret (Some r)
        else
          (if i <? retries then sleep retryDelayMs else ret tt) ;;;
          retry_loop fuel' host retries retryDelayMs (i + 1) (Some r)
      else ret last
  end.

(** The options object [{ retries = 2, retryDelayMs = 1500 } = {}]. *)
Record options : Type := {
  opt_retries : option Z;
  opt_retryDelayMs : option Z
}.

Definition no_options : options :=
  {| opt_retries := None; opt_retryDelayMs := None |}.

Definition default (d : Z) (v : option Z) : Z :=
  match v with
  | Some z => z
  | None => d
  end.

(** The result is [None] where the source returns [undefined]. *)
Definition checkHttpsHealth (domain : string) (o : options)
  : M net_state (option check_result) :=
  let retries := default 2 (opt_retries o) in
  let retryDelayMs := default 1500 (opt_retryDelayMs o) in
  let host := trim domain in
  if falsy host
  then ret (Some {| ok := false; method := None;
                    detail := "Empty domain" |})
  else retry_loop (Z.to_nat (retries + 1)) host retries retryDelayMs
                  0 None.

End Configured.

End DomainValidation.

(* ================================================================= *)
(** ** The earlier domainValidation module (exports [checkDnsCname]) *)

Module LegacyDomainValidation.
Import JsString Net.
Local Open Scope js_scope.

Section Configured.
Variable CNAME_URL : string.
Variable env : environment.

Definition EXPECTED_CNAME_TARGET : string := CNAME_URL.

Definition checkDnsCname (domain : string) : M net_state check_result :=
  let host := toLowerCase (trim domain) in
  try_catch
    (cnames <- resolveCname env host ;;
     if Nat.eqb (List.length cnames) 0
     then ret {| ok := false; method := None;
                 detail := "No CNAME records found for " ++ host |}
     else
       let matches :=
         existsb (fun c => String.eqb (toLowerCase (stripTrailingDot c))
                             (toLowerCase EXPECTED_CNAME_TARGET))
                 cnames in
       if negb matches
       then ret {| ok := false; method := None;
                   detail := "CNAME points to [" ++ join ", " cnames
                             ++ "], expected " ++ EXPECTED_CNAME_TARGET |}
       else ret {| ok := true; method := None;
                   detail := "CNAME OK → " ++ join ", " cnames |})
    (fun err =>
       ret {| ok := false; method := None;
              detail := "DNS error (" ++ code_or "ERR" err ++ "): "
                        ++ err_message err |}).

Definition checkHttpsHealth (domain : string)
  : M net_state check_result :=
  let host := trim domain in
  o <- request env host ;;
  match o with
  | HttpResponse statusCode _ _ =>
      if Z.eqb statusCode 200
      then ret {| ok := true; method := None;
                  detail := "HTTPS /health returned 200" |}
      else ret {| ok := false; method := None;
                  detail := "HTTPS /health returned status "
                            ++ ofZ statusCode |}
  | HttpError err =>
      throw (Error ("HTTPS error: " ++ code_or "" err ++ " "
                    ++ message_or_string err))
  | HttpTimeout => throw (Error "HTTPS timeout when calling /health")
  end.

End Configured.

End LegacyDomainValidation.

(* ================================================================= *)
(** ** [module.exports] and [require] *)

Module Modules.
Import Net.
Local Open Scope js_scope.

(** A check as the routes call it: one argument, a promise of a result
    object (or of [undefined]). *)
Definition check_fn : Type := string -> M net_state (option check_result).

Inductive export_value : Type :=
| ExFunction (f : check_fn)
| ExString (s : string).

Definition exports : Type := list (string * export_value).

(** [exports[name]] *)
Fixpoint member (m : exports) (name : string) : option export_value :=
  match m with
  | [] => None
  | (k, v) :: rest => if String.eqb k name then Some v else member rest name
  end.

Definition returning (f : string -> M net_state check_result) : check_fn :=
  fun domain => r <- f domain ;; ret (Some r).

(** [module.exports] of services/domainValidation.js *)
Definition domainValidation (CNAME_URL : string) (env : environment)
  : exports :=
  [ ("checkDnsTarget",
     ExFunction (returning (DomainValidation.checkDnsTarget CNAME_URL env)));
    ("checkHttpsHealth",
     ExFunction (fun domain =>
                   DomainValidation.checkHttpsHealth env domain
                     DomainValidation.no_options));
    ("EXPECTED_CNAME_TARGET",
     ExString (DomainValidation.EXPECTED_CNAME_TARGET CNAME_URL)) ].

(** [module.exports] of the earlier module *)
Definition legacyDomainValidation (CNAME_URL : string) (env : environment)
  : exports :=
  [ ("checkDnsCname",
     ExFunction (returning (LegacyDomainValidation.checkDnsCname
                              CNAME_URL env)));
    ("checkHttpsHealth",
     ExFunction (returning (LegacyDomainValidation.checkHttpsHealth env)));
    ("EXPECTED_CNAME_TARGET",
     ExString (LegacyDomainValidation.EXPECTED_CNAME_TARGET CNAME_URL)) ].

End Modules.

(* ================================================================= *)
(** ** routes/adminSites.js and routes/portal.js: validate-domain *)

Module Routes.
Import JsString Net Modules.
Local Open Scope js_scope.

(** [const { checkDnsCname, checkHttpsHealth, EXPECTED_CNAME_TARGET } =
     require('../services/domainValidation')] *)
Record imports : Type := {
  checkDnsCname : option export_value;
  checkHttpsHealth : option export_value;
  EXPECTED_CNAME_TARGET : option export_value
}.

Definition require (m : exports) : imports :=
  {| checkDnsCname := member m "checkDnsCname";
     checkHttpsHealth := member m "checkHttpsHealth";
     EXPECTED_CNAME_TARGET := member m "EXPECTED_CNAME_TARGET" |}.

Inductive statement : Type :=
| UpdateLastChecked (ts : string) (id : Z)
| UpdateStatus (st : string) (id : Z).

Definition execute (q : statement) (db : database) : database :=
  match q with
  | UpdateLastChecked ts id => update_where_id (set_last_checked ts) id db
  | UpdateStatus st id => update_where_id (set_status st) id db
  end.

(** What the handler did, oldest first: statements handed to [db.run]
    and calls of imported checks. *)
Inductive route_event : Type :=
| DbRun (q : statement)
| Call (name : string) (arg : string).

Record flash_msg : Type := {
  flash_type : string;
  flash_message : string
}.

Record world : Type := {
  db : database;
  session_flash : option flash_msg;
  net : net_state;
  log : list route_event
}.

Inductive response : Type :=
| Send (status : Z) (body : string)
| RedirectTo (url : string).

Definition lift_net {A : Type} (m : M net_state A) : M world A :=
  fun w =>
    match m (net w) with
    | (c, n') =>
        (c, {| db := db w; session_flash := session_flash w;
               net := n'; log := log w |})
    end.

Definition record (e : route_event) : M world unit :=
  fun w =>
    (Normal tt, {| db := db w; session_flash := session_flash w;
                   net := net w; log := log w ++ [e] |}).

(** [db.run(sql, params)] *)
Definition db_run (q : statement) : M world unit :=
  fun w =>
    (Normal tt, {| db := execute q (db w);
                   session_flash := session_flash w;
                   net := net w; log := log w ++ [DbRun q] |}).

(** [req.session.flash = { type, message }] *)
Definition set_flash (t m : string) : M world unit :=
  fun w =>
    (Normal tt, {| db := db w;
                   session_flash := Some {| flash_type := t;
                                            flash_message := m |};
                   net := net w; log := log w |}).

(** [await f(arg)] for an imported binding [f]. *)
Definition call (name : string) (f : option export_value) (arg : string)
  : M world (option check_result) :=
  match f with
  | Some (ExFunction g) => record (Call name arg) ;;; lift_net (g arg)
  | _ => throw (TypeError (name ++ " is not a function"))
  end.

(** Reading a property of a result: [r.ok], [r.detail]. *)
Definition object (r : option check_result) : M world check_result :=
  match r with
  | Some o => ret o
  | None => throw (TypeError "Cannot read properties of undefined")
  end.

(** [${EXPECTED_CNAME_TARGET}] *)
Definition show (v : option export_value) : string :=
  match v with
  | Some (ExString s) => s
  | Some (ExFunction _) => "[Function]"
  | None => "undefined"
  end.

Definition or_default (dflt s : string) : string :=
  if falsy s then dflt else s.

(** The [try { ... } catch (e) { ... }] of both handlers; they differ
    in the page they go back to. *)
Definition run_checks (imp : imports) (back : string) (domain : string)
  (id : Z) : M world response :=
  try_catch
    (dnsResult <- call "checkDnsCname" (checkDnsCname imp) domain ;;
     dnsResult <- object dnsResult ;;
     if negb (ok dnsResult)
     then
       db_run (UpdateStatus "dns_error" id) ;;;
       set_flash "error"
         ("DNS validation failed for " ++ domain ++ ": "
          ++ detail dnsResult ++ " (expected: "
          ++ show (EXPECTED_CNAME_TARGET imp) ++ ")") ;;;
       ret (RedirectTo back)
     else
       httpsResult <-
         try_catch
           (call "checkHttpsHealth" (checkHttpsHealth imp) domain)
           (fun httpsErr =>
              ret (Some {| ok := false; method := None;
                           detail := or_default "HTTPS /health check failed"
                                       (err_message httpsErr) |})) ;;
       httpsResult <- object httpsResult ;;
       let newStatus :=
         if ok httpsResult then "active" else "dns_ok_ssl_error" in
       db_run (UpdateStatus newStatus id) ;;;
       set_flash (if ok httpsResult then "success" else "warning")
         (if ok httpsResult
          then "Domain " ++ domain ++ " is active."
          else "Domain " ++ domain
               ++ " DNS is OK but HTTPS check had issues: "
               ++ detail httpsResult) ;;;
       ret (RedirectTo back))
    (fun e =>
       db_run (UpdateStatus "error_generic" id) ;;;
       set_flash "error"
         ("Validation failed for " ++ domain ++ ": "
          ++ or_default "Unknown validation error" (err_message e)) ;;;
       ret (RedirectTo back)).

(** From the [db.get] callback on: [now] is [new Date().toISOString()]. *)
Definition validate_site (imp : imports) (back now : string) (id : Z)
  : M world response :=
  fun w =>
    match select_site_by_id (db w) id with
    | DbErr => (Normal (Send 500 "Error loading site."), w)
    | DbRow None => (Normal (Send 404 "Site not found."), w)
    | DbRow (Some site) =>
        let domain := toLowerCase (trim (site_domain site)) in
        if falsy domain
        then (Normal (Send 400 "Site domain is empty."), w)
        else
          (db_run (UpdateLastChecked now id) ;;;
           run_checks imp back domain id) w
    end.

(** [POST /admin/sites/:id/validate-domain] *)
Definition admin_validate_domain (imp : imports) (now : string) (id : Z)
  : M world response :=
  validate_site imp "/admin/sites" now id.

(** [POST /portal/sites/:id/validate-domain]; [user_site_id] is
    [req.session.user.site_id]. *)
Definition portal_validate_domain (imp : imports) (now : string)
  (user_site_id : option Z) (siteId : Z) : M world response :=
  let own :=
    match user_site_id with
    | Some s => (negb (Z.eqb s 0) && Z.eqb s siteId)%bool
    | None => false
    end in
  if negb own
  then ret (Send 403 "You can only validate your own site.")
  else validate_site imp "/portal/site" now siteId.

(** The statements of a log, and the status they leave on a site. *)
Definition statements (l : list route_event) : list statement :=
  flat_map (fun e => match e with DbRun q => [q] | Call _ _ => [] end) l.

Definition status_writes (l : list route_event) : list string :=
  flat_map (fun e => match e with
                     | DbRun (UpdateStatus st _) => [st]
                     | _ => []
                     end) l.

Definition calls_of (name : string) (l : list route_event) : list string :=
  flat_map (fun e => match e with
                     | Call n arg => if String.eqb n name then [arg] else []
                     | DbRun _ => []
                     end) l.

Definition status_of (db : database) (id : Z) : option string :=
  match find (fun r => Z.eqb (site_id r) id) (sites db) with
  | Some r => domain_status r
  | None => None
  end.

Definition last_checked_of (db : database) (id : Z) : option string :=
  match find (fun r => Z.eqb (site_id r) id) (sites db) with
  | Some r => domain_last_checked_at r
  | None => None
  end.

Definition fresh (d : database) : world :=
  {| db := d; session_flash := None; net := idle; log := [] |}.

End Routes.

(* ================================================================= *)
(** ** auth.js *)

Module Auth.
Import JsString.

(** [req.session.user], as far as the guards read it. *)
Record session_user : Type := {
  user_role : string;
  user_site_id : option Z
}.

(** What a guard does: answer itself, or call [next()]. *)
Inductive guard : Type :=
| Respond (r : Routes.response)
| Next.

(** [!siteId] for a number or [null] *)
Definition no_site (site_id : option Z) : bool :=
  match site_id with
  | Some z => Z.eqb z 0
  | None => true
  end.

Definition requireLogin (user : option session_user) : guard :=
  match user with
  | None => Respond (Routes.RedirectTo "/login")
  | Some _ => Next
  end.

Definition requireAdminSession (user : option session_user) : guard :=
  match user with
  | None => Respond (Routes.RedirectTo "/login")
  | Some u =>
      if negb (String.eqb (user_role u) "admin")
      then Respond (Routes.Send 403 "Forbidden")
      else Next
  end.

Definition requireAccountUser (user : option session_user) : guard :=
  match user with
  | None => Respond (Routes.RedirectTo "/login")
  | Some u =>
      let role := user_role u in
      let siteId := user_site_id u in
      if (negb (String.eqb role "account_user")
          && negb (String.eqb role "account_admin"))%bool
      then Respond (Routes.Send 403 "Forbidden")
      else if no_site siteId
      then Respond (Routes.Send 400 "User is not associated with a site.")
      else Next
  end.

End Auth.

(* ================================================================= *)
(** ** The validate-domain routes: guard, then handler *)

Module ValidateRoutes.
Import Auth Routes.

(** [router.post('/admin/sites/:id/validate-domain',
      requireAdminSession, handler)] *)
Definition post_admin_validate_domain (imp : imports) (now : string)
  (user : option session_user) (id : Z) : M world response :=
  match requireAdminSession user with
  | Respond r => ret r
  | Next => admin_validate_domain imp now id
  end.

(** [router.post('/portal/sites/:id/validate-domain',
      requireAccountUser, handler)] *)
Definition post_portal_validate_domain (imp : imports) (now : string)
  (user : option session_user) (id : Z) : M world response :=
  match requireAccountUser user with
  | Respond r => ret r
  | Next =>
      portal_validate_domain imp now
        (match user with
         | Some u => user_site_id u
         | None => None
         end) id
  end.

End ValidateRoutes.

(* ================================================================= *)
(** ** middleware/locals.js *)

Module Locals.
Import JsString.

(** [s.replace(/\D/g, '')] *)
Fixpoint digitsOnly (s : string) : string :=
  match s with
  | EmptyString => EmptyString
  | String c s' =>
      if Regex.digit c then String c (digitsOnly s') else digitsOnly s'
  end.

(** The result is [None] where the source returns [null]. *)
Definition normalizeUsPhone (raw : string) : option string :=
  if falsy raw then None
  else
    let digits := digitsOnly raw in
    let digits :=
      if (Nat.eqb (String.length digits) 11 && startsWith digits "1")%bool
      then sliceFrom 1 digits
      else digits in
    if negb (Nat.eqb (String.length digits) 10) then None
    else Some digits.

Definition formatPhoneE164 (raw : string) : option string :=
  match normalizeUsPhone raw with
  | None => None
  | Some digits => Some ("+1" ++ digits)
  end.

Definition formatPhoneNational (raw : string) : string :=
  match normalizeUsPhone raw with
  | None => raw
  | Some digits =>
      let area := sliceTo 3 digits in
      let prefix := sliceTo 3 (sliceFrom 3 digits) in
      let line := sliceFrom 6 digits in
      "(" ++ area ++ ") " ++ prefix ++ "-" ++ line
  end.

(** [host.replace(/^www\./, '')] is [Gatekeeper.stripWww]. *)
Definition normalizeHost (rawHost : string) : string :=
  if falsy rawHost then EmptyString
  else
    let host := toLowerCase (trim rawHost) in
    let host := splitFirst ":"%char host in
    let host := stripTrailingDot host in
    let host := Gatekeeper.stripWww host in
    host.

(** The flash part of [localsMiddleware]: [res.locals.flash] and the
    session it leaves. *)
Definition localsMiddleware (w : Routes.world)
  : option Routes.flash_msg * Routes.world :=
  (Routes.session_flash w,
   {| Routes.db := Routes.db w;
      Routes.session_flash := None;
      Routes.net := Routes.net w;
      Routes.log := Routes.log w |}).

End Locals.

(* ================================================================= *)
(** ** db.js: [mapRowToSite]; more statements on [sites] *)

Module Store.
Import JsString.

(** [row.name] for a column other than [id], [domain] and the two
    validation columns; [None] is [NULL]. *)
Fixpoint column (cols : list (string * string)) (name : string)
  : option string :=
  match cols with
  | [] => None
  | (k, v) :: rest => if String.eqb k name then Some v else column rest name
  end.

Record address : Type := {
  line1 : option string;
  line2 : option string;
  city : option string;
  state : option string;
  zip : option string;
  country : option string
}.

Record branding : Type := {
  logoUrl : option string;
  faviconUrl : option string;
  primaryColor : string;
  secondaryColor : string;
  darkColor : string;
  lightColor : string
}.

Record site : Type := {
  companyName : option string;
  companyDetails : option string;
  contactPhone : option string;
  contactEmail : option string;
  site_address : address;
  businessHours : option string;
  site_branding : branding
}.

(** [v || dflt] *)
Definition or_else (dflt : string) (v : option string) : string :=
  match v with
  | Some s => if falsy s then dflt else s
  | None => dflt
  end.

Definition mapRowToSite (row : site_row) : site :=
  let col := column (other_columns row) in
  {| companyName := col "company_name";
     companyDetails := col "company_details";
     contactPhone := col "contact_phone";
     contactEmail := col "contact_email";
     site_address :=
       {| line1 := col "address_line1";
          line2 := col "address_line2";
          city := col "city";
          state := col "state";
          zip := col "zip";
          country := col "country" |};
     businessHours := col "business_hours";
     site_branding :=
       {| logoUrl := col "logo_url";
          faviconUrl := col "favicon_url";
          primaryColor := or_else "#1b1464" (col "primary_color");
          secondaryColor := or_else "#007dc5" (col "secondary_color");
          darkColor := or_else "#282829" (col "dark_color");
          lightColor := or_else "#f1f2f2" (col "light_color") |} |}.

(** [SELECT * FROM sites WHERE domain = ?] *)
Definition select_site_by_domain (d : database) (domain : string)
  : db_result site_row :=
  if db_failing d then DbErr
  else DbRow (find (fun r => String.eqb (site_domain r) domain) (sites d)).

(** [DELETE FROM sites WHERE id = ?]; [None] is an error. *)
Definition delete_site (id : Z) (d : database) : option database :=
  if db_failing d then None
  else Some {| sites := filter (fun r => negb (Z.eqb (site_id r) id))
                               (sites d);
               db_failing := false |}.

(** [INSERT INTO sites (...) VALUES (...)].  [domain] is [UNIQUE]: the
    statement fails when a row has the domain already. *)
Definition insert_site (row : site_row) (d : database) : option database :=
  if db_failing d then None
  else if existsb (fun r => String.eqb (site_domain r) (site_domain row))
                  (sites d)
  then None
  else Some {| sites := sites d ++ [row]; db_failing := false |}.

Definition rewritten (domain : string) (cols : list (string * string))
  (r : site_row) : site_row :=
  {| site_id := site_id r;
     site_domain := domain;
     domain_status := domain_status r;
     domain_last_checked_at := domain_last_checked_at r;
     other_columns := cols |}.

(** [UPDATE sites SET domain = ?, ... WHERE id = ?].  The statement
    fails when it would give the row the domain of another row; without
    a row of that id it changes nothing and succeeds. *)
Definition update_site (id : Z) (domain : string)
  (cols : list (string * string)) (d : database) : option database :=
  if db_failing d then None
  else if (existsb (fun r => Z.eqb (site_id r) id) (sites d)
           && existsb (fun r => negb (Z.eqb (site_id r) id)
                                && String.eqb (site_domain r) domain)
                      (sites d))%bool
  then None
  else Some {| sites := map (fun r => if Z.eqb (site_id r) id
                                      then rewritten domain cols r else r)
                            (sites d);
               db_failing := false |}.

End Store.

(* ================================================================= *)
(** ** middleware/siteResolver.js *)

Module SiteResolver.
Import JsString Store.

(** What the middleware leaves in [res.locals] when it calls [next()]. *)
Record locals : Type := {
  requestHost : string;
  lookupHost : string;
  locals_site : site
}.

Inductive outcome : Type :=
| Continue (l : locals)
| Fail
| NotConfigured.

(** [hostname] is [req.hostname]; [Fail] is [next(err)], [NotConfigured]
    is the answer [404 No site configured yet.] *)
Definition siteResolverMiddleware (d : database) (hostname : option string)
  : outcome :=
  let requestHost := toLowerCase (orEmpty hostname) in
  let lookupHost := Locals.normalizeHost requestHost in
  let found row := Continue {| requestHost := requestHost;
                               lookupHost := lookupHost;
                               locals_site := mapRowToSite row |} in
  match select_site_by_domain d lookupHost with
  | DbErr => Fail
  | DbRow (Some row) => found row
  | DbRow None =>
      match select_site_by_domain d "localhost" with
      | DbErr => Fail
      | DbRow None => NotConfigured
      | DbRow (Some fallbackRow) => found fallbackRow
      end
  end.

End SiteResolver.

(* ================================================================= *)
(** ** routes/adminSites.js: create, edit, delete *)

Module AdminSites.
Import JsString Store Routes.

(** [req.body] of a form *)
Definition form : Type := list (string * string).

(** [(body.name || '').trim()] *)
Definition trimmed (body : form) (name : string) : string :=
  trim (orEmpty (column body name)).

(** [(body.name || '').trim() || dflt] *)
Definition trimmed_or (dflt : string) (body : form) (name : string)
  : string :=
  or_default dflt (trimmed body name).

Definition text_columns (body : form) : list (string * string) :=
  [ ("company_name", trimmed body "company_name");
    ("company_details", trimmed body "company_details");
    ("contact_phone", trimmed body "contact_phone");
    ("contact_email", trimmed body "contact_email");
    ("address_line1", trimmed body "address_line1");
    ("address_line2", trimmed body "address_line2");
    ("city", trimmed body "city");
    ("state", trimmed body "state");
    ("zip", trimmed body "zip");
    ("country", trimmed body "country");
    ("business_hours", trimmed body "business_hours") ].

Definition colour_columns (body : form) : list (string * string) :=
  [ ("primary_color", trimmed_or "#1b1464" body "primary_color");
    ("secondary_color", trimmed_or "#007dc5" body "secondary_color");
    ("dark_color", trimmed_or "#282829" body "dark_color");
    ("light_color", trimmed_or "#f1f2f2" body "light_color") ].

(** [POST /admin/sites/new].  [lastID] is the row id SQLite assigns. *)
Definition admin_new_site (lastID : Z) (body : form) (d : database)
  : response * database :=
  let domain := toLowerCase (trimmed body "domain") in
  if falsy domain then (Send 400 "Domain is required.", d)
  else
    let row :=
      {| site_id := lastID;
         site_domain := domain;
         domain_status := Some "pending";
         domain_last_checked_at := None;
         other_columns :=
           text_columns body
           ++ [ ("logo_url", trimmed_or "/assets/logo.png" body "logo_url");
                ("favicon_url",
                 trimmed_or "/assets/favicon.png" body "favicon_url") ]
           ++ colour_columns body |} in
    match insert_site row d with
    | None => (Send 500 "Error creating site.", d)
    | Some d' =>
        (RedirectTo ("/admin/sites/" ++ ofZ lastID ++ "/edit"), d')
    end.

(** [POST /admin/sites/:id/edit] *)
Definition admin_edit_site (id : Z) (body : form) (d : database)
  : response * database :=
  let domain := toLowerCase (trimmed body "domain") in
  if falsy domain then (Send 400 "Domain is required.", d)
  else
    let cols :=
      (text_columns body
       ++ [ ("logo_url", trimmed body "logo_url");
            ("favicon_url", trimmed body "favicon_url") ]
       ++ colour_columns body)%list in
    match update_site id domain cols d with
    | None => (Send 500 "Error updating site.", d)
    | Some d' => (RedirectTo ("/admin/sites/" ++ ofZ id ++ "/edit"), d')
    end.

(** [POST /admin/sites/:id/delete] *)
Definition admin_delete_site (id : Z) (d : database)
  : response * database :=
  match select_site_by_id d id with
  | DbErr => (Send 500 "Error.", d)
  | DbRow None => (Send 404 "Site not found.", d)
  | DbRow (Some row) =>
      if String.eqb (site_domain row) "localhost"
      then (Send 400 "Cannot delete localhost site.", d)
      else
        match delete_site id d with
        | None => (Send 500 "Error deleting site.", d)
        | Some d' => (RedirectTo "/admin/sites", d')
        end
  end.

End AdminSites.

(* ================================================================= *)
(** ** Vocabulary of the properties *)

Module RegexTerms.
Import JsString Regex.

(** The strings a pattern denotes. *)
Inductive lang : regex -> string -> Prop :=
| lang_Eps : lang Eps EmptyString
| lang_Class p c : p c = true -> lang (Class p) (String c EmptyString)
| lang_Cat r1 r2 s1 s2 :
    lang r1 s1 -> lang r2 s2 -> lang (Cat r1 r2) (s1 ++ s2)
| lang_AltL r1 r2 s : lang r1 s -> lang (Alt r1 r2) s
| lang_AltR r1 r2 s : lang r2 s -> lang (Alt r1 r2) s
| lang_Star0 r : lang (Star r) EmptyString
| lang_StarS r s1 s2 :
    lang r s1 -> lang (Star r) s2 -> lang (Star r) (s1 ++ s2).

(** A pattern that matches nothing. *)
Fixpoint dead (r : regex) : bool :=
  match r with
  | Void => true
  | Cat r1 r2 => dead r1 || dead r2
  | Alt r1 r2 => dead r1 && dead r2
  | _ => false
  end.

(** One to three decimal digits. *)
Definition octetb (x : string) : bool :=
  (Nat.leb 1 (String.length x) && Nat.leb (String.length x) 3
   && forallb digit (chars x))%bool.

Definition octet (x : string) : Prop :=
  (1 <= String.length x <= 3)%nat
  /\ forall c, In c (chars x) -> digit c = true.

(** Four groups of one to three digits, separated by dots. *)
Definition dotted_quad (s : string) : Prop :=
  exists a b c d,
    s = a ++ "." ++ b ++ "." ++ c ++ "." ++ d
    /\ octet a /\ octet b /\ octet c /\ octet d.

End RegexTerms.

Module GatekeeperTerms.
Import JsString Gatekeeper.

(** The presented token matches the configured secret. *)
Definition token_matches (env_token presentedToken : option string) : Prop :=
  orEmpty env_token <> EmptyString
  /\ trim (orEmpty presentedToken) = orEmpty env_token.

(** Two registries that differ at most in [domain_status] and
    [domain_last_checked_at] of their rows. *)
Definition same_but_validation (r r' : site_row) : Prop :=
  site_id r = site_id r' /\ site_domain r = site_domain r'
  /\ other_columns r = other_columns r'.

Definition differ_only_in_validation (db db' : database) : Prop :=
  Forall2 same_but_validation (sites db) (sites db')
  /\ db_failing db = db_failing db'.

(** The ten decimal digits and the characters of [[a-z0-9.-]], written
    out. *)
Definition DIGITS : string := "0123456789".

Definition HOST_ALPHABET : string :=
  "abcdefghijklmnopqrstuvwxyz0123456789.-".

(** Every character of [s] is one of [alphabet]. *)
Definition over (alphabet s : string) : Prop :=
  forall c, In c (chars s) -> In c (chars alphabet).

(** One to three decimal digits. *)
Definition digit_group (x : string) : Prop :=
  (1 <= String.length x <= 3)%nat /\ over DIGITS x.

(** Four groups of one to three decimal digits, separated by dots. *)
Definition four_digit_groups (s : string) : Prop :=
  exists a b c d,
    s = a ++ "." ++ b ++ "." ++ c ++ "." ++ d
    /\ digit_group a /\ digit_group b /\ digit_group c /\ digit_group d.

(** The number a string of decimal digits writes. *)
Definition decimal (x : string) : N :=
  fold_left (fun n c => (10 * n + (code c - 48))%N) (chars x) 0%N.

(** A literal IPv4 address, in the words of the specification: four
    decimal numbers from 0 to 255, separated by dots. *)
Definition decimal_byte (x : string) : Prop :=
  digit_group x /\ (decimal x <= 255)%N.

Definition ipv4_literal (s : string) : Prop :=
  exists a b c d,
    s = a ++ "." ++ b ++ "." ++ c ++ "." ++ d
    /\ decimal_byte a /\ decimal_byte b /\ decimal_byte c
    /\ decimal_byte d.

End GatekeeperTerms.

Module DnsTerms.
Import JsString Net.

(** The records a lookup yields; a failed lookup yields none. *)
Definition records (a : dns_answer) : list string :=
  match a with
  | DnsRecords rs => rs
  | DnsThrow _ => []
  end.

(** [ip] is an A or AAAA record of [host]. *)
Definition address_of (env : environment) (host ip : string) : Prop :=
  In ip (records (dns_resolve4 env host))
  \/ In ip (records (dns_resolve6 env host)).

Definition D_no_records (host : string) : string :=
  "No A/AAAA records found for " ++ host.

Definition D_no_target (target : string) : string :=
  "Expected target " ++ target ++ " has no A/AAAA records (cannot compare)".

Definition D_mismatch (hostIps expectedIps : list string) : string :=
  "A/AAAA was [" ++ join ", " hostIps ++ "], expected one of ["
  ++ join ", " expectedIps ++ "] (Cloudflare proxy can cause this)".

End DnsTerms.

Module HttpsTerms.
Import Net DomainValidation.

(** The detail of a 200 response that does not prove the platform. *)
Definition D_no_signature : string :=
  "HTTPS /health returned 200 but did not match signature (missing x-sms-sites: 1)".

(** What [k] failed attempts followed by one more put on the network:
    a request, then [k] times a wait and a request. *)
Fixpoint attempts (host : string) (retryDelayMs : Z) (k : nat)
  : list net_event :=
  match k with
  | O => [HttpsRequest host]
  | S k' => HttpsRequest host :: Sleep retryDelayMs
            :: attempts host retryDelayMs k'
  end.

(** The result of the attempt made after [j] earlier ones. *)
Definition result_of (env : environment) (host : string) (n : net_state)
  (j : nat) : check_result :=
  attempt_result (https_get env (requests n + j) host).

(** The response carries the header [name] with the value [v]: its
    first field of that name. *)
Inductive header_is (name v : string) : list (string * string) -> Prop :=
| header_first rest : header_is name v ((name, v) :: rest)
| header_next k x rest :
    k <> name -> header_is name v rest ->
    header_is name v ((k, x) :: rest).

(** The identity proof of the platform: the header [x-sms-sites] with
    the value [1] (white space around it aside), or a body that, trimmed,
    is [OK]; of the body the first 64 units are read. *)
Definition signed (headers : list (string * string)) : Prop :=
  exists v, header_is "x-sms-sites" v headers /\ JsString.trim v = "1".

Definition body_says_ok (chunks : list string) : Prop :=
  JsString.trim (String.substring 0 64 (String.concat EmptyString chunks))
  = "OK".

Definition proves_platform (headers : list (string * string))
  (chunks : list string) : Prop :=
  signed headers \/ body_says_ok chunks.

End HttpsTerms.

Module RegistryTerms.
Import JsString.

(** A domain as the create and edit handlers store it: not empty, and
    left alone by trimming and lower-casing. *)
Definition normal_domain (s : string) : Prop :=
  s <> EmptyString /\ toLowerCase (trim s) = s.

(** The constraints of the table ([id] is the primary key, [domain] is
    unique) and the shape of the domains. *)
Definition well_formed (d : database) : Prop :=
  NoDup (map site_id (sites d))
  /\ NoDup (map site_domain (sites d))
  /\ Forall (fun r => normal_domain (site_domain r)) (sites d).

(** Nothing, or a colon and a port. *)
Definition suffix (port : option string) : string :=
  match port with
  | Some p => String ":"%char p
  | None => EmptyString
  end.

End RegistryTerms.

Module RoutesTerms.
Import JsString Net Modules Routes.

(** Which of the two handlers serves the request. *)
Inductive handler : Type :=
| Admin
| Portal (user_site_id : option Z).

Definition handle (h : handler) (imp : imports) (now : string) (id : Z)
  : M world response :=
  match h with
  | Admin => admin_validate_domain imp now id
  | Portal u => portal_validate_domain imp now u id
  end.

Definition back_of (h : handler) : string :=
  match h with
  | Admin => "/admin/sites"
  | Portal _ => "/portal/site"
  end.

(** The request passes the guards of the handler and a validation of
    [domain] starts: the portal user owns the site, the site is found and
    its domain (trimmed, lower-cased) is [domain], not empty. *)
Definition validation_run (h : handler) (id : Z) (w : world)
  (domain : string) : Prop :=
  match h with
  | Admin => True
  | Portal u => u = Some id /\ id <> 0
  end
  /\ exists site,
       select_site_by_id (db w) id = DbRow (Some site)
       /\ domain = toLowerCase (trim (site_domain site))
       /\ domain <> EmptyString.

(** How the [try] block of a run ends: the status it writes, the calls
    it made, the network state it leaves. *)
Inductive run_outcome (imp : imports) (domain : string) (n : net_state)
  : string -> list route_event -> net_state -> Prop :=
| dns_not_callable :
    (forall g, checkDnsCname imp <> Some (ExFunction g)) ->
    run_outcome imp domain n "error_generic" [] n
| dns_throws g e n1 :
    checkDnsCname imp = Some (ExFunction g) ->
    g domain n = (Throw e, n1) ->
    run_outcome imp domain n "error_generic"
      [Call "checkDnsCname" domain] n1
| dns_undefined g n1 :
    checkDnsCname imp = Some (ExFunction g) ->
    g domain n = (Normal None, n1) ->
    run_outcome imp domain n "error_generic"
      [Call "checkDnsCname" domain] n1
| dns_fails g dr n1 :
    checkDnsCname imp = Some (ExFunction g) ->
    g domain n = (Normal (Some dr), n1) ->
    ok dr = false ->
    run_outcome imp domain n "dns_error" [Call "checkDnsCname" domain] n1
| https_not_callable g dr n1 :
    checkDnsCname imp = Some (ExFunction g) ->
    g domain n = (Normal (Some dr), n1) ->
    ok dr = true ->
    (forall p, checkHttpsHealth imp <> Some (ExFunction p)) ->
    run_outcome imp domain n "dns_ok_ssl_error"
      [Call "checkDnsCname" domain] n1
| https_throws g dr n1 p e n2 :
    checkDnsCname imp = Some (ExFunction g) ->
    g domain n = (Normal (Some dr), n1) ->
    ok dr = true ->
    checkHttpsHealth imp = Some (ExFunction p) ->
    p domain n1 = (Throw e, n2) ->
    run_outcome imp domain n "dns_ok_ssl_error"
      [Call "checkDnsCname" domain; Call "checkHttpsHealth" domain] n2
| https_undefined g dr n1 p n2 :
    checkDnsCname imp = Some (ExFunction g) ->
    g domain n = (Normal (Some dr), n1) ->
    ok dr = true ->
    checkHttpsHealth imp = Some (ExFunction p) ->
    p domain n1 = (Normal None, n2) ->
    run_outcome imp domain n "error_generic"
      [Call "checkDnsCname" domain; Call "checkHttpsHealth" domain] n2
| https_fails g dr n1 p hr n2 :
    checkDnsCname imp = Some (ExFunction g) ->
    g domain n = (Normal (Some dr), n1) ->
    ok dr = true ->
    checkHttpsHealth imp = Some (ExFunction p) ->
    p domain n1 = (Normal (Some hr), n2) ->
    ok hr = false ->
    run_outcome imp domain n "dns_ok_ssl_error"
      [Call "checkDnsCname" domain; Call "checkHttpsHealth" domain] n2
| https_passes g dr n1 p hr n2 :
    checkDnsCname imp = Some (ExFunction g) ->
    g domain n = (Normal (Some dr), n1) ->
    ok dr = true ->
    checkHttpsHealth imp = Some (ExFunction p) ->
    p domain n1 = (Normal (Some hr), n2) ->
    ok hr = true ->
    run_outcome imp domain n "active"
      [Call "checkDnsCname" domain; Call "checkHttpsHealth" domain] n2.

(** The state in which the [try] block starts. *)
Definition stamped (now : string) (id : Z) (w : world) : world :=
  {| db := execute (UpdateLastChecked now id) (db w);
     session_flash := session_flash w;
     net := net w;
     log := (log w ++ [DbRun (UpdateLastChecked now id)])%list |}.

(** The probe did not succeed: it returned [ok = false] or rejected. *)
Definition probe_failed (c : completion (option check_result)) : Prop :=
  match c with
  | Normal (Some hr) => ok hr = false
  | Throw _ => True
  | Normal None => False
  end.

(** The type of notice that goes with a status. *)
Definition flash_kind (st : string) : string :=
  if String.eqb st "active" then "success"
  else if String.eqb st "dns_ok_ssl_error" then "warning"
  else "error".

End RoutesTerms.

(* ================================================================= *)
(** ** Fixtures: a registry, a network *)

Module Fixtures.
Import Net.

Definition row (id : Z) (d : string) (st : option string) : site_row :=
  {| site_id := id; site_domain := d; domain_status := st;
     domain_last_checked_at := None; other_columns := [] |}.

Definition registry : database :=
  {| sites := [row 1 "localhost" (Some "pending");
               row 2 "example.com" (Some "pending");
               row 3 "shop.example" (Some "pending")];
     db_failing := false |}.

(** the registry with three more sites, whose domains are a string of
    four groups of digits that is no address, an address, and a name
    with a character outside [[a-z0-9.-]] *)
Definition registry_odd : database :=
  {| sites := sites registry
              ++ [row 4 "999.999.999.999" (Some "pending");
                  row 5 "10.0.0.1" (Some "pending");
                  row 6 "exa_mple.com" (Some "pending")];
     db_failing := false |}.

(** the same registry after a validation of site 2 *)
Definition registry_validated : database :=
  {| sites := [row 1 "localhost" (Some "pending");
               {| site_id := 2; site_domain := "example.com";
                  domain_status := Some "active";
                  domain_last_checked_at := Some "2025-01-01T00:00:00.000Z";
                  other_columns := [] |};
               row 3 "shop.example" (Some "pending")];
     db_failing := false |}.

Definition ENOTFOUND : js_error :=
  {| err_name := "Error"; err_code := Some "ENOTFOUND";
     err_message := "queryCname ENOTFOUND" |}.

Definition ENODATA : js_error :=
  {| err_name := "Error"; err_code := Some "ENODATA";
     err_message := "queryA ENODATA" |}.

Definition health_ok : http_outcome :=
  HttpResponse 200 [("content-type", "text/plain"); ("x-sms-sites", "1")]
               ["OK"].

Definition hello : http_outcome :=
  HttpResponse 200 [("content-type", "text/plain")] ["Hello"].

(** a 200 response with the signature header and another body; one with
    the body [OK] and no signature header *)
Definition header_only : http_outcome :=
  HttpResponse 200 [("content-type", "text/html"); ("x-sms-sites", "1")]
               ["<html>"; "</html>"].

Definition body_only : http_outcome :=
  HttpResponse 200 [("content-type", "text/plain")]
               ["  O"; "K"; String (ascii_of_nat 10) EmptyString].

(** [example.com] is a CNAME of the platform ingress; [shop.example] is
    a CNAME of another host; [apex.test] has address records only and
    shares one address with the ingress. *)
Definition dns_cname_table (host : string) : dns_answer :=
  if String.eqb host "example.com"
  then DnsRecords ["Proxy.Platform.Test."]
  else if String.eqb host "shop.example"
  then DnsRecords ["wrong.host"]
  else DnsThrow ENOTFOUND.

Definition dns_a_table (host : string) : dns_answer :=
  if String.eqb host "apex.test"
  then DnsRecords ["203.0.113.7"; "203.0.113.9"]
  else if String.eqb host "proxy.platform.test"
  then DnsRecords ["203.0.113.9"]
  else DnsThrow ENODATA.

Definition dns_aaaa_table (host : string) : dns_answer :=
  DnsThrow ENODATA.

(** every request is answered by [o] *)
Definition network (o : http_outcome) : environment :=
  {| dns_resolveCname := dns_cname_table;
     dns_resolve4 := dns_a_table;
     dns_resolve6 := dns_aaaa_table;
     https_get := fun _ _ => o |}.

(** the first [k] requests time out, the later ones are answered *)
Definition flaky (k : nat) : environment :=
  {| dns_resolveCname := dns_cname_table;
     dns_resolve4 := dns_a_table;
     dns_resolve6 := dns_aaaa_table;
     https_get := fun n _ => if Nat.ltb n k then HttpTimeout
                             else health_ok |}.

Definition CNAME_URL : string := "proxy.platform.test".

(** a DNS in which [localhost] is a CNAME of the platform ingress, and
    every request is answered by the platform *)
Definition localhost_points_here : environment :=
  {| dns_resolveCname :=
       fun host => if String.eqb host "localhost"
                   then DnsRecords ["proxy.platform.test"]
                   else dns_cname_table host;
     dns_resolve4 := dns_a_table;
     dns_resolve6 := dns_aaaa_table;
     https_get := fun _ _ => health_ok |}.

(** The routes linked with the earlier module, which exports the
    [checkDnsCname] they import. *)
Definition legacy_imports (env : environment) : Routes.imports :=
  Routes.require (Modules.legacyDomainValidation CNAME_URL env).

(** The routes linked with services/domainValidation.js. *)
Definition current_imports (env : environment) : Routes.imports :=
  Routes.require (Modules.domainValidation CNAME_URL env).

(** The checks of services/domainValidation.js bound under the names
    the routes import. *)
Definition bound_imports (env : environment) : Routes.imports :=
  {| Routes.checkDnsCname :=
       Some (Modules.ExFunction
               (Modules.returning
                  (DomainValidation.checkDnsTarget CNAME_URL env)));
     Routes.checkHttpsHealth :=
       Some (Modules.ExFunction
               (fun domain =>
                  DomainValidation.checkHttpsHealth env domain
                    DomainValidation.no_options));
     Routes.EXPECTED_CNAME_TARGET :=
       Some (Modules.ExString
               (DomainValidation.EXPECTED_CNAME_TARGET CNAME_URL)) |}.

Definition NOW : string := "2025-06-01T12:00:00.000Z".

End Fixtures.

(* ================================================================= *)
(** * Properties *)

(** ** Strings *)

Module JsStringFacts.
Import JsString.

Lemma falsy_true (s : string) : falsy s = true <-> s = EmptyString.
Proof. destruct s; simpl; split; congruence. Qed.

Lemma falsy_false (s : string) : falsy s = false <-> s <> EmptyString.
Proof. destruct s; simpl; split; congruence. Qed.

Lemma eqb_false (a b : string) : String.eqb a b = false <-> a <> b.
Proof. apply String.eqb_neq. Qed.

Lemma forallb_chars (p : ascii -> bool) (s : string) :
  forallb p (chars s) = true <-> forall c, In c (chars s) -> p c = true.
Proof. apply forallb_forall. Qed.

Lemma append_empty (x : string) : (x ++ EmptyString)%string = x.
Proof. induction x; simpl; congruence. Qed.

Lemma append_append (x y z : string) :
  ((x ++ y) ++ z = x ++ y ++ z)%string.
Proof. induction x; simpl; congruence. Qed.

Lemma append_is_empty (a b : string) :
  (a ++ b)%string = EmptyString -> a = EmptyString /\ b = EmptyString.
Proof. destruct a; simpl; [auto | discriminate]. Qed.

End JsStringFacts.

(** ** Regular expressions *)

Module RegexFacts.
Import JsString JsStringFacts Regex RegexTerms.

Lemma test_Void (s : string) : test Void s = false.
Proof. induction s; simpl; auto. Qed.

Lemma test_Alt (s : string) :
  forall r1 r2, test (Alt r1 r2) s = (test r1 s || test r2 s)%bool.
Proof. induction s; intros; simpl; auto. Qed.

Lemma test_Cat_Void (s : string) (r : regex) : test (Cat Void r) s = false.
Proof. induction s; simpl; auto. Qed.

Lemma test_Cat_Eps (s : string) (r : regex) :
  test (Cat Eps r) s = test r s.
Proof.
  destruct s; simpl; [reflexivity|].
  now rewrite test_Alt, test_Cat_Void.
Qed.

Lemma test_Star_Class (p : ascii -> bool) (s : string) :
  test (Star (Class p)) s = forallb p (chars s).
Proof.
  induction s as [|c s IH]; simpl; [reflexivity|].
  destruct (p c); simpl.
  - now rewrite test_Cat_Eps.
  - apply test_Cat_Void.
Qed.

(** [/^[class]+$/] accepts the non-empty strings over the class. *)
Lemma test_Plus_Class (p : ascii -> bool) (s : string) :
  test (Plus (Class p)) s = (negb (falsy s) && forallb p (chars s))%bool.
Proof.
  destruct s as [|c s]; simpl; [reflexivity|].
  destruct (p c); simpl.
  - now rewrite test_Cat_Eps, test_Star_Class.
  - apply test_Cat_Void.
Qed.

(** *** Derivatives decide the language *)

Lemma nullable_lang (r : regex) :
  nullable r = true <-> lang r EmptyString.
Proof.
  induction r as [| |p|r1 IH1 r2 IH2|r1 IH1 r2 IH2|r IH]; simpl.
  - split; [discriminate | inversion 1].
  - split; [constructor | reflexivity].
  - split; [discriminate | inversion 1].
  - rewrite andb_true_iff, IH1, IH2. split.
    + intros [H1 H2]. exact (lang_Cat _ _ _ _ H1 H2).
    + inversion 1 as [| |? ? s1 s2 H1 H2| | | |]; subst.
      match goal with
      | E : (s1 ++ s2)%string = EmptyString |- _ =>
          destruct (append_is_empty _ _ E); subst
      end.
      simpl. auto.
  - rewrite orb_true_iff, IH1, IH2. split.
    + intros [H|H]; [now apply lang_AltL | now apply lang_AltR].
    + inversion 1; subst; auto.
  - split; [constructor | reflexivity].
Qed.

Lemma lang_Star_cons (c : ascii) (r : regex) (s : string) :
  (forall s', lang r (String c s') -> lang (deriv c r) s') ->
  lang (Star r) (String c s) ->
  lang (Cat (deriv c r) (Star r)) s.
Proof.
  intros Hr H.
  remember (Star r) as sr eqn:Er. remember (String c s) as cs eqn:Es.
  revert s Es.
  induction H as [| | | | | |r' s1 s2 H1 _ H2 IH2]; intros t Et;
    try discriminate.
  injection Er as ->.
  destruct s1 as [|c' s1]; simpl in Et.
  - now apply IH2.
  - injection Et as -> <-. apply lang_Cat; [now apply Hr | assumption].
Qed.

Lemma deriv_Cat_sound (c : ascii) (r1 r2 : regex) (s : string) :
  (forall s', lang (deriv c r1) s' -> lang r1 (String c s')) ->
  lang (Cat (deriv c r1) r2) s -> lang (Cat r1 r2) (String c s).
Proof.
  intros IH1. inversion 1 as [| |? ? s1 s2 H1 H2| | | |]; subst.
  apply IH1 in H1. exact (lang_Cat _ _ (String c s1) s2 H1 H2).
Qed.

Lemma deriv_Cat_complete (c : ascii) (r1 r2 : regex) (s : string) :
  (forall s', lang r1 (String c s') -> lang (deriv c r1) s') ->
  (forall s', lang r2 (String c s') -> lang (deriv c r2) s') ->
  lang (Cat r1 r2) (String c s) ->
  lang (Cat (deriv c r1) r2) s
  \/ (lang r1 EmptyString /\ lang (deriv c r2) s).
Proof.
  intros IH1 IH2 H.
  remember (String c s) as cs eqn:Es.
  inversion H as [| |? ? s1 s2 H1 H2 E| | | |]; subst.
  destruct s1 as [|c' s1]; simpl in *.
  - subst s2. right. split; [assumption | now apply IH2].
  - match goal with
    | E : String _ _ = String _ _ |- _ => injection E as -> <-
    end.
    left. apply lang_Cat; [now apply IH1 | assumption].
Qed.

Lemma deriv_lang (c : ascii) (r : regex) :
  forall s, lang (deriv c r) s <-> lang r (String c s).
Proof.
  induction r as [| |p|r1 IH1 r2 IH2|r1 IH1 r2 IH2|r IH]; intros s; simpl.
  - split; inversion 1.
  - split; inversion 1.
  - destruct (p c) eqn:E; split; inversion 1; subst.
    + now constructor.
    + constructor.
    + congruence.
  - assert (Hsound := deriv_Cat_sound c r1 r2 s (fun s' => proj1 (IH1 s'))).
    assert (Hcompl := deriv_Cat_complete c r1 r2 s
                        (fun s' => proj2 (IH1 s'))
                        (fun s' => proj2 (IH2 s'))).
    destruct (nullable r1) eqn:N.
    + split.
      * inversion 1 as [| | |? ? ? H1|? ? ? H2| |]; subst;
          [now apply Hsound|].
        apply nullable_lang in N. apply IH2 in H2.
        exact (lang_Cat _ _ EmptyString _ N H2).
      * intros H. apply Hcompl in H. destruct H as [H | [_ H]];
          [now apply lang_AltL | now apply lang_AltR].
    + split; [exact Hsound|].
      intros H. apply Hcompl in H. destruct H as [H | [H _]];
        [assumption|].
      apply nullable_lang in H. congruence.
  - split; inversion 1; subst;
      try (apply lang_AltL; now apply IH1);
      try (apply lang_AltR; now apply IH2).
  - split.
    + inversion 1 as [| |? ? s1 s2 H1 H2| | | |]; subst.
      apply IH in H1.
      exact (lang_StarS _ (String c s1) s2 H1 H2).
    + apply lang_Star_cons. intros s'. apply IH.
Qed.

(** [test] accepts exactly the strings of the pattern. *)
Lemma test_lang (s : string) :
  forall r, test r s = true <-> lang r s.
Proof.
  induction s as [|c s IH]; intros r; simpl.
  - apply nullable_lang.
  - now rewrite IH, deriv_lang.
Qed.

Lemma lang_Cat_iff (r1 r2 : regex) (s : string) :
  lang (Cat r1 r2) s <->
  exists s1 s2, s = (s1 ++ s2)%string /\ lang r1 s1 /\ lang r2 s2.
Proof.
  split.
  - inversion 1; subst; eauto.
  - intros (s1 & s2 & -> & H1 & H2). now constructor.
Qed.

Lemma lang_Eps_iff (s : string) : lang Eps s <-> s = EmptyString.
Proof. split; [inversion 1; reflexivity | intros ->; constructor]. Qed.

Lemma lang_Chr_iff (a : ascii) (s : string) :
  lang (Chr a) s <-> s = String a EmptyString.
Proof.
  unfold Chr. split.
  - inversion 1 as [|? c E| | | | |]; subst.
    apply Ascii.eqb_eq in E. now subst.
  - intros ->. constructor. apply Ascii.eqb_refl.
Qed.

(** *** Patterns without a match *)

Lemma dead_not_nullable (r : regex) :
  dead r = true -> nullable r = false.
Proof.
  induction r as [| |p|r1 IH1 r2 IH2|r1 IH1 r2 IH2|r IH]; simpl;
    try discriminate; try reflexivity.
  - rewrite orb_true_iff. intros [H|H].
    + now rewrite IH1.
    + rewrite IH2 by assumption. apply andb_false_r.
  - rewrite andb_true_iff. intros [H1 H2]. now rewrite IH1, IH2.
Qed.

Lemma dead_deriv (c : ascii) (r : regex) :
  dead r = true -> dead (deriv c r) = true.
Proof.
  induction r as [| |p|r1 IH1 r2 IH2|r1 IH1 r2 IH2|r IH]; simpl;
    try discriminate; try reflexivity.
  - rewrite orb_true_iff. intros [H|H].
    + rewrite (dead_not_nullable r1 H). simpl. now rewrite IH1.
    + destruct (nullable r1); simpl; rewrite ?IH2, H by assumption;
        now rewrite ?orb_true_r.
  - rewrite !andb_true_iff. intros [H1 H2]. auto.
Qed.

Lemma test_dead (s : string) :
  forall r, dead r = true -> test r s = false.
Proof.
  induction s as [|c s IH]; intros r H; simpl.
  - now apply dead_not_nullable.
  - apply IH. now apply dead_deriv.
Qed.

(** *** The dotted-quad pattern *)

(** [p{1,3}] accepts one to three characters of the class. *)
Lemma test_one_to_three (p : ascii -> bool) (x : string) :
  test (Range 1 2 (Class p)) x
  = (Nat.leb 1 (String.length x) && Nat.leb (String.length x) 3
     && forallb p (chars x))%bool.
Proof.
  destruct x as [|a [|b [|c [|d x]]]]; simpl.
  - reflexivity.
  - destruct (p a); reflexivity.
  - destruct (p a); simpl; [|reflexivity].
    destruct (p b); reflexivity.
  - destruct (p a); simpl; [|reflexivity].
    destruct (p b); simpl; [|reflexivity].
    destruct (p c); reflexivity.
  - destruct (p a); simpl; [|apply test_dead; reflexivity].
    destruct (p b); simpl; [|apply test_dead; reflexivity].
    destruct (p c); simpl; [|apply test_dead; reflexivity].
    destruct (p d); simpl; apply test_dead; reflexivity.
Qed.

(** [\d{1,3}] *)
Lemma test_octet (x : string) :
  test (Range 1 2 (Class digit)) x = octetb x.
Proof. apply test_one_to_three. Qed.

Lemma octetb_octet (x : string) : octetb x = true <-> octet x.
Proof.
  unfold octetb, octet.
  rewrite !andb_true_iff, !Nat.leb_le, forallb_forall. tauto.
Qed.

Lemma lang_octet (x : string) :
  lang (Range 1 2 (Class digit)) x <-> octet x.
Proof. now rewrite <- test_lang, test_octet, octetb_octet. Qed.

End RegexFacts.

(** ** The gatekeeper *)

Module GatekeeperFacts.
Import JsString JsStringFacts Regex RegexTerms RegexFacts.
Import Gatekeeper GatekeeperTerms.

Lemma HOST_RE_spec (d : string) :
  test HOST_RE d = true <->
  d <> EmptyString /\ (forall c, In c (chars d) -> host_char c = true).
Proof.
  unfold HOST_RE. rewrite test_Plus_Class, andb_true_iff, negb_true_iff.
  now rewrite falsy_false, forallb_chars.
Qed.

Lemma select_id_found (db : database) (d : string) :
  db_failing db = false ->
  (exists id, select_id_by_domain db d = DbRow (Some id)) <->
  (exists r, In r (sites db) /\ site_domain r = d).
Proof.
  intros Hok. unfold select_id_by_domain. rewrite Hok. split.
  - intros [id H].
    destruct (find _ (sites db)) as [r|] eqn:F; simpl in H; [|discriminate].
    apply find_some in F. destruct F as [Hin Heq].
    apply String.eqb_eq in Heq. eauto.
  - intros [r [Hin Hd]].
    destruct (find _ (sites db)) as [r'|] eqn:F; simpl; [eauto|].
    exfalso. apply (find_none _ _ F) in Hin.
    rewrite Hd, String.eqb_refl in Hin. discriminate.
Qed.

(** The handler computes the candidate of [normalizeCandidate]. *)
Lemma normalizeCandidate_empty (q : option string) :
  toLowerCase (trim (orEmpty q)) = EmptyString ->
  normalizeCandidate q = EmptyString.
Proof. unfold normalizeCandidate. intros ->. reflexivity. Qed.

Lemma token_gate (env_token q_token : option string) :
  (falsy (orEmpty env_token)
   || negb (String.eqb (trim (orEmpty q_token)) (orEmpty env_token)))%bool
  = false <-> token_matches env_token q_token.
Proof.
  unfold token_matches.
  rewrite orb_false_iff, negb_false_iff, falsy_false, String.eqb_eq.
  tauto.
Qed.

(** The pattern of [isIPv4] accepts the dotted quads: four groups of
    one to three digits; it does not bound a group by 255. *)
Lemma isIPv4_spec (s : string) : isIPv4 s = true <-> dotted_quad s.
Proof.
  unfold isIPv4. rewrite test_lang. unfold IPV4_RE, dotted_quad.
  cbn [Rep]. split.
  - intros H.
    apply lang_Cat_iff in H. destruct H as (a & t1 & -> & Ha & H).
    apply lang_Cat_iff in H. destruct H as (g1 & t2 & -> & Hg1 & H).
    apply lang_Cat_iff in H. destruct H as (g2 & t3 & -> & Hg2 & H).
    apply lang_Cat_iff in H. destruct H as (g3 & t4 & -> & Hg3 & H).
    apply lang_Eps_iff in H. subst t4.
    apply lang_Cat_iff in Hg1. destruct Hg1 as (x1 & b & -> & Hx1 & Hb).
    apply lang_Cat_iff in Hg2. destruct Hg2 as (x2 & c & -> & Hx2 & Hc).
    apply lang_Cat_iff in Hg3. destruct Hg3 as (x3 & d & -> & Hx3 & Hd).
    apply lang_Chr_iff in Hx1, Hx2, Hx3. subst x1 x2 x3.
    exists a, b, c, d. rewrite <- !lang_octet.
    split; [|tauto].
    simpl. now rewrite append_empty.
  - intros (a & b & c & d & -> & Ha & Hb & Hc & Hd).
    apply lang_octet in Ha, Hb, Hc, Hd.
    replace (a ++ "." ++ b ++ "." ++ c ++ "." ++ d)%string
      with (a ++ (("." ++ b) ++ (("." ++ c) ++ (("." ++ d)
                                                  ++ EmptyString))))%string
      by (simpl; now rewrite append_empty).
    repeat (apply lang_Cat; try assumption);
      try (apply lang_Chr_iff; reflexivity).
    constructor.
Qed.

Lemma not_IPv4 (s : string) : isIPv4 s = false <-> ~ dotted_quad s.
Proof.
  rewrite <- isIPv4_spec. destruct (isIPv4 s); split; congruence.
Qed.

Lemma caddy_ask_decision (env_token : option string) (db : database)
  (q_token q_domain : option string) :
  shouldIssueCertificate env_token db q_domain q_token = true <->
  (falsy (orEmpty env_token)
   || negb (String.eqb (trim (orEmpty q_token)) (orEmpty env_token)))%bool
  = false
  /\ falsy (toLowerCase (trim (orEmpty q_domain))) = false
  /\ String.eqb (normalizeCandidate q_domain) "localhost" = false
  /\ isIPv4 (normalizeCandidate q_domain) = false
  /\ test HOST_RE (normalizeCandidate q_domain) = true
  /\ exists id,
       select_id_by_domain db (normalizeCandidate q_domain)
       = DbRow (Some id).
Proof.
  unfold shouldIssueCertificate, caddy_ask.
  fold (normalizeCandidate q_domain).
  change (stripWww (splitFirst ":"%char
                      (toLowerCase (trim (orEmpty q_domain)))))
    with (normalizeCandidate q_domain).
  destruct (falsy (orEmpty env_token)
            || negb (String.eqb (trim (orEmpty q_token))
                                (orEmpty env_token)))%bool;
    [simpl; split; [discriminate | intros [H _]; discriminate]|].
  destruct (falsy (toLowerCase (trim (orEmpty q_domain))));
    [simpl; split; [discriminate | intros (_ & H & _); discriminate]|].
  destruct (String.eqb (normalizeCandidate q_domain) "localhost");
    [simpl; split; [discriminate | intros (_ & _ & H & _); discriminate]|].
  destruct (isIPv4 (normalizeCandidate q_domain));
    [simpl; split;
     [discriminate | intros (_ & _ & _ & H & _); discriminate]|].
  destruct (test HOST_RE (normalizeCandidate q_domain));
    [|simpl; split;
      [discriminate | intros (_ & _ & _ & _ & H & _); discriminate]].
  simpl.
  destruct (select_id_by_domain db (normalizeCandidate q_domain))
    as [|[id|]]; simpl; split; try discriminate; try reflexivity.
  - intros (_ & _ & _ & _ & _ & i & H). discriminate.
  - intros _. repeat split; eauto.
  - intros (_ & _ & _ & _ & _ & i & H). discriminate.
Qed.

(** The classes of the two patterns, character by character. *)
Lemma in_chars (c : ascii) (alphabet : string) :
  In c (chars alphabet) <-> existsb (Ascii.eqb c) (chars alphabet) = true.
Proof.
  rewrite existsb_exists. split.
  - intros H. exists c. split; [exact H | apply Ascii.eqb_refl].
  - intros (x & H & E). apply Ascii.eqb_eq in E. now subst.
Qed.

Lemma digit_written_out (c : ascii) :
  digit c = true <-> In c (chars DIGITS).
Proof.
  rewrite in_chars.
  assert (E : existsb (Ascii.eqb c) (chars DIGITS) = digit c)
    by (destruct c as [[] [] [] [] [] [] [] []]; reflexivity).
  now rewrite E.
Qed.

Lemma host_char_written_out (c : ascii) :
  host_char c = true <-> In c (chars HOST_ALPHABET).
Proof.
  rewrite in_chars.
  assert (E : existsb (Ascii.eqb c) (chars HOST_ALPHABET) = host_char c)
    by (destruct c as [[] [] [] [] [] [] [] []]; reflexivity).
  now rewrite E.
Qed.

Lemma over_host_alphabet (s : string) :
  (forall c, In c (chars s) -> host_char c = true) <-> over HOST_ALPHABET s.
Proof.
  unfold over. split; intros H c Hc; apply host_char_written_out; auto.
Qed.

Lemma octet_written_out (x : string) : octet x <-> digit_group x.
Proof.
  unfold octet, digit_group, over.
  split; intros [L H]; (split; [exact L|]); intros c Hc;
    apply digit_written_out; auto.
Qed.

(** What the pattern of [isIPv4] accepts, without the classes of the
    code. *)
Lemma dotted_quad_written_out (s : string) :
  dotted_quad s <-> four_digit_groups s.
Proof.
  unfold dotted_quad, four_digit_groups.
  split; intros (a & b & c & d & E & Ha & Hb & Hc & Hd);
    exists a, b, c, d; (split; [exact E|]);
    (split; [|split; [|split]]); apply octet_written_out; assumption.
Qed.

(** Every literal IPv4 address is four groups of digits, so the handler
    refuses them all; not every four groups of digits are an address. *)
Lemma ipv4_literal_four_groups (s : string) :
  ipv4_literal s -> four_digit_groups s.
Proof.
  intros (a & b & c & d & E & [Ha _] & [Hb _] & [Hc _] & [Hd _]).
  exists a, b, c, d. auto.
Qed.

Lemma ipv4_literal_refused (env_token : option string) (db : database)
  (candidateDomain presentedToken : option string) :
  ipv4_literal (normalizeCandidate candidateDomain) ->
  shouldIssueCertificate env_token db candidateDomain presentedToken
  = false.
Proof.
  intros H. apply ipv4_literal_four_groups, dotted_quad_written_out in H.
  destruct (shouldIssueCertificate env_token db candidateDomain
              presentedToken) eqn:E; [|reflexivity].
  apply caddy_ask_decision in E.
  destruct E as (_ & _ & _ & E & _). apply not_IPv4 in E. contradiction.
Qed.

(** C2, as the code has it.  While the store answers, [/caddy-ask]
    approves a certificate exactly when: a secret is configured and the
    presented token, trimmed, equals it; and the candidate (trimmed,
    lower-cased, cut at the first colon, one leading [www.] removed) is
    not [localhost], is not four groups of one to three decimal digits
    separated by dots, is a non-empty string of characters of
    [abcdefghijklmnopqrstuvwxyz0123456789.-], and is the domain of a
    row of [sites].  Every other request is refused. *)
Theorem shouldIssueCertificate_iff (env_token : option string)
  (db : database) (candidateDomain presentedToken : option string) :
  db_failing db = false ->
  shouldIssueCertificate env_token db candidateDomain presentedToken = true
  <->
  (orEmpty env_token <> EmptyString
   /\ trim (orEmpty presentedToken) = orEmpty env_token)
  /\ normalizeCandidate candidateDomain <> "localhost"
  /\ ~ four_digit_groups (normalizeCandidate candidateDomain)
  /\ (normalizeCandidate candidateDomain <> EmptyString
      /\ over HOST_ALPHABET (normalizeCandidate candidateDomain))
  /\ exists r, In r (sites db)
               /\ site_domain r = normalizeCandidate candidateDomain.
Proof.
  intros Hdb.
  rewrite caddy_ask_decision, token_gate, falsy_false, eqb_false,
    not_IPv4, HOST_RE_spec, (select_id_found db _ Hdb),
    dotted_quad_written_out.
  unfold token_matches. split.
  - intros (Ht & _ & Hl & Hi & [Hne Hh] & Hr).
    pose proof (proj1 (over_host_alphabet _) Hh) as Hc. tauto.
  - intros (Ht & Hl & Hi & [Hne Hh] & Hr).
    pose proof (proj2 (over_host_alphabet _) Hh) as Hc.
    repeat split; try tauto.
    intros E. apply normalizeCandidate_empty in E. tauto.
Qed.

(** One request that is approved, and one refused for each condition:
    the token, the fallback domain, an address, four groups of digits
    that are no address, a character outside the set, a name that is not
    registered. *)
Lemma shouldIssueCertificate_iff_witness :
  let ask d t :=
    shouldIssueCertificate (Some "s3cret") Fixtures.registry_odd
      (Some d) (Some t) in
  ask "WWW.Example.COM:443" " s3cret " = true
  /\ normalizeCandidate (Some "WWW.Example.COM:443") = "example.com"
  /\ ask "example.com" "guess" <> true
  /\ ask "localhost" "s3cret" <> true
  /\ ask "10.0.0.1" "s3cret" <> true
  /\ ask "999.999.999.999" "s3cret" <> true
  /\ ask "exa_mple.com" "s3cret" <> true
  /\ ask "example.org" "s3cret" <> true.
Proof.
  pose proof (fun d t =>
                shouldIssueCertificate_iff (Some "s3cret")
                  Fixtures.registry_odd (Some d) (Some t) eq_refl) as T.
  cbv zeta. split; [|split; [reflexivity|]].
  - apply T.
    split; [split; [discriminate | reflexivity]|].
    split; [discriminate|]. split.
    { intros (a & b & c & d & E & [La Da] & _).
      change (normalizeCandidate (Some "WWW.Example.COM:443"))
        with "example.com" in E.
      destruct a as [|a1 a]; simpl in La; [lia|].
      simpl in E. injection E as <- _.
      specialize (Da "e"%char (or_introl eq_refl)).
      apply in_chars in Da. discriminate Da. }
    split.
    + split; [discriminate|].
      intros c Hc. apply host_char_written_out.
      revert c Hc. apply forallb_chars. reflexivity.
    + exists (Fixtures.row 2 "example.com" (Some "pending")).
      split; [simpl; auto | reflexivity].
  - repeat split; intros E; apply T in E;
      destruct E as ([_ Ht] & Hl & Hq & [_ Ho] & (r & Hr & Hd)).
    + discriminate Ht.
    + now apply Hl.
    + apply Hq. exists "10", "0", "0", "1".
      split; [reflexivity|].
      repeat split; simpl; try lia; intros c Hc; apply in_chars;
        simpl in Hc; intuition (subst; reflexivity).
    + apply Hq. exists "999", "999", "999", "999".
      split; [reflexivity|].
      repeat split; simpl; try lia; intros c Hc; apply in_chars;
        simpl in Hc; intuition (subst; reflexivity).
    + assert (B : In "_"%char (chars HOST_ALPHABET))
        by (apply Ho; apply in_chars; reflexivity).
      apply in_chars in B. discriminate B.
    + simpl in Hr.
      repeat (destruct Hr as [<-|Hr]; [discriminate Hd|]).
      exact Hr.
Defined.

(** Four groups of digits that are no IPv4 address and are a registered
    domain: not the fallback domain, no literal IPv4 address, only
    characters of [[a-z0-9.-]], presented with the right token, and
    refused.  The handler tests the shape of the candidate, not the
    range of its numbers. *)
Lemma quad_999_is_refused :
  let candidate := normalizeCandidate (Some "999.999.999.999") in
  (orEmpty (Some "s3cret") <> EmptyString
   /\ trim (orEmpty (Some "s3cret")) = orEmpty (Some "s3cret"))
  /\ candidate = "999.999.999.999"
  /\ candidate <> "localhost"
  /\ ~ ipv4_literal candidate
  /\ over HOST_ALPHABET candidate
  /\ (exists r, In r (sites Fixtures.registry_odd)
                /\ site_domain r = candidate)
  /\ caddy_ask (Some "s3cret") Fixtures.registry_odd (Some "s3cret")
       (Some "999.999.999.999")
     = Send 403 "denied"
  /\ shouldIssueCertificate (Some "s3cret") Fixtures.registry_odd
       (Some "999.999.999.999") (Some "s3cret")
     = false.
Proof.
  cbv zeta.
  split; [split; [discriminate | reflexivity]|].
  split; [reflexivity|]. split; [discriminate|]. split.
  { intros (a & b & c & d & E & [[La _] Va] & _).
    change (normalizeCandidate (Some "999.999.999.999"))
      with "999.999.999.999" in E.
    destruct a as [|a1 [|a2 [|a3 [|a4 a]]]]; simpl in La; try lia;
      simpl in E; try discriminate E.
    injection E as <- <- <- _. apply Va. reflexivity. }
  split.
  { intros c Hc. apply host_char_written_out.
    revert c Hc. apply forallb_chars. reflexivity. }
  split.
  { exists (Fixtures.row 4 "999.999.999.999" (Some "pending")).
    split; [simpl; tauto | reflexivity]. }
  split; reflexivity.
Qed.

(** C10.  With no secret configured ([CADDY_ASK_TOKEN] unset or empty)
    every request is refused, whatever token and domain it carries. *)
Theorem no_secret_rejects_all (env_token : option string) (db : database)
  (candidateDomain presentedToken : option string) :
  env_token = None \/ env_token = Some EmptyString ->
  caddy_ask env_token db presentedToken candidateDomain
  = Send 403 "forbidden"
  /\ shouldIssueCertificate env_token db candidateDomain presentedToken
     = false.
Proof.
  intros [-> | ->]; unfold shouldIssueCertificate, caddy_ask; simpl;
    split; reflexivity.
Qed.

Lemma no_secret_rejects_all_witness :
  caddy_ask None Fixtures.registry (Some "") (Some "example.com")
  = Send 403 "forbidden"
  /\ shouldIssueCertificate None Fixtures.registry (Some "example.com")
       (Some "") = false.
Proof.
  apply (no_secret_rejects_all None Fixtures.registry
           (Some "example.com") (Some "")).
  left. reflexivity.
Defined.

Lemma find_by_domain_same (d : string) (l l' : list site_row) :
  Forall2 same_but_validation l l' ->
  option_map site_id (find (fun r => String.eqb (site_domain r) d) l)
  = option_map site_id (find (fun r => String.eqb (site_domain r) d) l').
Proof.
  induction 1 as [|r r' l l' (Hid & Hd & _) _ IH]; simpl; [reflexivity|].
  rewrite <- Hd. destruct (String.eqb (site_domain r) d); simpl; congruence.
Qed.

(** C9.  The answer of [/caddy-ask] does not depend on [domain_status]
    or [domain_last_checked_at]: on two registries that differ only
    there it is the same for every token and candidate. *)
Theorem decision_ignores_validation (env_token : option string)
  (db db' : database) (candidateDomain presentedToken : option string) :
  differ_only_in_validation db db' ->
  caddy_ask env_token db presentedToken candidateDomain
  = caddy_ask env_token db' presentedToken candidateDomain
  /\ shouldIssueCertificate env_token db candidateDomain presentedToken
     = shouldIssueCertificate env_token db' candidateDomain presentedToken.
Proof.
  intros [Hrows Hfail].
  assert (E : forall d, select_id_by_domain db d
                        = select_id_by_domain db' d).
  { intros d. unfold select_id_by_domain. rewrite <- Hfail.
    destruct (db_failing db); [reflexivity|].
    now rewrite (find_by_domain_same d _ _ Hrows). }
  unfold shouldIssueCertificate, caddy_ask.
  rewrite E. split; reflexivity.
Qed.

Lemma decision_ignores_validation_witness :
  caddy_ask (Some "s3cret") Fixtures.registry (Some "s3cret")
    (Some "example.com")
  = caddy_ask (Some "s3cret") Fixtures.registry_validated (Some "s3cret")
      (Some "example.com")
  /\ shouldIssueCertificate (Some "s3cret") Fixtures.registry
       (Some "example.com") (Some "s3cret")
     = shouldIssueCertificate (Some "s3cret") Fixtures.registry_validated
         (Some "example.com") (Some "s3cret").
Proof.
  apply (decision_ignores_validation (Some "s3cret") Fixtures.registry
           Fixtures.registry_validated (Some "example.com")
           (Some "s3cret")).
  split; [|reflexivity].
  repeat constructor.
Defined.

(** Issuance before any validation: a [pending] site is approved. *)
Example approved_while_pending :
  shouldIssueCertificate (Some "s3cret") Fixtures.registry
    (Some "example.com") (Some "s3cret") = true
  /\ Routes.status_of Fixtures.registry 2 = Some "pending".
Proof. split; reflexivity. Qed.

Example ipv4_pattern :
  isIPv4 "10.0.0.1" = true /\ isIPv4 "10.0.0" = false
  /\ isIPv4 "1000.0.0.1" = false /\ isIPv4 "999.999.999.999" = true
  /\ isIPv4 "a.b.c.d" = false.
Proof. repeat split. Qed.

(** The gatekeeper refuses the fallback domain whatever the token and
    the registry. *)
Lemma localhost_refused (env_token : option string) (db : database)
  (candidateDomain presentedToken : option string) :
  normalizeCandidate candidateDomain = "localhost" ->
  shouldIssueCertificate env_token db candidateDomain presentedToken
  = false.
Proof.
  intros H.
  destruct (shouldIssueCertificate env_token db candidateDomain
              presentedToken) eqn:E; [|reflexivity].
  apply caddy_ask_decision in E.
  destruct E as (_ & _ & E & _). rewrite H in E. discriminate.
Qed.

End GatekeeperFacts.

(** ** The DNS check of services/domainValidation.js *)

Module DnsFacts.
Import JsString JsStringFacts Net DomainValidation DnsTerms.

Lemma set_add_In (x ip : string) (ips : list string) :
  In x (set_add ips ip) <-> In x ips \/ x = ip.
Proof.
  unfold set_add.
  destruct (existsb (String.eqb ip) ips) eqn:E.
  - split; [tauto|]. intros [H | ->]; [assumption|].
    apply existsb_exists in E. destruct E as (y & Hy & Heq).
    apply String.eqb_eq in Heq. now subst.
  - rewrite in_app_iff. simpl. intuition.
Qed.

Lemma add_all_In (x : string) (new ips : list string) :
  In x (add_all ips new) <-> In x ips \/ In x new.
Proof.
  unfold add_all. revert ips.
  induction new as [|y new IH]; intros ips; simpl; [tauto|].
  rewrite IH, set_add_In. intuition.
Qed.

Lemma length_zero {A : Type} (l : list A) :
  Nat.eqb (List.length l) 0 = true <-> l = [].
Proof. destruct l; simpl; split; congruence. Qed.

Lemma empty_iff_no_member (l : list string) :
  l = [] <-> forall x, ~ In x l.
Proof.
  destruct l as [|y l]; split; intros H; try easy.
  exfalso. apply (H y). now left.
Qed.

(** [resolveIps] never rejects; it asks for A then AAAA and returns the
    union of what it got. *)
Lemma resolveIps_spec (env : environment) (host : string) (n : net_state) :
  exists ips,
    resolveIps env host n
    = (Normal ips, emit (Query6 host) (emit (Query4 host) n))
    /\ forall ip, In ip ips <-> address_of env host ip.
Proof.
  unfold resolveIps, bind, try_catch, resolve4, resolve6, ret,
    address_of.
  destruct (dns_resolve4 env host) as [e4|r4];
    destruct (dns_resolve6 env host) as [e6|r6]; simpl;
    eexists; (split; [reflexivity|]); intros ip;
    rewrite ?add_all_In; simpl; tauto.
Qed.

Lemma resolveCnames_none (env : environment) (host : string)
  (n : net_state) :
  records (dns_resolveCname env host) = [] ->
  resolveCnames env host n = (Normal [], emit (QueryCname host) n).
Proof.
  unfold resolveCnames, bind, try_catch, resolveCname, ret.
  destruct (dns_resolveCname env host) as [e|rs]; simpl; [reflexivity|].
  now intros ->.
Qed.





Example cname_scenarios :
  let env := Fixtures.network Fixtures.health_ok in
  fst (checkDnsTarget Fixtures.CNAME_URL env "example.com" idle)
  = Normal {| ok := true; method := Some "cname";
              detail := "CNAME OK → proxy.platform.test" |}
  /\ fst (checkDnsTarget Fixtures.CNAME_URL env "shop.example" idle)
     = Normal {| ok := false; method := Some "cname";
                 detail := "CNAME points to [wrong.host], expected proxy.platform.test" |}
  /\ trace (snd (checkDnsTarget Fixtures.CNAME_URL env "shop.example"
                   idle))
     = [QueryCname "shop.example"].
Proof. repeat split. Qed.

Lemma details_distinct (host target : string)
  (hostIps expectedIps : list string) :
  D_no_records host <> D_no_target target
  /\ D_no_records host <> D_mismatch hostIps expectedIps
  /\ D_no_target target <> D_mismatch hostIps expectedIps.
Proof. repeat split; discriminate. Qed.

Lemma shared_address (env : environment) (host target : string)
  (hostIps expectedIps : list string) :
  (forall ip, In ip hostIps <-> address_of env host ip) ->
  (forall ip, In ip expectedIps <-> address_of env target ip) ->
  existsb (includes expectedIps) hostIps = true <->
  exists ip, address_of env host ip /\ address_of env target ip.
Proof.
  intros Hh Ht. rewrite existsb_exists. unfold includes. split.
  - intros (ip & Hin & Hex). apply existsb_exists in Hex.
    destruct Hex as (y & Hy & Heq). apply String.eqb_eq in Heq. subst y.
    exists ip. split; [now apply Hh | now apply Ht].
  - intros (ip & H1 & H2). exists ip. split; [now apply Hh|].
    apply existsb_exists. exists ip. split; [now apply Ht|].
    apply String.eqb_refl.
Qed.

(** C5, as the code has it.  For a non-empty (normalised) domain whose
    CNAME lookup fails or is empty, [checkDnsTarget] answers with
    method [a/aaaa].  It queries A and AAAA of the domain and, when the
    domain has an address, A and AAAA of [EXPECTED_CNAME_TARGET]; a
    failed lookup counts as no record.  [ok] holds exactly when the two
    address sets share an address.  A domain without address and a
    target without address each give [ok = false] with a detail of its
    own, different from each other and from the detail of a mismatch. *)
Theorem checkDnsTarget_addresses (CNAME_URL : string) (env : environment)
  (domain : string) (n : net_state) :
  let host := normHost domain in
  let target := EXPECTED_CNAME_TARGET CNAME_URL in
  host <> EmptyString ->
  records (dns_resolveCname env host) = [] ->
  exists res n',
    checkDnsTarget CNAME_URL env domain n = (Normal res, n')
    /\ method res = Some "a/aaaa"
    /\ (ok res = true <->
        exists ip, address_of env host ip /\ address_of env target ip)
    /\ ((forall ip, ~ address_of env host ip) ->
        ok res = false /\ detail res = D_no_records host
        /\ trace n' = (trace n ++ [QueryCname host; Query4 host;
                                   Query6 host])%list)
    /\ ((exists ip, address_of env host ip) ->
        trace n' = (trace n ++ [QueryCname host; Query4 host; Query6 host;
                                Query4 target; Query6 target])%list)
    /\ ((exists ip, address_of env host ip) ->
        (forall ip, ~ address_of env target ip) ->
        ok res = false /\ detail res = D_no_target target)
    /\ ((exists ip, address_of env host ip) ->
        (exists ip, address_of env target ip) ->
        ok res = false ->
        exists hostIps expectedIps,
          detail res = D_mismatch hostIps expectedIps)
    /\ (forall h t a b,
          D_no_records h <> D_no_target t
          /\ D_no_records h <> D_mismatch a b
          /\ D_no_target t <> D_mismatch a b).
Proof.
  intros host target Hhost Hcn.
  apply falsy_false in Hhost.
  unfold checkDnsTarget. fold host. fold target. rewrite Hhost.
  unfold bind at 1. rewrite (resolveCnames_none env host n Hcn).
  cbn [List.length Nat.eqb negb].
  destruct (resolveIps_spec env host (emit (QueryCname host) n))
    as (hostIps & Eh & Hh).
  unfold bind at 1. rewrite Eh.
  destruct (Nat.eqb (List.length hostIps) 0) eqn:Lh.
  - (* the domain has no address *)
    apply length_zero in Lh. subst hostIps.
    assert (Hnone : forall ip, ~ address_of env host ip).
    { intros ip Hip. apply Hh in Hip. inversion Hip. }
    eexists; eexists; split; [reflexivity|].
    split; [reflexivity|]. simpl ok. simpl detail.
    split; [split; [discriminate|];
            intros (ip & Hip & _); now apply Hnone in Hip|].
    split; [intros _; repeat split;
            simpl; now rewrite <- !app_assoc|].
    split; [intros (ip & Hip); now apply Hnone in Hip|].
    split; [intros (ip & Hip); now apply Hnone in Hip|].
    split; [intros (ip & Hip); now apply Hnone in Hip|].
    intros; apply details_distinct.
  - (* the domain has an address: ask for the target *)
    assert (Hsome : ~ forall ip, ~ address_of env host ip).
    { intros Hno. destruct hostIps as [|ip ?]; [discriminate|].
      apply (Hno ip). apply Hh. now left. }
    destruct (resolveIps_spec env target
                (emit (Query6 host)
                   (emit (Query4 host) (emit (QueryCname host) n))))
      as (expectedIps & Et & Ht).
    unfold bind at 1. rewrite Et.
    assert (Htrace : trace (emit (Query6 target)
                      (emit (Query4 target)
                        (emit (Query6 host)
                          (emit (Query4 host)
                            (emit (QueryCname host) n)))))
                     = (trace n ++ [QueryCname host; Query4 host;
                                    Query6 host; Query4 target;
                                    Query6 target])%list).
    { simpl. now rewrite <- !app_assoc. }
    destruct (Nat.eqb (List.length expectedIps) 0) eqn:Lt.
    + (* the target has no address *)
      apply length_zero in Lt. subst expectedIps.
      assert (Hnone : forall ip, ~ address_of env target ip).
      { intros ip Hip. apply Ht in Hip. inversion Hip. }
      eexists; eexists; split; [reflexivity|].
      split; [reflexivity|]. simpl ok. simpl detail.
      split; [split; [discriminate|];
              intros (ip & _ & Hip); now apply Hnone in Hip|].
      split; [intros Hno; now apply Hsome in Hno|].
      split; [intros _; exact Htrace|].
      split; [intros _ _; split; reflexivity|].
      split; [intros _ (ip & Hip); now apply Hnone in Hip|].
      intros; apply details_distinct.
    + (* both have addresses: compare *)
      assert (Htsome : ~ forall ip, ~ address_of env target ip).
      { intros Hno. destruct expectedIps as [|ip ?]; [discriminate|].
        apply (Hno ip). apply Ht. now left. }
      pose proof (shared_address env host target hostIps expectedIps
                    Hh Ht) as Hshare.
      destruct (existsb (includes expectedIps) hostIps) eqn:E;
        eexists; eexists; (split; [reflexivity|]);
        (split; [reflexivity|]); simpl ok; simpl detail.
      * split; [tauto|].
        split; [intros Hno; now apply Hsome in Hno|].
        split; [intros _; exact Htrace|].
        split; [intros _ Hno; now apply Htsome in Hno|].
        split; [intros _ _ H; discriminate|].
        intros; apply details_distinct.
      * split; [split; [discriminate|];
                intros H; apply Hshare in H; discriminate|].
        split; [intros Hno; now apply Hsome in Hno|].
        split; [intros _; exact Htrace|].
        split; [intros _ Hno; now apply Htsome in Hno|].
        split; [intros _ _ _; now exists hostIps, expectedIps|].
        intros; apply details_distinct.
Qed.

Lemma checkDnsTarget_addresses_witness :
  exists res n',
    checkDnsTarget Fixtures.CNAME_URL (Fixtures.network Fixtures.health_ok)
      "apex.test" idle = (Normal res, n')
    /\ method res = Some "a/aaaa"
    /\ ok res = true.
Proof.
  destruct (checkDnsTarget_addresses Fixtures.CNAME_URL
              (Fixtures.network Fixtures.health_ok) "apex.test" idle)
    as (res & n' & E & Hm & Hok & _).
  - discriminate.
  - reflexivity.
  - exists res, n'. split; [exact E|]. split; [exact Hm|].
    apply Hok. exists "203.0.113.9". split.
    + left. simpl. auto.
    + left. simpl. auto.
Defined.

(** On an apex domain that shares an address with the target the
    method is the string [a/aaaa]; it is not [a_aaaa]. *)
Lemma method_is_not_a_aaaa :
  exists res n',
    checkDnsTarget Fixtures.CNAME_URL (Fixtures.network Fixtures.health_ok)
      "apex.test" idle = (Normal res, n')
    /\ records (dns_resolveCname (Fixtures.network Fixtures.health_ok)
                  (normHost "apex.test")) = []
    /\ ok res = true
    /\ method res = Some "a/aaaa"
    /\ method res <> Some "a_aaaa".
Proof.
  eexists; eexists. split; [reflexivity|].
  repeat split. discriminate.
Qed.

(** With an empty domain nothing is resolved at all. *)
Example empty_domain_resolves_nothing :
  checkDnsTarget Fixtures.CNAME_URL (Fixtures.network Fixtures.health_ok)
    "  " idle
  = (Normal {| ok := false; method := None; detail := "Empty domain" |},
     idle).
Proof. reflexivity. Qed.

End DnsFacts.

(** ** The HTTPS check of services/domainValidation.js *)

Module HttpsFacts.
Import JsString JsStringFacts Net DomainValidation HttpsTerms.

Lemma length_sliceTo (k : nat) (s : string) :
  (String.length (sliceTo k s) <= k)%nat.
Proof.
  revert s. induction k as [|k IH]; intros [|c s]; simpl; try lia.
  specialize (IH s). lia.
Qed.

Lemma sliceTo_short (k : nat) (s : string) :
  (String.length s <= k)%nat -> sliceTo k s = s.
Proof.
  revert s. induction k as [|k IH]; intros [|c s]; simpl; intros H;
    try reflexivity; try lia.
  f_equal. apply IH. lia.
Qed.

Lemma sliceTo_app (k : nat) (x y : string) :
  sliceTo k (sliceTo k x ++ y) = sliceTo k (x ++ y).
Proof.
  revert x. induction k as [|k IH]; intros [|c x]; simpl;
    try reflexivity.
  now rewrite IH.
Qed.

Lemma on_data_prefix (body chunk : string) :
  on_data body chunk = sliceTo 64 (body ++ chunk).
Proof.
  unfold on_data.
  destruct (Nat.ltb_spec 64 (String.length (body ++ chunk)));
    [reflexivity|].
  symmetry. now apply sliceTo_short.
Qed.

Lemma concat_cons (c : string) (chunks : list string) :
  String.concat EmptyString (c :: chunks)
  = (c ++ String.concat EmptyString chunks)%string.
Proof.
  destruct chunks; cbn [String.concat].
  - now rewrite append_empty.
  - reflexivity.
Qed.

Lemma fold_on_data (chunks : list string) (b : string) :
  fold_left on_data chunks (sliceTo 64 b)
  = sliceTo 64 (b ++ String.concat EmptyString chunks).
Proof.
  revert b. induction chunks as [|c chunks IH]; intros b.
  - cbn [fold_left String.concat]. now rewrite append_empty.
  - cbn [fold_left].
    now rewrite on_data_prefix, sliceTo_app, IH, concat_cons,
      append_append.
Qed.

(** The body kept by the [data] listener is the first 64 units of what
    was received. *)
Lemma read_body_prefix (chunks : list string) :
  read_body chunks = sliceTo 64 (String.concat EmptyString chunks).
Proof. apply (fold_on_data chunks EmptyString). Qed.

(** The header object and the body, without the helpers of the code. *)
Lemma header_get_is (name v : string) (headers : list (string * string)) :
  header_get headers name = Some v <-> header_is name v headers.
Proof.
  induction headers as [|[k x] rest IH]; simpl.
  - split; [discriminate | inversion 1].
  - destruct (String.eqb_spec k name) as [->|Hk].
    + split.
      * intros [= ->]. constructor.
      * inversion 1; subst; [reflexivity | contradiction].
    + rewrite IH. split.
      * intros H. now constructor.
      * inversion 1; subst; [contradiction | assumption].
Qed.

Lemma sigHeader_signed (headers : list (string * string)) :
  sigHeader headers = "1" <-> signed headers.
Proof.
  unfold sigHeader, signed, HEALTH_SIGNATURE_HEADER.
  destruct (header_get headers "x-sms-sites") as [v|] eqn:E; simpl.
  - split.
    + intros H. exists v. split; [now apply header_get_is | exact H].
    + intros (v' & H & Hv). apply header_get_is in H. congruence.
  - split; [discriminate|].
    intros (v' & H & _). apply header_get_is in H. congruence.
Qed.

Lemma substring_prefix (k : nat) (s : string) :
  String.substring 0 k s = sliceTo k s.
Proof.
  revert s. induction k as [|k IH]; intros [|c s]; simpl;
    try reflexivity.
  now rewrite IH.
Qed.

Lemma bodyTrim_says_ok (chunks : list string) :
  bodyTrim chunks = "OK" <-> body_says_ok chunks.
Proof.
  unfold bodyTrim, body_says_ok.
  now rewrite read_body_prefix, substring_prefix.
Qed.

Lemma isOurApp_proves (headers : list (string * string))
  (chunks : list string) :
  isOurApp headers chunks = true <-> proves_platform headers chunks.
Proof.
  unfold isOurApp, proves_platform.
  rewrite orb_true_iff, !String.eqb_eq.
  now rewrite sigHeader_signed, bodyTrim_says_ok.
Qed.

(** C3.  An attempt makes one request and reports [ok] exactly when the
    request met a response with status 200 that proves the platform: its
    header [x-sms-sites] has the value [1], or its body (the first 64
    units of it), trimmed, is [OK].  A 200 response with neither reports
    [ok = false] with a detail that no response of another status
    gives. *)
Theorem attemptOnce_ok_iff (env : environment) (host : string)
  (n : net_state) :
  exists res n',
    attemptOnce env host n = (Normal res, n')
    /\ res = attempt_result (https_get env (requests n) host)
    /\ (ok res = true <->
        exists headers chunks,
          https_get env (requests n) host
          = HttpResponse 200 headers chunks
          /\ proves_platform headers chunks)
    /\ (forall headers chunks,
          https_get env (requests n) host
          = HttpResponse 200 headers chunks ->
          ~ proves_platform headers chunks ->
          ok res = false /\ detail res = D_no_signature)
    /\ (forall statusCode headers chunks,
          https_get env (requests n) host
          = HttpResponse statusCode headers chunks ->
          statusCode <> 200 ->
          ok res = false /\ detail res <> D_no_signature).
Proof.
  unfold attemptOnce, bind, request, ret.
  eexists; eexists. split; [reflexivity|]. split; [reflexivity|].
  destruct (https_get env (requests n) host) as [s h c|e|]; simpl.
  - pose proof (isOurApp_proves h c) as P.
    destruct (Z.eqb_spec s 200) as [->|Hs]; simpl.
    + destruct (isOurApp h c); simpl.
      * assert (Hp : proves_platform h c) by now apply P.
        split; [split; [eauto|reflexivity]|].
        split; [intros ? ? H; inversion H; subst; tauto|].
        intros ? ? ? H; inversion H; subst. congruence.
      * assert (Hp : ~ proves_platform h c)
          by (intros Hp; apply P in Hp; discriminate).
        split; [split; [discriminate|];
                intros (? & ? & H & ?); inversion H; subst; tauto|].
        split; [intros; split; reflexivity|].
        intros ? ? ? H; inversion H; subst. congruence.
    + split; [split; [discriminate|];
              intros (? & ? & H & _); inversion H; subst; congruence|].
      split; [intros ? ? H; inversion H; subst; congruence|].
      intros ? ? ? _ _. split; [reflexivity|].
      unfold D_no_signature. discriminate.
  - split; [split; [discriminate | intros (? & ? & H & _); discriminate]|].
    split; intros; discriminate.
  - split; [split; [discriminate | intros (? & ? & H & _); discriminate]|].
    split; intros; discriminate.
Qed.

(** The header alone proves the platform, and so does the body alone. *)
Lemma attemptOnce_ok_iff_witness :
  (exists res n',
      attemptOnce (Fixtures.network Fixtures.header_only) "example.com"
        idle = (Normal res, n')
      /\ ok res = true)
  /\ (exists res n',
        attemptOnce (Fixtures.network Fixtures.body_only) "example.com"
          idle = (Normal res, n')
        /\ ok res = true)
  /\ (exists res n',
        attemptOnce (Fixtures.network Fixtures.hello) "example.com"
          idle = (Normal res, n')
        /\ ok res = false /\ detail res = D_no_signature).
Proof.
  split; [|split].
  - destruct (attemptOnce_ok_iff (Fixtures.network Fixtures.header_only)
                "example.com" idle)
      as (res & n' & E & _ & Hok & _).
    exists res, n'. split; [exact E|]. apply Hok.
    eexists; eexists. split; [reflexivity|].
    left. exists "1". split; [|reflexivity].
    apply header_next; [discriminate|]. apply header_first.
  - destruct (attemptOnce_ok_iff (Fixtures.network Fixtures.body_only)
                "example.com" idle)
      as (res & n' & E & _ & Hok & _).
    exists res, n'. split; [exact E|]. apply Hok.
    eexists; eexists. split; [reflexivity|].
    right. reflexivity.
  - destruct (attemptOnce_ok_iff (Fixtures.network Fixtures.hello)
                "example.com" idle)
      as (res & n' & E & _ & _ & Hno & _).
    exists res, n'. split; [exact E|].
    apply (Hno [("content-type", "text/plain")] ["Hello"] eq_refl).
    intros [(v & H & Hv) | H].
    + inversion H; subst.
      match goal with H' : header_is _ _ [] |- _ => inversion H' end.
    + discriminate H.
Defined.

Example health_scenarios :
  attempt_result Fixtures.health_ok
  = {| ok := true; method := None;
       detail := "HTTPS /health returned 200 (validated)" |}
  /\ attempt_result Fixtures.header_only
     = {| ok := true; method := None;
          detail := "HTTPS /health returned 200 (validated)" |}
  /\ attempt_result Fixtures.body_only
     = {| ok := true; method := None;
          detail := "HTTPS /health returned 200 (validated)" |}
  /\ attempt_result (HttpResponse 200 [("x-sms-sites", "0")] ["KO"])
     = {| ok := false; method := None; detail := D_no_signature |}
  /\ attempt_result Fixtures.hello
     = {| ok := false; method := None; detail := D_no_signature |}
  /\ attempt_result (HttpResponse 200 [] [" OK"; " "])
     = {| ok := true; method := None;
          detail := "HTTPS /health returned 200 (validated)" |}
  /\ attempt_result (HttpResponse 502 [("x-sms-sites", "1")] ["OK"])
     = {| ok := false; method := None;
          detail := "HTTPS /health returned status 502" |}
  /\ attempt_result HttpTimeout
     = {| ok := false; method := None;
          detail := "HTTPS timeout when calling /health" |}.
Proof. repeat split. Qed.

(** *** The retry loop *)

Lemma attempts_requests (host : string) (d : Z) (k : nat) :
  List.length (filter is_https_request (attempts host d k)) = S k.
Proof. induction k; simpl; congruence. Qed.

Lemma attempts_sleeps (host : string) (d : Z) (k : nat) :
  filter is_sleep (attempts host d k) = repeat (Sleep d) k.
Proof. induction k; simpl; congruence. Qed.

Section Loop.
Variable env : environment.
Variable host : string.
Variables retries retryDelayMs : Z.

(** More fuel than iterations left changes nothing: the bound never
    cuts the loop of the source short. *)
Lemma retry_loop_fuel (fuel : nat) :
  forall i last n,
    retries + 1 - i <= Z.of_nat fuel ->
    retry_loop env (S fuel) host retries retryDelayMs i last n
    = retry_loop env fuel host retries retryDelayMs i last n.
Proof.
  induction fuel as [|fuel IH]; intros i last n H.
  - cbn [retry_loop].
    destruct (Z.leb_spec i retries); [lia | reflexivity].
  - change (retry_loop env (S (S fuel)) host retries retryDelayMs i
              last n)
      with ((if i <=? retries
             then bind (attemptOnce env host)
                    (fun r =>
                       if ok r then ret (Some r)
                       else bind (if i <? retries
                                  then sleep retryDelayMs else ret tt)
                              (fun _ => retry_loop env (S fuel) host
                                          retries retryDelayMs (i + 1)
                                          (Some r)))
             else ret last) n).
    change (retry_loop env (S fuel) host retries retryDelayMs i last n)
      with ((if i <=? retries
             then bind (attemptOnce env host)
                    (fun r =>
                       if ok r then ret (Some r)
                       else bind (if i <? retries
                                  then sleep retryDelayMs else ret tt)
                              (fun _ => retry_loop env fuel host
                                          retries retryDelayMs (i + 1)
                                          (Some r)))
             else ret last) n).
    destruct (i <=? retries); [|reflexivity].
    unfold bind at 1 3. unfold attemptOnce, bind at 1 3, request, ret.
    destruct (ok (attempt_result _)); [reflexivity|].
    unfold bind.
    destruct (i <? retries); unfold sleep, ret;
      apply IH; lia.
Qed.

(** With exactly the iterations left as fuel and at least one left,
    the loop makes [k + 1] attempts for some [k] below the fuel: the
    first [k] fail, each followed by a wait, and it returns the
    result of the last one, which is [ok] unless the fuel is spent. *)
Lemma retry_loop_spec (fuel : nat) :
  forall i last n,
    Z.of_nat (S fuel) = retries + 1 - i ->
    exists (k : nat) (n' : net_state),
      (k <= fuel)%nat
      /\ retry_loop env (S fuel) host retries retryDelayMs i last n
         = (Normal (Some (result_of env host n k)), n')
      /\ (forall j, (j < k)%nat -> ok (result_of env host n j) = false)
      /\ (ok (result_of env host n k) = true \/ k = fuel)
      /\ trace n' = (trace n ++ attempts host retryDelayMs k)%list
      /\ requests n' = (requests n + S k)%nat.
Proof.
  induction fuel as [|fuel IH]; intros i last n H.
  - exists 0%nat. cbn [retry_loop].
    destruct (Z.leb_spec i retries); [|lia].
    unfold bind at 1. unfold attemptOnce, bind at 1, request, ret.
    unfold result_of. rewrite Nat.add_0_r.
    destruct (ok (attempt_result _)) eqn:E.
    + eexists. split; [lia|]. split; [reflexivity|].
      split; [intros; lia|]. split; [now left|].
      split; [reflexivity | simpl; lia].
    + unfold bind. destruct (Z.ltb_spec i retries); [lia|].
      eexists. split; [lia|]. split; [reflexivity|].
      split; [intros; lia|]. split; [now right|].
      split; [reflexivity | simpl; lia].
  - change (retry_loop env (S (S fuel)) host retries retryDelayMs i
              last n)
      with ((if i <=? retries
             then bind (attemptOnce env host)
                    (fun r =>
                       if ok r then ret (Some r)
                       else bind (if i <? retries
                                  then sleep retryDelayMs else ret tt)
                              (fun _ => retry_loop env (S fuel) host
                                          retries retryDelayMs (i + 1)
                                          (Some r)))
             else ret last) n).
    destruct (Z.leb_spec i retries); [|lia].
    unfold bind at 1. unfold attemptOnce, bind at 1, request, ret.
    destruct (ok (attempt_result (https_get env (requests n) host)))
      eqn:E.
    + exists 0%nat. unfold result_of. rewrite Nat.add_0_r, E.
      eexists. split; [lia|]. split; [reflexivity|].
      split; [intros; lia|]. split; [now left|].
      split; [reflexivity | simpl; lia].
    + unfold bind at 1. destruct (Z.ltb_spec i retries); [|lia].
      unfold sleep.
      set (n1 := emit (Sleep retryDelayMs)
                   {| trace := (trace n ++ [HttpsRequest host])%list;
                      requests := S (requests n) |}).
      destruct (IH (i + 1)
                  (Some (attempt_result
                           (https_get env (requests n) host))) n1)
        as (k & n' & Hk & Hrun & Hfail & Hlast & Htr & Hreq); [lia|].
      assert (Hshift : forall j, result_of env host n1 j
                                 = result_of env host n (S j)).
      { intros j. unfold result_of. simpl. f_equal. f_equal. lia. }
      exists (S k), n'. split; [lia|].
      split; [rewrite Hrun, Hshift; reflexivity|].
      split.
      { intros [|j] Hj.
        - unfold result_of. now rewrite Nat.add_0_r.
        - rewrite <- Hshift. apply Hfail. lia. }
      split; [rewrite <- Hshift; destruct Hlast; [now left | right; lia]|].
      split.
      { rewrite Htr. simpl. now rewrite <- !app_assoc. }
      rewrite Hreq. simpl. lia.
Qed.

End Loop.

(** C6, as the code has it.  Called with a domain that is not blank
    and a count [retries >= 0] ([2] unless given, the delay [1500]
    unless given), [checkHttpsHealth] makes [k + 1] attempts for some
    [k <= retries]: each of the first [k] fails and is followed by a
    wait of [retryDelayMs]; it stops at the first attempt that is [ok]
    and otherwise after [retries + 1] attempts, and returns the result
    of the last attempt made.  With [retries = 0] it makes one attempt
    and never waits. *)
Theorem checkHttpsHealth_retries (env : environment) (domain : string)
  (o : options) (n : net_state) :
  let retries := default 2 (opt_retries o) in
  let retryDelayMs := default 1500 (opt_retryDelayMs o) in
  let host := trim domain in
  host <> EmptyString ->
  0 <= retries ->
  exists (k : nat) (n' : net_state),
    Z.of_nat k <= retries
    /\ checkHttpsHealth env domain o n
       = (Normal (Some (result_of env host n k)), n')
    /\ (forall j, (j < k)%nat -> ok (result_of env host n j) = false)
    /\ (ok (result_of env host n k) = true \/ Z.of_nat k = retries)
    /\ trace n' = (trace n ++ attempts host retryDelayMs k)%list
    /\ count is_https_request n' = (count is_https_request n + k + 1)%nat
    /\ count is_sleep n' = (count is_sleep n + k)%nat
    /\ (retries = 0 ->
        trace n' = (trace n ++ [HttpsRequest host])%list).
Proof.
  intros retries retryDelayMs host Hhost Hr.
  apply falsy_false in Hhost.
  unfold checkHttpsHealth. fold retries. fold retryDelayMs. fold host.
  rewrite Hhost.
  replace (Z.to_nat (retries + 1)) with (S (Z.to_nat retries)) by lia.
  destruct (retry_loop_spec env host retries retryDelayMs
              (Z.to_nat retries) 0 None n)
    as (k & n' & Hk & Hrun & Hfail & Hlast & Htr & Hreq); [lia|].
  exists k, n'.
  split; [lia|]. split; [exact Hrun|]. split; [exact Hfail|].
  split; [destruct Hlast; [now left | right; lia]|].
  split; [exact Htr|].
  unfold count. rewrite Htr, !filter_app, !length_app,
    attempts_requests, attempts_sleeps, repeat_length.
  split; [lia|]. split; [reflexivity|].
  intros H0. assert (k = 0)%nat by lia. subst k. reflexivity.
Qed.

Lemma checkHttpsHealth_retries_witness :
  exists (k : nat) (n' : net_state),
    Z.of_nat k <= 2
    /\ checkHttpsHealth (Fixtures.flaky 1) "example.com" no_options idle
       = (Normal (Some (result_of (Fixtures.flaky 1) "example.com" idle k)),
          n')
    /\ trace n'
       = (trace idle ++ attempts "example.com" 1500 k)%list.
Proof.
  destruct (checkHttpsHealth_retries (Fixtures.flaky 1) "example.com"
              no_options idle)
    as (k & n' & Hk & Hrun & _ & _ & Htr & _).
  - discriminate.
  - simpl. lia.
  - exists k, n'. repeat split; assumption.
Defined.

Example retry_scenarios :
  (* one time-out, then the health page: two attempts, one wait *)
  checkHttpsHealth (Fixtures.flaky 1) "example.com" no_options idle
  = (Normal (Some {| ok := true; method := None;
                     detail := "HTTPS /health returned 200 (validated)" |}),
     {| trace := [HttpsRequest "example.com"; Sleep 1500;
                  HttpsRequest "example.com"];
        requests := 2 |})
  (* only time-outs: three attempts, two waits, the last result *)
  /\ checkHttpsHealth (Fixtures.network HttpTimeout) "example.com"
       no_options idle
     = (Normal (Some {| ok := false; method := None;
                        detail := "HTTPS timeout when calling /health" |}),
        {| trace := [HttpsRequest "example.com"; Sleep 1500;
                     HttpsRequest "example.com"; Sleep 1500;
                     HttpsRequest "example.com"];
           requests := 3 |})
  (* the defaults *)
  /\ checkHttpsHealth (Fixtures.network HttpTimeout) "example.com"
       no_options idle
     = checkHttpsHealth (Fixtures.network HttpTimeout) "example.com"
         {| opt_retries := Some 2; opt_retryDelayMs := Some 1500 |} idle.
Proof. repeat split. Qed.

(** Called with a blank domain and [retries = 0], [checkHttpsHealth]
    answers [Empty domain] without any attempt. *)
Lemma blank_domain_no_attempt :
  let o := {| opt_retries := Some 0; opt_retryDelayMs := None |} in
  let run := checkHttpsHealth (Fixtures.network Fixtures.health_ok)
               "  " o idle in
  fst run = Normal (Some {| ok := false; method := None;
                            detail := "Empty domain" |})
  /\ count is_https_request (snd run) = 0%nat
  /\ count is_https_request (snd run) <> 1%nat.
Proof. repeat split. discriminate. Qed.

(** A negative count makes no attempt and returns [undefined]. *)
Example negative_retries :
  checkHttpsHealth (Fixtures.network Fixtures.health_ok) "example.com"
    {| opt_retries := Some (-1); opt_retryDelayMs := None |} idle
  = (Normal None, idle).
Proof. reflexivity. Qed.

End HttpsFacts.

(** ** The validate-domain handlers *)

Module RoutesFacts.
Import JsString JsStringFacts Net Modules Routes RoutesTerms.
Import Fixtures(legacy_imports, current_imports, bound_imports, NOW).

Ltac unfold_run :=
  cbv beta delta [run_checks try_catch bind call object db_run set_flash
                  record lift_net ret throw].

Ltac leaf :=
  eexists; eexists; eexists;
  split; [reflexivity|];
  split; [econstructor; eauto; try congruence|];
  split; [cbn [log]; rewrite <- ?app_assoc; reflexivity|];
  split; [reflexivity | cbn [session_flash]; discriminate].

(** Every run of the [try] block ends in one of the outcomes, with one
    status statement, issued last. *)
Lemma run_checks_outcome (imp : imports) (back domain : string) (id : Z)
  (w1 : world) :
  exists st calls w',
    run_checks imp back domain id w1 = (Normal (RedirectTo back), w')
    /\ run_outcome imp domain (net w1) st calls (net w')
    /\ log w' = (log w1 ++ calls ++ [DbRun (UpdateStatus st id)])%list
    /\ db w' = execute (UpdateStatus st id) (db w1)
    /\ session_flash w' <> None.
Proof.
  unfold_run.
  destruct (checkDnsCname imp) as [[g|s]|] eqn:Edns;
    cbn [net db log session_flash]; [|leaf|leaf].
  destruct (g domain (net w1)) as [[[dr|]|e] n1] eqn:Eg;
    cbn [net db log session_flash]; [|leaf|leaf].
  destruct (ok dr) eqn:Eok; cbn [negb]; [|leaf].
  destruct (checkHttpsHealth imp) as [[p|s]|] eqn:Ehttps;
    cbn [net db log session_flash]; [|leaf|leaf].
  destruct (p domain n1) as [[[hr|]|e] n2] eqn:Ep;
    cbn [net db log session_flash]; [|leaf|leaf].
  destruct (ok hr) eqn:Ehr; leaf.
Qed.

Lemma run_outcome_calls (imp : imports) (domain : string)
  (n n' : net_state) (st : string) (calls : list route_event) :
  run_outcome imp domain n st calls n' ->
  statements calls = []
  /\ status_writes calls = []
  /\ (calls_of "checkHttpsHealth" calls = [] \/
      calls_of "checkHttpsHealth" calls = [domain])
  /\ (calls = [] \/ calls_of "checkDnsCname" calls = [domain]).
Proof.
  destruct 1; repeat split; simpl; auto.
Qed.

Lemma handle_validation_run (h : handler) (imp : imports) (now : string)
  (id : Z) (w : world) (domain : string) :
  validation_run h id w domain ->
  handle h imp now id w
  = run_checks imp (back_of h) domain id (stamped now id w).
Proof.
  intros (Hauth & site & Hsel & Hdom & Hne).
  apply falsy_false in Hne.
  assert (E : validate_site imp (back_of h) now id w
              = run_checks imp (back_of h) domain id (stamped now id w)).
  { unfold validate_site. rewrite Hsel, <- Hdom, Hne. reflexivity. }
  destruct h as [|u]; simpl handle.
  - exact E.
  - unfold portal_validate_domain. destruct Hauth as (-> & Hid).
    destruct (Z.eqb_spec id 0); [contradiction|].
    rewrite Z.eqb_refl. exact E.
Qed.

Lemma find_update (f : site_row -> site_row) (id : Z) (r : site_row)
  (l : list site_row) :
  (forall x, site_id (f x) = site_id x) ->
  find (fun x => Z.eqb (site_id x) id) l = Some r ->
  find (fun x => Z.eqb (site_id x) id)
       (map (fun x => if Z.eqb (site_id x) id then f x else x) l)
  = Some (f r).
Proof.
  intros Hf. induction l as [|x l IH]; simpl; [discriminate|].
  destruct (Z.eqb (site_id x) id) eqn:E.
  - intros [= ->]. simpl. now rewrite Hf, E.
  - intros H. simpl. rewrite E. now apply IH.
Qed.

(** After the two statements of a run the record carries the time stamp
    and the status. *)
Lemma record_after_run (d : database) (id : Z) (site : site_row)
  (now st : string) :
  select_site_by_id d id = DbRow (Some site) ->
  let d' := execute (UpdateStatus st id)
              (execute (UpdateLastChecked now id) d) in
  status_of d' id = Some st /\ last_checked_of d' id = Some now.
Proof.
  unfold select_site_by_id. destruct (db_failing d) eqn:F; [discriminate|].
  intros [= Hfind]. simpl.
  unfold update_where_id. rewrite F. simpl.
  unfold status_of, last_checked_of. simpl.
  apply (find_update (set_last_checked now)) in Hfind; [|reflexivity].
  apply (find_update (set_status st)) in Hfind; [|reflexivity].
  rewrite Hfind. split; reflexivity.
Qed.

Lemma status_writes_app (a b : list route_event) :
  status_writes (a ++ b) = (status_writes a ++ status_writes b)%list.
Proof. apply flat_map_app. Qed.

Lemma calls_of_app (name : string) (a b : list route_event) :
  calls_of name (a ++ b) = (calls_of name a ++ calls_of name b)%list.
Proof. apply flat_map_app. Qed.

Lemma statements_app (a b : list route_event) :
  statements (a ++ b) = (statements a ++ statements b)%list.
Proof. apply flat_map_app. Qed.

(** Every validation run: redirect, one outcome, and the log of the run
    is the time-stamp statement, the calls, the status statement. *)
Lemma validation_run_outcome (h : handler) (imp : imports) (now : string)
  (id : Z) (w : world) (domain : string) :
  validation_run h id w domain ->
  exists st calls w',
    handle h imp now id w = (Normal (RedirectTo (back_of h)), w')
    /\ run_outcome imp domain (net w) st calls (net w')
    /\ log w' = (log w ++ DbRun (UpdateLastChecked now id) :: calls
                   ++ [DbRun (UpdateStatus st id)])%list
    /\ status_of (db w') id = Some st
    /\ last_checked_of (db w') id = Some now.
Proof.
  intros Hrun. rewrite (handle_validation_run h imp now id w domain Hrun).
  destruct (run_checks_outcome imp (back_of h) domain id (stamped now id w))
    as (st & calls & w' & E & Hout & Hlog & Hdb & _).
  exists st, calls, w'. split; [exact E|]. split; [exact Hout|].
  split; [rewrite Hlog; simpl; now rewrite <- app_assoc|].
  destruct Hrun as (_ & site & Hsel & _).
  rewrite Hdb. simpl db.
  apply (record_after_run (db w) id site now st Hsel).
Qed.

(** C1, as the code has it.  In a validation run whose imported
    [checkDnsCname] is a function that returns a result: if that result
    is not [ok], the status written is [dns_error], [checkHttpsHealth] is
    not called and nothing more happens on the network; if it is [ok]
    and the probe returns [ok], the status is [active]; if it is [ok] and
    the probe returns not [ok] or rejects, the status is
    [dns_ok_ssl_error].  The run issues exactly one status statement and
    the record carries that status afterwards. *)
Theorem validation_status (h : handler) (imp : imports) (now : string)
  (id : Z) (w : world) (domain : string) (dns : check_fn)
  (dr : check_result) (n1 : net_state) :
  validation_run h id w domain ->
  checkDnsCname imp = Some (ExFunction dns) ->
  dns domain (net w) = (Normal (Some dr), n1) ->
  exists st w',
    handle h imp now id w = (Normal (RedirectTo (back_of h)), w')
    /\ status_writes (log w') = (status_writes (log w) ++ [st])%list
    /\ status_of (db w') id = Some st
    /\ (ok dr = false ->
        st = "dns_error"
        /\ calls_of "checkHttpsHealth" (log w')
           = calls_of "checkHttpsHealth" (log w)
        /\ net w' = n1)
    /\ (ok dr = true ->
        forall probe hr n2,
          checkHttpsHealth imp = Some (ExFunction probe) ->
          probe domain n1 = (Normal (Some hr), n2) ->
          ok hr = true ->
          st = "active")
    /\ (ok dr = true ->
        forall probe c n2,
          checkHttpsHealth imp = Some (ExFunction probe) ->
          probe domain n1 = (c, n2) ->
          probe_failed c ->
          st = "dns_ok_ssl_error").
Proof.
  intros Hrun Himp Hdns.
  destruct (validation_run_outcome h imp now id w domain Hrun)
    as (st & calls & w' & E & Hout & Hlog & Hst & _).
  exists st, w'. split; [exact E|].
  pose proof (run_outcome_calls _ _ _ _ _ _ Hout) as (_ & Hsw & _ & _).
  split.
  { rewrite Hlog, status_writes_app. simpl.
    now rewrite status_writes_app, Hsw. }
  split; [exact Hst|].
  assert (Hcalls : calls_of "checkHttpsHealth" (log w')
                   = (calls_of "checkHttpsHealth" (log w)
                      ++ calls_of "checkHttpsHealth" calls)%list).
  { rewrite Hlog, calls_of_app. simpl.
    now rewrite calls_of_app, app_nil_r. }
  inversion Hout; subst;
    try match goal with
        | H : forall g, checkDnsCname imp <> Some (ExFunction g) |- _ =>
            now apply H in Himp
        end;
    match goal with
    | H : checkDnsCname imp = Some (ExFunction ?g) |- _ =>
        rewrite Himp in H; injection H as <-
    end;
    match goal with
    | H : dns domain (net w) = _ |- _ =>
        rewrite Hdns in H; try discriminate H;
        injection H as <- <-
    end.
  - (* the DNS check fails *)
    split; [intros _; split; [reflexivity|];
            split; [rewrite Hcalls; simpl; now rewrite app_nil_r
                   | reflexivity]|].
    split; intros; congruence.
  - (* the probe is not a function: cannot happen under the premises *)
    split; [intros; congruence|].
    split; [intros _ ? ? ? Hp; now apply H2 in Hp | reflexivity].
  - (* the probe rejects *)
    split; [intros; congruence|].
    split; [|reflexivity].
    intros _ probe hr n2' Hp Hrunp. rewrite H2 in Hp. injection Hp as <-.
    rewrite H3 in Hrunp. discriminate.
  - (* the probe returns undefined *)
    split; [intros; congruence|].
    split.
    + intros _ probe hr n2' Hp Hrunp. rewrite H2 in Hp. injection Hp as <-.
      rewrite H3 in Hrunp. discriminate.
    + intros _ probe c n2' Hp Hrunp Hfail. rewrite H2 in Hp.
      injection Hp as <-. rewrite H3 in Hrunp. injection Hrunp as <- <-.
      contradiction.
  - (* the probe fails *)
    split; [intros; congruence|].
    split; [|reflexivity].
    intros _ probe hr' n2' Hp Hrunp. rewrite H2 in Hp. injection Hp as <-.
    rewrite H3 in Hrunp. injection Hrunp as <- <-. congruence.
  - (* the probe passes *)
    split; [intros; congruence|].
    split; [reflexivity|].
    intros _ probe c n2' Hp Hrunp Hfail. rewrite H2 in Hp.
    injection Hp as <-. rewrite H3 in Hrunp. injection Hrunp as <- <-.
    simpl in Hfail. congruence.
Qed.

Lemma validation_run_site2 :
  validation_run Admin 2 (fresh Fixtures.registry) "example.com".
Proof.
  split; [exact I|].
  exists (Fixtures.row 2 "example.com" (Some "pending")).
  repeat split. discriminate.
Qed.

Lemma validation_status_witness :
  exists st w',
    handle Admin (legacy_imports (Fixtures.network Fixtures.health_ok))
      NOW 2 (fresh Fixtures.registry)
    = (Normal (RedirectTo "/admin/sites"), w')
    /\ status_writes (log w') = [st]
    /\ status_of (db w') 2 = Some st.
Proof.
  destruct (validation_status Admin
              (legacy_imports (Fixtures.network Fixtures.health_ok))
              NOW 2 (fresh Fixtures.registry) "example.com"
              (returning (LegacyDomainValidation.checkDnsCname
                            Fixtures.CNAME_URL
                            (Fixtures.network Fixtures.health_ok)))
              {| ok := true; method := None;
                 detail := "CNAME OK → Proxy.Platform.Test." |}
              {| trace := [QueryCname "example.com"]; requests := 0 |})
    as (st & w' & E & Hw & Hs & _).
  - exact validation_run_site2.
  - reflexivity.
  - reflexivity.
  - exists st, w'. repeat split; assumption.
Defined.

(** Scenarios 1 to 3 on the routes linked with the earlier module. *)
Example scenarios_legacy :
  let run o := snd (handle Admin (legacy_imports (Fixtures.network o))
                      NOW 2 (fresh Fixtures.registry)) in
  status_of (db (run Fixtures.health_ok)) 2 = Some "active"
  /\ status_of (db (run (HttpResponse 502 [] []))) 2
     = Some "dns_ok_ssl_error"
  /\ status_of (db (run HttpTimeout)) 2 = Some "dns_ok_ssl_error"
  /\ log (run Fixtures.health_ok)
     = [DbRun (UpdateLastChecked NOW 2);
        Call "checkDnsCname" "example.com";
        Call "checkHttpsHealth" "example.com";
        DbRun (UpdateStatus "active" 2)].
Proof. repeat split. Qed.

(** Scenarios 1 to 3 with the checks of services/domainValidation.js
    bound under the imported names. *)
Example scenarios_bound :
  let run o id := snd (handle Admin (bound_imports (Fixtures.network o))
                         NOW id (fresh Fixtures.registry)) in
  status_of (db (run Fixtures.health_ok 2)) 2 = Some "active"
  /\ status_of (db (run Fixtures.health_ok 3)) 3 = Some "dns_error"
  /\ trace (net (run Fixtures.health_ok 3)) = [QueryCname "shop.example"]
  /\ status_of (db (run Fixtures.hello 2)) 2 = Some "dns_ok_ssl_error"
  /\ log (run Fixtures.hello 2)
     = [DbRun (UpdateLastChecked NOW 2);
        Call "checkDnsCname" "example.com";
        Call "checkHttpsHealth" "example.com";
        DbRun (UpdateStatus "dns_ok_ssl_error" 2)]
  /\ count is_https_request (net (run Fixtures.hello 2)) = 3%nat.
Proof. repeat split. Qed.

(** A run in which the DNS check passes and the probe fails writes
    [dns_ok_ssl_error]; the status [dns_ok_tls_error] is never written. *)
Lemma status_is_not_dns_ok_tls_error :
  let env := Fixtures.network (HttpResponse 502 [] []) in
  let run := handle Admin (legacy_imports env) NOW 2
               (fresh Fixtures.registry) in
  fst (LegacyDomainValidation.checkDnsCname Fixtures.CNAME_URL env
         "example.com" idle)
  = Normal {| ok := true; method := None;
              detail := "CNAME OK → Proxy.Platform.Test." |}
  /\ fst (LegacyDomainValidation.checkHttpsHealth env "example.com"
            {| trace := [QueryCname "example.com"]; requests := 0 |})
     = Normal {| ok := false; method := None;
                 detail := "HTTPS /health returned status 502" |}
  /\ status_writes (log (snd run)) = ["dns_ok_ssl_error"]
  /\ status_of (db (snd run)) 2 = Some "dns_ok_ssl_error"
  /\ status_of (db (snd run)) 2 <> Some "dns_ok_tls_error".
Proof. repeat split. discriminate. Qed.

(** services/domainValidation.js exports no [checkDnsCname]: linked with
    it, the import is [undefined], the call throws and every validation
    run ends in the [catch] block. *)
Lemma current_module_lacks_checkDnsCname (CNAME_URL : string)
  (env : environment) :
  checkDnsCname (require (domainValidation CNAME_URL env)) = None.
Proof. reflexivity. Qed.

Lemma current_module_run (h : handler) (CNAME_URL : string)
  (env : environment) (now : string) (id : Z) (w : world)
  (domain : string) :
  validation_run h id w domain ->
  exists w',
    handle h (require (domainValidation CNAME_URL env)) now id w
    = (Normal (RedirectTo (back_of h)), w')
    /\ log w' = (log w ++ [DbRun (UpdateLastChecked now id);
                           DbRun (UpdateStatus "error_generic" id)])%list
    /\ net w' = net w
    /\ status_of (db w') id = Some "error_generic".
Proof.
  intros Hrun.
  destruct (validation_run_outcome h (require (domainValidation CNAME_URL env))
              now id w domain Hrun)
    as (st & calls & w' & E & Hout & Hlog & Hst & _).
  exists w'. split; [exact E|].
  inversion Hout; subst;
    try match goal with
        | H : checkDnsCname _ = Some _ |- _ => discriminate H
        end.
  repeat split; auto.
Qed.

(** C7.  Every validation run, whatever the imported checks are and
    however they end, first issues the statement that sets
    [domain_last_checked_at], then calls checks, and issues the one
    statement that sets [domain_status] last; afterwards the record
    carries the time stamp of the run. *)
Theorem last_checked_first (h : handler) (imp : imports) (now : string)
  (id : Z) (w : world) (domain : string) :
  validation_run h id w domain ->
  exists st calls w',
    handle h imp now id w = (Normal (RedirectTo (back_of h)), w')
    /\ log w' = (log w ++ DbRun (UpdateLastChecked now id) :: calls
                   ++ [DbRun (UpdateStatus st id)])%list
    /\ statements calls = []
    /\ statements (log w')
       = (statements (log w)
          ++ [UpdateLastChecked now id; UpdateStatus st id])%list
    /\ last_checked_of (db w') id = Some now
    /\ status_of (db w') id = Some st.
Proof.
  intros Hrun.
  destruct (validation_run_outcome h imp now id w domain Hrun)
    as (st & calls & w' & E & Hout & Hlog & Hst & Hts).
  pose proof (run_outcome_calls _ _ _ _ _ _ Hout) as (Hnone & _).
  exists st, calls, w'. repeat split; auto.
  rewrite Hlog, statements_app. simpl.
  now rewrite statements_app, Hnone.
Qed.

Lemma last_checked_first_witness :
  exists st calls w',
    handle Admin (legacy_imports (Fixtures.network HttpTimeout)) NOW 2
      (fresh Fixtures.registry)
    = (Normal (RedirectTo "/admin/sites"), w')
    /\ log w' = (DbRun (UpdateLastChecked NOW 2) :: calls
                 ++ [DbRun (UpdateStatus st 2)])%list
    /\ last_checked_of (db w') 2 = Some NOW.
Proof.
  destruct (last_checked_first Admin
              (legacy_imports (Fixtures.network HttpTimeout)) NOW 2
              (fresh Fixtures.registry) "example.com"
              validation_run_site2)
    as (st & calls & w' & E & Hlog & _ & _ & Hts & _).
  exists st, calls, w'. repeat split; assumption.
Defined.

(** The time stamp is written also when the run ends in the [catch]
    block. *)
Example stamped_on_fault :
  let w' := snd (handle Admin (current_imports (Fixtures.network
                                                  Fixtures.health_ok))
                   NOW 2 (fresh Fixtures.registry)) in
  last_checked_of (db w') 2 = Some NOW
  /\ status_of (db w') 2 = Some "error_generic"
  /\ log w' = [DbRun (UpdateLastChecked NOW 2);
               DbRun (UpdateStatus "error_generic" 2)].
Proof. repeat split. Qed.

(** C8, as the code has it.  [/caddy-ask] refuses every candidate that
    normalises to [localhost], whatever the token and the registry.  The
    validate-domain handlers have no case for it: a request for a site
    whose domain is [localhost] starts a validation run as for any other
    domain, whatever the imported bindings are; the run writes the time
    stamp and one status on that record, and issues no other
    statement.  When the imported
    [checkDnsCname] is a function, the run calls it with [localhost],
    first of all; when it is not, the run calls nothing, leaves the
    network alone and writes [error_generic]. *)
Theorem localhost_handling :
  (forall env_token d candidateDomain presentedToken,
      Gatekeeper.normalizeCandidate candidateDomain = "localhost" ->
      Gatekeeper.shouldIssueCertificate env_token d candidateDomain
        presentedToken = false)
  /\ (forall h imp now id w,
        validation_run h id w "localhost" ->
        exists st calls w',
          handle h imp now id w = (Normal (RedirectTo (back_of h)), w')
          /\ log w' = (log w ++ DbRun (UpdateLastChecked now id) :: calls
                         ++ [DbRun (UpdateStatus st id)])%list
          /\ status_of (db w') id = Some st
          /\ last_checked_of (db w') id = Some now
          /\ (forall dns,
                checkDnsCname imp = Some (ExFunction dns) ->
                exists more,
                  calls = Call "checkDnsCname" "localhost" :: more
                  /\ calls_of "checkDnsCname" (log w')
                     = (calls_of "checkDnsCname" (log w)
                          ++ ["localhost"])%list)
          /\ ((forall dns, checkDnsCname imp <> Some (ExFunction dns)) ->
              calls = [] /\ net w' = net w /\ st = "error_generic")
          /\ statements calls = []).
Proof.
  split.
  - intros. now apply GatekeeperFacts.localhost_refused.
  - intros h imp now id w Hrun.
    destruct (validation_run_outcome h imp now id w "localhost" Hrun)
      as (st & calls & w' & E & Hout & Hlog & Hst & Hts).
    exists st, calls, w'.
    split; [exact E|]. split; [exact Hlog|].
    split; [exact Hst|]. split; [exact Hts|]. split.
    + intros dns Himp.
      assert (C : exists more,
                 calls = Call "checkDnsCname" "localhost" :: more
                 /\ calls_of "checkDnsCname" calls = ["localhost"]).
      { inversion Hout; subst;
          try (eexists; split; reflexivity).
        match goal with
        | H : forall g, checkDnsCname imp <> Some (ExFunction g) |- _ =>
            now apply H in Himp
        end. }
      destruct C as (more & Hc & Hn). exists more. split; [exact Hc|].
      rewrite Hlog, calls_of_app. f_equal.
      change (DbRun (UpdateLastChecked now id)
                :: calls ++ [DbRun (UpdateStatus st id)])%list
        with ([DbRun (UpdateLastChecked now id)]
                ++ calls ++ [DbRun (UpdateStatus st id)])%list.
      rewrite !calls_of_app, Hn. reflexivity.
    + split; [|now apply (run_outcome_calls _ _ _ _ _ _ Hout)].
      intros Himp.
      inversion Hout; subst; try (repeat split; reflexivity);
        match goal with
        | H : checkDnsCname imp = Some (ExFunction ?g) |- _ =>
            now apply Himp in H
        end.
Qed.

(** The gatekeeper refuses [localhost]; the run on the [localhost] site
    (id 1), with the routes linked with the module that exports
    [checkDnsCname] and with services/domainValidation.js, which does
    not. *)
Lemma localhost_handling_witness :
  Gatekeeper.shouldIssueCertificate (Some "s3cret") Fixtures.registry
    (Some "www.LocalHost:443") (Some "s3cret") = false
  /\ (exists st calls w',
        handle Admin (legacy_imports (Fixtures.network Fixtures.health_ok))
          NOW 1 (fresh Fixtures.registry)
        = (Normal (RedirectTo "/admin/sites"), w')
        /\ status_of (db w') 1 = Some st
        /\ last_checked_of (db w') 1 = Some NOW
        /\ exists more,
             calls = Call "checkDnsCname" "localhost" :: more
             /\ calls_of "checkDnsCname" (log w') = ["localhost"])
  /\ (exists w',
        handle Admin (current_imports (Fixtures.network Fixtures.health_ok))
          NOW 1 (fresh Fixtures.registry)
        = (Normal (RedirectTo "/admin/sites"), w')
        /\ status_of (db w') 1 = Some "error_generic"
        /\ last_checked_of (db w') 1 = Some NOW
        /\ net w' = idle).
Proof.
  assert (R : validation_run Admin 1 (fresh Fixtures.registry) "localhost").
  { split; [exact I|].
    exists (Fixtures.row 1 "localhost" (Some "pending")).
    repeat split. discriminate. }
  split; [|split].
  - apply (proj1 localhost_handling). reflexivity.
  - destruct (proj2 localhost_handling Admin
                (legacy_imports (Fixtures.network Fixtures.health_ok))
                NOW 1 (fresh Fixtures.registry) R)
      as (st & calls & w' & E & _ & Hst & Hts & Hdns & _).
    exists st, calls, w'.
    split; [exact E|]. split; [exact Hst|]. split; [exact Hts|].
    apply (Hdns (returning (LegacyDomainValidation.checkDnsCname
                              Fixtures.CNAME_URL
                              (Fixtures.network Fixtures.health_ok)))).
    reflexivity.
  - destruct (proj2 localhost_handling Admin
                (current_imports (Fixtures.network Fixtures.health_ok))
                NOW 1 (fresh Fixtures.registry) R)
      as (st & calls & w' & E & _ & Hst & Hts & _ & Hno & _).
    destruct Hno as (_ & Hnet & ->); [intros dns; discriminate|].
    exists w'. repeat split; assumption.
Defined.

(** Linked with the module that exports the [checkDnsCname] they import
    (part_003, lines 547-623), the handlers run the DNS check against
    the [localhost] site: the check is called with [localhost], the DNS
    is asked for the CNAME of [localhost], and the record gets a status
    and a time stamp.  With a DNS in which [localhost] is a CNAME of the
    platform, the HTTPS probe is run against it too. *)
Lemma localhost_is_validated :
  let w' := snd (handle Admin
                   (legacy_imports (Fixtures.network Fixtures.health_ok))
                   NOW 1 (fresh Fixtures.registry)) in
  let w'' := snd (handle Admin
                    (legacy_imports Fixtures.localhost_points_here)
                    NOW 1 (fresh Fixtures.registry)) in
  site_domain (Fixtures.row 1 "localhost" (Some "pending")) = "localhost"
  /\ select_site_by_id Fixtures.registry 1
     = DbRow (Some (Fixtures.row 1 "localhost" (Some "pending")))
  /\ calls_of "checkDnsCname" (log w') = ["localhost"]
  /\ trace (net w') = [QueryCname "localhost"]
  /\ status_of (db w') 1 = Some "dns_error"
  /\ last_checked_of (db w') 1 = Some NOW
  /\ calls_of "checkDnsCname" (log w'') = ["localhost"]
  /\ calls_of "checkHttpsHealth" (log w'') = ["localhost"]
  /\ trace (net w'')
     = [QueryCname "localhost"; HttpsRequest "localhost"]
  /\ status_of (db w'') 1 = Some "active".
Proof. repeat split. Qed.

End RoutesFacts.

(* ================================================================= *)
(** * Further properties of the code *)

(** ** Case and white space *)

Module CaseFacts.
Import JsString JsStringFacts.

Lemma lower_char_idem (c : ascii) : lower_char (lower_char c) = lower_char c.
Proof. destruct c as [[] [] [] [] [] [] [] []]; reflexivity. Qed.

Lemma is_ws_lower (c : ascii) : is_ws (lower_char c) = is_ws c.
Proof. destruct c as [[] [] [] [] [] [] [] []]; reflexivity. Qed.

Lemma lower_char_dot (c : ascii) :
  Ascii.eqb (lower_char c) "."%char = Ascii.eqb c "."%char.
Proof. destruct c as [[] [] [] [] [] [] [] []]; reflexivity. Qed.

Lemma lower_char_colon (c : ascii) :
  Ascii.eqb (lower_char c) ":"%char = Ascii.eqb c ":"%char.
Proof. destruct c as [[] [] [] [] [] [] [] []]; reflexivity. Qed.

Lemma toLowerCase_idem (s : string) :
  toLowerCase (toLowerCase s) = toLowerCase s.
Proof.
  induction s as [|c s IH]; simpl; [reflexivity|].
  now rewrite lower_char_idem, IH.
Qed.

Lemma toLowerCase_empty (s : string) :
  toLowerCase s = EmptyString <-> s = EmptyString.
Proof. destruct s; simpl; split; congruence. Qed.

Lemma trimStart_lower (s : string) :
  trimStart (toLowerCase s) = toLowerCase (trimStart s).
Proof.
  induction s as [|c s IH]; simpl; [reflexivity|].
  rewrite is_ws_lower. destruct (is_ws c); [exact IH | reflexivity].
Qed.

Lemma trimEnd_lower (s : string) :
  trimEnd (toLowerCase s) = toLowerCase (trimEnd s).
Proof.
  induction s as [|c s IH]; simpl; [reflexivity|].
  rewrite IH, is_ws_lower.
  destruct (trimEnd s); simpl; [destruct (is_ws c)|]; reflexivity.
Qed.

Lemma trim_lower (s : string) :
  trim (toLowerCase s) = toLowerCase (trim s).
Proof. unfold trim. now rewrite trimStart_lower, trimEnd_lower. Qed.

Lemma stripTrailingDot_lower (s : string) :
  stripTrailingDot (toLowerCase s) = toLowerCase (stripTrailingDot s).
Proof.
  induction s as [|c s IH]; [reflexivity|].
  destruct s as [|c' s].
  - simpl. rewrite lower_char_dot.
    destruct (Ascii.eqb c "."%char); reflexivity.
  - transitivity (String (lower_char c)
                    (stripTrailingDot (toLowerCase (String c' s))));
      [reflexivity | rewrite IH; reflexivity].
Qed.

(** *** [trim] *)

Lemma trimEnd_cons_keep (c : ascii) (s : string) :
  is_ws c = false -> trimEnd (String c s) = String c (trimEnd s).
Proof. intros H. simpl. rewrite H. now destruct (trimEnd s). Qed.

Lemma trimEnd_app_keep (a : string) (c : ascii) (s : string) :
  is_ws c = false ->
  trimEnd (a ++ String c s) = (a ++ trimEnd (String c s))%string.
Proof.
  intros H. rewrite (trimEnd_cons_keep c s H).
  induction a as [|x a IH];
    [simpl; now apply trimEnd_cons_keep|].
  change (trimEnd (String x (a ++ String c s))
          = String x (a ++ String c (trimEnd s))).
  cbn [trimEnd]. rewrite IH. destruct a; reflexivity.
Qed.

Lemma trimStart_length (s : string) :
  (String.length (trimStart s) <= String.length s)%nat.
Proof.
  induction s as [|c s IH]; simpl; [lia|].
  destruct (is_ws c); simpl; lia.
Qed.

Lemma trimEnd_length (s : string) :
  (String.length (trimEnd s) <= String.length s)%nat.
Proof.
  induction s as [|c s IH]; simpl; [lia|].
  destruct (trimEnd s); [destruct (is_ws c)|]; simpl in *; lia.
Qed.

Lemma trimStart_same_length (s : string) :
  String.length (trimStart s) = String.length s -> trimStart s = s.
Proof.
  destruct s as [|c s]; simpl; [reflexivity|].
  destruct (is_ws c); [|reflexivity].
  pose proof (trimStart_length s). lia.
Qed.

Lemma trimEnd_same_length (s : string) :
  String.length (trimEnd s) = String.length s -> trimEnd s = s.
Proof.
  induction s as [|c s IH]; simpl; [reflexivity|].
  pose proof (trimEnd_length s) as L.
  destruct (trimEnd s) as [|c' t] eqn:E.
  - destruct (is_ws c); simpl; intros H; [lia|].
    f_equal. apply IH. simpl in *. lia.
  - simpl. intros H. f_equal. apply IH. simpl in *. lia.
Qed.

(** A string that [trim] leaves alone has no white space at either end. *)
Lemma trim_fixed (s : string) :
  trim s = s -> trimStart s = s /\ trimEnd s = s.
Proof.
  unfold trim. intros H.
  pose proof (trimStart_length s) as L1.
  pose proof (trimEnd_length (trimStart s)) as L2.
  assert (E : trimStart s = s).
  { apply trimStart_same_length. rewrite <- H at 2. rewrite H. 
    apply (f_equal String.length) in H. lia. }
  split; [exact E|]. now rewrite E in H.
Qed.

Lemma trimStart_idem (s : string) : trimStart (trimStart s) = trimStart s.
Proof.
  induction s as [|c s IH]; simpl; [reflexivity|].
  destruct (is_ws c) eqn:E; [exact IH|]. simpl. now rewrite E.
Qed.

Lemma trimEnd_cons (c : ascii) (s : string) :
  trimEnd (String c s)
  = match trimEnd s with
    | EmptyString => if is_ws c then EmptyString else String c EmptyString
    | r => String c r
    end.
Proof. reflexivity. Qed.

Lemma trimEnd_idem (s : string) : trimEnd (trimEnd s) = trimEnd s.
Proof.
  induction s as [|c s IH]; [reflexivity|].
  rewrite trimEnd_cons.
  destruct (trimEnd s) as [|c' t] eqn:E.
  - destruct (is_ws c) eqn:W; [reflexivity|].
    rewrite trimEnd_cons. simpl. now rewrite W.
  - rewrite trimEnd_cons, IH. reflexivity.
Qed.

Lemma trim_idem (s : string) : trim (trim s) = trim s.
Proof.
  unfold trim.
  assert (H : trimStart (trimEnd (trimStart s)) = trimEnd (trimStart s)).
  { generalize (trimStart_idem s). generalize (trimStart s) as t.
    clear s. intros t Ht.
    destruct t as [|c t]; [reflexivity|].
    simpl in Ht. destruct (is_ws c) eqn:W.
    - exfalso. pose proof (trimStart_length t) as L.
      apply (f_equal String.length) in Ht. simpl in Ht. lia.
    - rewrite (trimEnd_cons_keep c t W). simpl. now rewrite W. }
  now rewrite H, trimEnd_idem.
Qed.

End CaseFacts.

(** ** More on the DNS check *)

Module DnsMore.
Import JsString JsStringFacts CaseFacts Net DomainValidation DnsTerms.
Import DnsFacts.

(** X1.  The module normalises its expected target as it normalises
    every looked-up name: [EXPECTED_CNAME_TARGET] is [normHost CNAME_URL],
    although the source lower-cases after stripping the dot. *)
Theorem expected_target_is_normHost (CNAME_URL : string) :
  EXPECTED_CNAME_TARGET CNAME_URL = normHost CNAME_URL.
Proof.
  unfold EXPECTED_CNAME_TARGET, normHost.
  now rewrite stripTrailingDot_lower.
Qed.

Lemma stripTrailingDot_app_dot (s : string) :
  stripTrailingDot (s ++ ".") = s.
Proof.
  induction s as [|c s IH]; [reflexivity|].
  change (String c s ++ ".")%string with (String c (s ++ ".")).
  destruct s as [|c' s]; [reflexivity|].
  change (String c' s ++ ".")%string with (String c' (s ++ ".")) in *.
  change (stripTrailingDot (String c (String c' (s ++ "."))))
    with (String c (stripTrailingDot (String c' (s ++ ".")))).
  now rewrite IH.
Qed.

Lemma toLowerCase_app (a b : string) :
  toLowerCase (a ++ b) = (toLowerCase a ++ toLowerCase b)%string.
Proof. induction a; simpl; congruence. Qed.

(** X2.  [normHost] ignores case and one trailing dot: for a name
    without white space around it and without a final dot, the name, the
    name followed by a dot, and the name in any case normalise to its
    lower-case form. *)
Theorem normHost_case_and_dot (h : string) :
  trim h = h ->
  stripTrailingDot h = h ->
  normHost h = toLowerCase h
  /\ normHost (h ++ ".") = toLowerCase h
  /\ normHost (toLowerCase h) = toLowerCase h
  /\ toLowerCase (normHost h) = normHost h.
Proof.
  intros Ht Hd.
  destruct (trim_fixed h Ht) as [Hs He].
  assert (N : normHost h = toLowerCase h).
  { unfold normHost. now rewrite Ht, stripTrailingDot_lower, Hd. }
  split; [exact N|]. split; [|split].
  - unfold normHost, trim.
    assert (E1 : trimStart (h ++ ".") = (h ++ ".")%string).
    { destruct h as [|c h]; [reflexivity|].
      simpl in Hs |- *. destruct (is_ws c) eqn:W; [|reflexivity].
      exfalso. pose proof (trimStart_length h) as L.
      apply (f_equal String.length) in Hs. simpl in Hs. lia. }
    rewrite E1, (trimEnd_app_keep h "."%char EmptyString eq_refl).
    change (trimEnd ".") with ".".
    now rewrite toLowerCase_app, stripTrailingDot_app_dot.
  - unfold normHost.
    now rewrite trim_lower, Ht, toLowerCase_idem, stripTrailingDot_lower, Hd.
  - rewrite N. apply toLowerCase_idem.
Qed.

Lemma normHost_case_and_dot_witness :
  normHost "Proxy.Platform.Test" = "proxy.platform.test"
  /\ normHost "Proxy.Platform.Test." = "proxy.platform.test".
Proof.
  destruct (normHost_case_and_dot "Proxy.Platform.Test" eq_refl eq_refl)
    as (H1 & H2 & _).
  split; [exact H1 | exact H2].
Defined.

Lemma set_add_NoDup (ips : list string) (ip : string) :
  NoDup ips -> NoDup (set_add ips ip).
Proof.
  intros H. unfold set_add.
  destruct (existsb (String.eqb ip) ips) eqn:E; [assumption|].
  apply NoDup_app; [assumption | repeat constructor; inversion 1 | ].
  intros x Hx [E'|[]]. subst x.
  assert (existsb (String.eqb ip) ips = true).
  { apply existsb_exists. exists ip. split; [assumption|].
    apply String.eqb_refl. }
  congruence.
Qed.

Lemma add_all_NoDup (new ips : list string) :
  NoDup ips -> NoDup (add_all ips new).
Proof.
  unfold add_all. revert ips.
  induction new as [|x new IH]; intros ips H; simpl; [assumption|].
  apply IH. now apply set_add_NoDup.
Qed.

(** X3.  [resolveIps] never rejects, whatever the two lookups do.  It
    asks for the A records, then for the AAAA records, and returns every
    address of either answer exactly once. *)
Theorem resolveIps_is_a_set (env : environment) (host : string)
  (n : net_state) :
  exists ips n',
    resolveIps env host n = (Normal ips, n')
    /\ NoDup ips
    /\ (forall ip, In ip ips <-> address_of env host ip)
    /\ trace n' = (trace n ++ [Query4 host; Query6 host])%list
    /\ requests n' = requests n.
Proof.
  unfold resolveIps, bind, try_catch, resolve4, resolve6, ret, address_of.
  destruct (dns_resolve4 env host) as [e4|r4];
    destruct (dns_resolve6 env host) as [e6|r6]; simpl;
    eexists; eexists; (split; [reflexivity|]);
    (split; [repeat apply add_all_NoDup; constructor|]);
    (split; [intros ip; rewrite ?add_all_In; simpl; tauto|]);
    (split; [simpl; now rewrite <- app_assoc | reflexivity]).
Qed.

Lemma resolveCnames_run (env : environment) (host : string)
  (n : net_state) :
  resolveCnames env host n
  = (Normal (map normHost (records (dns_resolveCname env host))),
     emit (QueryCname host) n).
Proof.
  unfold resolveCnames, bind, try_catch, resolveCname, ret.
  destruct (dns_resolveCname env host); reflexivity.
Qed.

(** X4.  [checkDnsTarget] never rejects, whatever the DNS answers or
    throws.  It makes no HTTPS request; its queries are an initial part
    of: CNAME of the host, A and AAAA of the host, A and AAAA of the
    expected target; it makes none exactly when the normalised domain is
    empty.  A positive verdict always carries the method [cname] or
    [a/aaaa]. *)
Theorem checkDnsTarget_never_rejects (CNAME_URL : string)
  (env : environment) (domain : string) (n : net_state) :
  let host := normHost domain in
  let target := EXPECTED_CNAME_TARGET CNAME_URL in
  exists res n' k,
    checkDnsTarget CNAME_URL env domain n = (Normal res, n')
    /\ trace n'
       = (trace n ++ firstn k [QueryCname host; Query4 host; Query6 host;
                               Query4 target; Query6 target])%list
    /\ requests n' = requests n
    /\ (k = 0%nat <-> host = EmptyString)
    /\ (host = EmptyString -> detail res = "Empty domain" /\ ok res = false)
    /\ (ok res = true ->
        method res = Some "cname" \/ method res = Some "a/aaaa").
Proof.
  intros host target. unfold checkDnsTarget. fold host. fold target.
  destruct (falsy host) eqn:F.
  - apply falsy_true in F.
    exists {| ok := false; method := None; detail := "Empty domain" |}, n,
      0%nat.
    split; [reflexivity|]. split; [simpl; now rewrite app_nil_r|].
    split; [reflexivity|]. split; [tauto|].
    split; [intros _; split; reflexivity | discriminate].
  - apply falsy_false in F.
    unfold bind at 1. rewrite resolveCnames_run.
    destruct (map normHost (records (dns_resolveCname env host)))
      as [|c cs] eqn:Ecn; cbn [List.length Nat.eqb negb].
    + destruct (resolveIps_spec env host (emit (QueryCname host) n))
        as (hostIps & Eh & _).
      unfold bind at 1. rewrite Eh.
      destruct (Nat.eqb (List.length hostIps) 0).
      * eexists; eexists; exists 3%nat. split; [reflexivity|].
        split; [simpl; now rewrite <- !app_assoc|].
        split; [reflexivity|]. split; [split; [discriminate | tauto]|].
        split; [tauto | discriminate].
      * destruct (resolveIps_spec env target
                    (emit (Query6 host)
                       (emit (Query4 host) (emit (QueryCname host) n))))
          as (expectedIps & Et & _).
        unfold bind at 1. rewrite Et.
        destruct (Nat.eqb (List.length expectedIps) 0);
          [|destruct (existsb (includes expectedIps) hostIps)];
          eexists; eexists; exists 5%nat; (split; [reflexivity|]);
          (split; [simpl; now rewrite <- !app_assoc|]);
          (split; [reflexivity|]);
          (split; [split; [discriminate | tauto]|]);
          (split; [tauto|]); simpl; auto; discriminate.
    + destruct (existsb _ (c :: cs));
        eexists; eexists; exists 1%nat; (split; [reflexivity|]);
        (split; [reflexivity|]); (split; [reflexivity|]);
        (split; [split; [discriminate | tauto]|]);
        (split; [tauto|]); simpl; auto; discriminate.
Qed.

End DnsMore.

(** ** More on the HTTPS check *)

Module HttpsMore.
Import JsString JsStringFacts Net DomainValidation HttpsTerms HttpsFacts.

(** X5.  The body kept for the identity proof is bounded and does not
    depend on how the response was cut into chunks: it has at most 64
    units, two responses with the same content give the same body, and a
    response of at most 64 units is kept whole. *)
Theorem read_body_bounded (chunks chunks' : list string) :
  (String.length (read_body chunks) <= 64)%nat
  /\ (String.concat EmptyString chunks = String.concat EmptyString chunks' ->
      read_body chunks = read_body chunks')
  /\ ((String.length (String.concat EmptyString chunks) <= 64)%nat ->
      read_body chunks = String.concat EmptyString chunks).
Proof.
  rewrite !read_body_prefix. split; [apply length_sliceTo|]. split.
  - now intros ->.
  - apply sliceTo_short.
Qed.

(** The proof of identity looks at the first 64 units only. *)
Example proof_beyond_64_units :
  let pad k := string_of_list_ascii (repeat " "%char k) in
  isOurApp [] [pad 62%nat; "OK"] = true
  /\ isOurApp [] [pad 63%nat; "OK"] = false
  /\ isOurApp [] ["O"; "K"; pad 100%nat] = true.
Proof. repeat split. Qed.

Lemma attempts_shape (host : string) (d : Z) (k : nat) :
  Forall (fun e => e = HttpsRequest host \/ e = Sleep d) (attempts host d k).
Proof.
  induction k as [|k IH]; simpl.
  - constructor; [now left | constructor].
  - constructor; [now left|]. constructor; [now right | exact IH].
Qed.

(** X6.  [checkHttpsHealth] never rejects, whatever the options and
    whatever the requests meet (errors and time-outs included).  It
    makes at most [retries + 1] requests, all to the trimmed domain, and
    waits only [retryDelayMs]; a blank domain makes none.  It returns
    [undefined] exactly for a negative [retries] with a domain that is
    not blank. *)
Theorem checkHttpsHealth_never_rejects (env : environment)
  (domain : string) (o : options) (n : net_state) :
  let retries := default 2 (opt_retries o) in
  let retryDelayMs := default 1500 (opt_retryDelayMs o) in
  let host := trim domain in
  exists r n' events,
    checkHttpsHealth env domain o n = (Normal r, n')
    /\ trace n' = (trace n ++ events)%list
    /\ Forall (fun e => e = HttpsRequest host \/ e = Sleep retryDelayMs)
              events
    /\ (List.length (filter is_https_request events)
        <= Z.to_nat (retries + 1))%nat
    /\ (host = EmptyString -> events = [])
    /\ (r = None <-> host <> EmptyString /\ retries < 0).
Proof.
  intros retries retryDelayMs host.
  unfold checkHttpsHealth. fold retries. fold retryDelayMs. fold host.
  destruct (falsy host) eqn:F.
  - apply falsy_true in F.
    eexists; eexists; exists []. split; [reflexivity|].
    split; [simpl; now rewrite app_nil_r|]. split; [constructor|].
    split; [simpl; lia|]. split; [reflexivity|].
    split; [discriminate | intros [H _]; contradiction].
  - apply falsy_false in F.
    destruct (Z.ltb_spec retries 0) as [Hneg|Hpos].
    + replace (Z.to_nat (retries + 1)) with 0%nat by lia.
      eexists; eexists; exists []. split; [reflexivity|].
      split; [simpl; now rewrite app_nil_r|]. split; [constructor|].
      split; [simpl; lia|]. split; [reflexivity|].
      split; [intros _; split; assumption | reflexivity].
    + replace (Z.to_nat (retries + 1)) with (S (Z.to_nat retries)) by lia.
      destruct (retry_loop_spec env host retries retryDelayMs
                  (Z.to_nat retries) 0 None n)
        as (k & n' & Hk & Hrun & _ & _ & Htr & _); [lia|].
      eexists; exists n', (attempts host retryDelayMs k).
      split; [exact Hrun|]. split; [exact Htr|].
      split; [apply attempts_shape|].
      split; [rewrite attempts_requests; lia|].
      split; [intros E; contradiction|].
      split; [discriminate | intros [_ H]; lia].
Qed.

(** X7.  Called with a domain that is not blank and [retries >= 0],
    [checkHttpsHealth] reports [ok] exactly when one of the first
    [retries + 1] attempts is [ok]. *)
Theorem checkHttpsHealth_ok_iff (env : environment) (domain : string)
  (o : options) (n : net_state) :
  let retries := default 2 (opt_retries o) in
  let host := trim domain in
  host <> EmptyString ->
  0 <= retries ->
  (exists r, fst (checkHttpsHealth env domain o n) = Normal (Some r)
             /\ ok r = true)
  <->
  (exists j, Z.of_nat j <= retries
             /\ ok (result_of env host n j) = true).
Proof.
  intros retries host Hhost Hr.
  apply falsy_false in Hhost.
  unfold checkHttpsHealth. fold retries. fold host. rewrite Hhost.
  replace (Z.to_nat (retries + 1)) with (S (Z.to_nat retries)) by lia.
  destruct (retry_loop_spec env host retries
              (default 1500 (opt_retryDelayMs o))
              (Z.to_nat retries) 0 None n)
    as (k & n' & Hk & Hrun & Hfail & Hlast & _); [lia|].
  rewrite Hrun. simpl fst. split.
  - intros (r & [= <-] & Hok). exists k. split; [lia | exact Hok].
  - intros (j & Hj & Hok).
    exists (result_of env host n k). split; [reflexivity|].
    destruct Hlast as [H|H]; [exact H|].
    destruct (Nat.lt_ge_cases j k) as [Hlt|Hge].
    + rewrite (Hfail j Hlt) in Hok. discriminate.
    + assert (j = k) by lia. now subst j.
Qed.

Lemma checkHttpsHealth_ok_iff_witness :
  exists r,
    fst (checkHttpsHealth (Fixtures.flaky 2) "example.com" no_options idle)
    = Normal (Some r)
    /\ ok r = true.
Proof.
  apply (checkHttpsHealth_ok_iff (Fixtures.flaky 2) "example.com"
           no_options idle).
  - discriminate.
  - simpl. lia.
  - exists 2%nat. split; [simpl; lia | reflexivity].
Defined.

End HttpsMore.

(** ** More on the gatekeeper *)

Module GatekeeperMore.
Import JsString JsStringFacts CaseFacts Regex RegexTerms RegexFacts.
Import Gatekeeper GatekeeperTerms GatekeeperFacts RegistryTerms.

Lemma select_id_error (d : database) (domain : string) :
  select_id_by_domain d domain = DbErr <-> db_failing d = true.
Proof.
  unfold select_id_by_domain.
  destruct (db_failing d); split; congruence.
Qed.

Ltac classify :=
  repeat split;
  try discriminate; try tauto; try (simpl; tauto);
  intros;
  repeat match goal with
         | H : _ /\ _ |- _ => destruct H
         end;
  try contradiction; try congruence; try discriminate;
  try match goal with
      | H : test _ EmptyString = true |- _ => vm_compute in H; discriminate
      | T : token_matches _ _ |- _ => destruct T; assumption
      end.

(** X8.  The refusals of [/caddy-ask].  The answer is [403 forbidden]
    exactly when no secret is configured or the trimmed token differs
    from it, whatever the domain and the registry; [400] exactly when the
    token is right and the domain is blank; [500] exactly when the token
    is right, the candidate passes the three hygiene tests and the store
    fails.  The handler has no other answer than these, [403 denied] and
    [200 ok]. *)
Theorem caddy_ask_refusals (env_token : option string) (d : database)
  (q_token q_domain : option string) :
  let answer := caddy_ask env_token d q_token q_domain in
  let candidate := normalizeCandidate q_domain in
  (answer = Send 403 "forbidden" <-> ~ token_matches env_token q_token)
  /\ (answer = Send 400 "missing domain" <->
      token_matches env_token q_token
      /\ toLowerCase (trim (orEmpty q_domain)) = EmptyString)
  /\ (answer = Send 500 "error" <->
      token_matches env_token q_token
      /\ candidate <> "localhost"
      /\ isIPv4 candidate = false
      /\ test HOST_RE candidate = true
      /\ db_failing d = true)
  /\ In answer [Send 200 "ok"; Send 400 "missing domain";
                Send 403 "forbidden"; Send 403 "denied";
                Send 500 "error"].
Proof.
  intros answer candidate. subst answer candidate.
  unfold caddy_ask.
  change (stripWww (splitFirst ":"%char
                      (toLowerCase (trim (orEmpty q_domain)))))
    with (normalizeCandidate q_domain).
  pose proof (token_gate env_token q_token) as G.
  destruct (falsy (orEmpty env_token)
            || negb (String.eqb (trim (orEmpty q_token))
                                (orEmpty env_token)))%bool.
  { assert (N : ~ token_matches env_token q_token)
      by (intros T; apply G in T; discriminate).
    clear G. classify. }
  assert (T : token_matches env_token q_token) by (now apply G).
  clear G.
  destruct (falsy (toLowerCase (trim (orEmpty q_domain)))) eqn:F.
  { apply falsy_true in F.
    pose proof (normalizeCandidate_empty q_domain F) as E.
    rewrite E. classify. }
  apply falsy_false in F.
  destruct (String.eqb_spec (normalizeCandidate q_domain) "localhost");
    [classify|].
  destruct (isIPv4 (normalizeCandidate q_domain)) eqn:I; [classify|].
  destruct (test HOST_RE (normalizeCandidate q_domain)) eqn:Hh; simpl negb;
    [|classify].
  pose proof (select_id_error d (normalizeCandidate q_domain)) as S.
  destruct (select_id_by_domain d (normalizeCandidate q_domain))
    as [|[id|]].
  - assert (db_failing d = true) by (now apply S). clear S. classify.
  - assert (db_failing d <> true) by (intros B; apply S in B; discriminate).
    clear S. classify.
  - assert (db_failing d <> true) by (intros B; apply S in B; discriminate).
    clear S. classify.
Qed.

(** *** Aliases of a name *)

Lemma splitFirst_lower (s : string) :
  splitFirst ":"%char (toLowerCase s)
  = toLowerCase (splitFirst ":"%char s).
Proof.
  induction s as [|c s IH]; simpl; [reflexivity|].
  rewrite lower_char_colon.
  destruct (Ascii.eqb c ":"%char); simpl; [reflexivity|].
  now rewrite IH.
Qed.

Lemma splitFirst_app (sep : ascii) (a b : string) :
  splitFirst sep a = a -> splitFirst sep (a ++ String sep b) = a.
Proof.
  induction a as [|c a IH]; simpl.
  - now rewrite Ascii.eqb_refl.
  - destruct (Ascii.eqb c sep); [discriminate|].
    intros [= H]. now rewrite IH.
Qed.

Lemma trimStart_app (a b : string) :
  a <> EmptyString -> trimStart a = a ->
  trimStart (a ++ b) = (a ++ b)%string.
Proof.
  destruct a as [|c a]; [contradiction|]. intros _. simpl.
  destruct (is_ws c); [|reflexivity].
  intros H. exfalso. pose proof (trimStart_length a) as L.
  apply (f_equal String.length) in H. simpl in H. lia.
Qed.

Section Name.
Variable name : string.
Hypothesis name_not_empty : name <> EmptyString.
Hypothesis name_trimmed : trim name = name.
Hypothesis name_without_colon : splitFirst ":"%char name = name.

Lemma trim_name_suffix (port : option string) :
  trim (name ++ suffix port) = (name ++ trimEnd (suffix port))%string.
Proof.
  destruct (trim_fixed name name_trimmed) as [Hs He].
  unfold trim. rewrite (trimStart_app _ _ name_not_empty Hs).
  destruct port as [p|]; simpl suffix.
  - now apply trimEnd_app_keep.
  - now rewrite !append_empty.
Qed.

Lemma cut_name_suffix (port : option string) :
  splitFirst ":"%char (toLowerCase (trim (name ++ suffix port)))
  = toLowerCase name.
Proof.
  rewrite trim_name_suffix.
  assert (L : forall a b, toLowerCase (a ++ b)
                          = (toLowerCase a ++ toLowerCase b)%string)
    by (induction a; intros; simpl; congruence).
  rewrite L.
  assert (C : splitFirst ":"%char (toLowerCase name) = toLowerCase name)
    by (now rewrite splitFirst_lower, name_without_colon).
  destruct port as [p|]; simpl suffix.
  - rewrite (trimEnd_cons_keep ":"%char p eq_refl).
    now apply splitFirst_app.
  - simpl. now rewrite append_empty.
Qed.

(** [w] is [www.] in some case. *)
Lemma cut_www_name_suffix (w : string) (port : option string) :
  toLowerCase w = "www." ->
  splitFirst ":"%char (toLowerCase (trim (w ++ name ++ suffix port)))
  = ("www." ++ toLowerCase name)%string.
Proof.
  intros Hw.
  destruct w as [|c1 [|c2 [|c3 [|c4 [|c5 w]]]]]; try discriminate.
  injection Hw as H1 H2 H3 H4.
  assert (W : forall c a, lower_char c = a ->
                          (a = "w"%char \/ a = "."%char) ->
                          is_ws c = false).
  { intros c a E [A|A]; rewrite <- is_ws_lower, E, A; reflexivity. }
  pose proof (W c1 _ H1 (or_introl eq_refl)) as W1.
  pose proof (W c2 _ H2 (or_introl eq_refl)) as W2.
  pose proof (W c3 _ H3 (or_introl eq_refl)) as W3.
  pose proof (W c4 _ H4 (or_intror eq_refl)) as W4.
  destruct (trim_fixed name name_trimmed) as [Hs He].
  unfold trim. cbn [append trimStart]. rewrite W1.
  rewrite !trimEnd_cons_keep by assumption.
  cbn [toLowerCase]. rewrite H1, H2, H3, H4.
  cbn [splitFirst Ascii.eqb Bool.eqb]. cbn [append].
  do 4 f_equal.
  pose proof (cut_name_suffix port) as C. unfold trim in C.
  now rewrite (trimStart_app _ _ name_not_empty Hs) in C.
Qed.

End Name.

Lemma caddy_ask_by_candidate (env_token : option string) (d : database)
  (q_token q1 q2 : option string) :
  normalizeCandidate q1 <> EmptyString ->
  normalizeCandidate q1 = normalizeCandidate q2 ->
  caddy_ask env_token d q_token q1 = caddy_ask env_token d q_token q2.
Proof.
  intros Hne E. unfold caddy_ask.
  change (stripWww (splitFirst ":"%char
                      (toLowerCase (trim (orEmpty q1)))))
    with (normalizeCandidate q1).
  change (stripWww (splitFirst ":"%char
                      (toLowerCase (trim (orEmpty q2)))))
    with (normalizeCandidate q2).
  assert (F : forall q, normalizeCandidate q <> EmptyString ->
                        falsy (toLowerCase (trim (orEmpty q))) = false).
  { intros q H. apply falsy_false. intros B.
    now apply normalizeCandidate_empty in B. }
  rewrite (F q1 Hne), (F q2) by (now rewrite <- E).
  now rewrite E.
Qed.

(** X9.  [/caddy-ask] gives a name and its aliases the same answer.
    For a name that is not empty, has no white space around it, no
    colon and no leading [www.] (in any case), the answer is the same
    for the name itself, the name in lower case, the name with [www.] in
    front (in any case), and each of these followed by a colon and
    anything; the registry is asked for the lower-cased name. *)
Theorem aliases_get_the_same_answer (env_token : option string)
  (d : database) (q_token : option string) (name : string)
  (w : string) (port port' : option string) :
  name <> EmptyString ->
  trim name = name ->
  splitFirst ":"%char name = name ->
  startsWith (toLowerCase name) "www." = false ->
  toLowerCase w = "www." ->
  let ask c := caddy_ask env_token d q_token (Some c) in
  normalizeCandidate (Some name) = toLowerCase name
  /\ ask (toLowerCase name) = ask name
  /\ ask (name ++ suffix port) = ask name
  /\ ask (w ++ name ++ suffix port') = ask name.
Proof.
  intros Hne Htrim Hcolon Hwww Hw ask.
  assert (N : forall p, normalizeCandidate (Some (name ++ suffix p))
                        = toLowerCase name).
  { intros p. unfold normalizeCandidate. simpl orEmpty.
    rewrite (cut_name_suffix name Hne Htrim Hcolon p).
    unfold stripWww. now rewrite Hwww. }
  assert (N0 : normalizeCandidate (Some name) = toLowerCase name).
  { specialize (N None). simpl suffix in N. now rewrite append_empty in N. }
  assert (Hlow : toLowerCase name <> EmptyString)
    by (now rewrite toLowerCase_empty).
  split; [exact N0|]. subst ask. cbv beta. split; [|split].
  - apply caddy_ask_by_candidate.
    + unfold normalizeCandidate. simpl orEmpty.
      rewrite trim_lower, Htrim, toLowerCase_idem, splitFirst_lower, Hcolon.
      unfold stripWww. now rewrite Hwww.
    + rewrite N0. unfold normalizeCandidate. simpl orEmpty.
      rewrite trim_lower, Htrim, toLowerCase_idem, splitFirst_lower, Hcolon.
      unfold stripWww. now rewrite Hwww.
  - apply caddy_ask_by_candidate; rewrite N; [assumption | now rewrite N0].
  - assert (Nw : normalizeCandidate (Some (w ++ name ++ suffix port'))
                 = toLowerCase name).
    { unfold normalizeCandidate. simpl orEmpty.
      rewrite (cut_www_name_suffix name Hne Htrim Hcolon w port' Hw).
      unfold stripWww. simpl.
      now destruct (toLowerCase name). }
    apply caddy_ask_by_candidate; rewrite Nw;
      [assumption | now rewrite N0].
Qed.

Lemma aliases_get_the_same_answer_witness :
  let ask c := caddy_ask (Some "s3cret") Fixtures.registry (Some "s3cret")
                 (Some c) in
  ask "Example.COM:443" = ask "Example.COM"
  /\ ask "WWW.Example.COM:443" = ask "Example.COM".
Proof.
  destruct (aliases_get_the_same_answer (Some "s3cret") Fixtures.registry
              (Some "s3cret") "Example.COM" "WWW." (Some "443")
              (Some "443"))
    as (_ & _ & H1 & H2); try reflexivity; try discriminate.
  split; [exact H1 | exact H2].
Defined.

End GatekeeperMore.

(** ** More on the validate-domain handlers *)

Module RoutesMore.
Import JsString JsStringFacts Net Modules Routes RoutesTerms RoutesFacts.
Import GatekeeperTerms.

(** X10.  A request that does not start a validation run changes
    nothing: no statement, no call, no network activity, no flash.  It is
    answered 403 (a portal user asking for another site), 500 (the store
    fails), 404 (no such site) or 400 (the site has a blank domain). *)
Theorem refused_requests_change_nothing (h : handler) (imp : imports)
  (now : string) (id : Z) (w : world) :
  (forall domain, ~ validation_run h id w domain) ->
  exists status body,
    handle h imp now id w = (Normal (Send status body), w)
    /\ In status [400; 403; 404; 500].
Proof.
  intros Hno.
  assert (V : forall back,
             (match h with
              | Admin => True
              | Portal u => u = Some id /\ id <> 0
              end) ->
             exists status body,
               validate_site imp back now id w
               = (Normal (Send status body), w)
               /\ In status [400; 403; 404; 500]).
  { intros back Hauth. unfold validate_site.
    destruct (select_site_by_id (db w) id) as [|[site|]] eqn:Hsel.
    - eexists; eexists; split; [reflexivity | simpl; tauto].
    - destruct (falsy (toLowerCase (trim (site_domain site)))) eqn:F.
      + eexists; eexists; split; [reflexivity | simpl; tauto].
      + exfalso. apply (Hno (toLowerCase (trim (site_domain site)))).
        split; [exact Hauth|]. exists site.
        repeat split; [exact Hsel | now apply falsy_false].
    - eexists; eexists; split; [reflexivity | simpl; tauto]. }
  destruct h as [|u]; simpl handle.
  - apply V. exact I.
  - unfold portal_validate_domain.
    destruct u as [s|]; simpl.
    + destruct (Z.eqb_spec s 0); simpl.
      * eexists; eexists; split; [reflexivity | simpl; tauto].
      * destruct (Z.eqb_spec s id); simpl.
        -- apply V. split; congruence.
        -- eexists; eexists; split; [reflexivity | simpl; tauto].
    + eexists; eexists; split; [reflexivity | simpl; tauto].
Qed.

Lemma refused_requests_change_nothing_witness :
  exists status body,
    handle (Portal (Some 2)) (Fixtures.legacy_imports
                                (Fixtures.network Fixtures.health_ok))
      Fixtures.NOW 3 (fresh Fixtures.registry)
    = (Normal (Send status body), fresh Fixtures.registry)
    /\ In status [400; 403; 404; 500].
Proof.
  apply (refused_requests_change_nothing (Portal (Some 2))).
  intros domain [[H _] _]. discriminate.
Defined.

(** *** What a request can change in the registry *)

Lemma same_but_validation_refl (l : list site_row) :
  Forall2 same_but_validation l l.
Proof. induction l; constructor; auto. repeat split. Qed.

Lemma same_but_validation_trans (a b c : list site_row) :
  Forall2 same_but_validation a b -> Forall2 same_but_validation b c ->
  Forall2 same_but_validation a c.
Proof.
  intros H. revert c. induction H as [|x y a b Hxy _ IH]; intros c Hbc.
  - inversion Hbc. constructor.
  - inversion Hbc as [|y' z b' c' Hyz Hrest]; subst.
    constructor; [|now apply IH].
    destruct Hxy as (A & B & C), Hyz as (A' & B' & C').
    repeat split; congruence.
Qed.

Lemma update_where_id_same (f : site_row -> site_row) (id : Z)
  (d : database) :
  (forall r, same_but_validation r (f r)) ->
  differ_only_in_validation d (update_where_id f id d)
  /\ filter (fun r => negb (Z.eqb (site_id r) id))
            (sites (update_where_id f id d))
     = filter (fun r => negb (Z.eqb (site_id r) id)) (sites d).
Proof.
  intros Hf. unfold update_where_id, differ_only_in_validation.
  destruct (db_failing d) eqn:F.
  - split; [split; [apply same_but_validation_refl | simpl; congruence]
           | reflexivity].
  - simpl. split; [split; [|reflexivity]|].
    + induction (sites d) as [|r l IH]; simpl; constructor; auto.
      destruct (Z.eqb (site_id r) id); [apply Hf | repeat split].
    + induction (sites d) as [|r l IH]; simpl; [reflexivity|].
      destruct (Z.eqb (site_id r) id) eqn:E.
      * destruct (Hf r) as (A & _). rewrite <- A, E. simpl. exact IH.
      * rewrite E. simpl. now rewrite IH.
Qed.

Lemma execute_same (q : statement) (d : database) :
  differ_only_in_validation d (execute q d).
Proof.
  destruct q as [ts id|st id]; simpl;
    apply update_where_id_same; intros r; repeat split.
Qed.

Lemma differ_trans (a b c : database) :
  differ_only_in_validation a b -> differ_only_in_validation b c ->
  differ_only_in_validation a c.
Proof.
  intros [H1 F1] [H2 F2]. split; [|congruence].
  eapply same_but_validation_trans; eassumption.
Qed.

Lemma differ_refl (a : database) : differ_only_in_validation a a.
Proof. split; [apply same_but_validation_refl | reflexivity]. Qed.

(** The registry after a request: untouched, or stamped and given one
    status. *)
Lemma handle_registry (h : handler) (imp : imports) (now : string)
  (id : Z) (w : world) :
  db (snd (handle h imp now id w)) = db w
  \/ exists st,
       db (snd (handle h imp now id w))
       = execute (UpdateStatus st id)
           (execute (UpdateLastChecked now id) (db w)).
Proof.
  assert (V : forall back,
             db (snd (validate_site imp back now id w)) = db w
             \/ exists st,
                  db (snd (validate_site imp back now id w))
                  = execute (UpdateStatus st id)
                      (execute (UpdateLastChecked now id) (db w))).
  { intros back. unfold validate_site.
    destruct (select_site_by_id (db w) id) as [|[site|]]; simpl; auto.
    destruct (falsy (toLowerCase (trim (site_domain site)))); simpl; auto.
    right.
    destruct (run_checks_outcome imp back
                (toLowerCase (trim (site_domain site))) id
                (stamped now id w))
      as (st & calls & w' & E & _ & _ & Hdb & _).
    exists st.
    change ((db_run (UpdateLastChecked now id) ;;;
             run_checks imp back (toLowerCase (trim (site_domain site)))
               id)%js w)
      with (run_checks imp back (toLowerCase (trim (site_domain site)))
              id (stamped now id w)).
    rewrite E. simpl. exact Hdb. }
  destruct h as [|u]; simpl handle; [apply V|].
  unfold portal_validate_domain.
  destruct (negb _); [left; reflexivity | apply V].
Qed.

Lemma caddy_ask_same_registry (env_token : option string)
  (d d' : database) (q_token q_domain : option string) :
  differ_only_in_validation d d' ->
  Gatekeeper.caddy_ask env_token d q_token q_domain
  = Gatekeeper.caddy_ask env_token d' q_token q_domain.
Proof.
  intros [Hrows Hfail].
  assert (E : forall x, select_id_by_domain d x = select_id_by_domain d' x).
  { intros x. unfold select_id_by_domain. rewrite <- Hfail.
    destruct (db_failing d); [reflexivity|].
    now rewrite (GatekeeperFacts.find_by_domain_same x _ _ Hrows). }
  unfold Gatekeeper.caddy_ask. now rewrite E.
Qed.

(** X11.  Whatever a validate-domain request does, it leaves every id,
    domain and other column of the registry as it was and touches no row
    of another id; so it changes no answer of [/caddy-ask]. *)
Theorem validation_leaves_registry (h : handler) (imp : imports)
  (now : string) (id : Z) (w : world) :
  let w' := snd (handle h imp now id w) in
  differ_only_in_validation (db w) (db w')
  /\ filter (fun r => negb (Z.eqb (site_id r) id)) (sites (db w'))
     = filter (fun r => negb (Z.eqb (site_id r) id)) (sites (db w))
  /\ forall env_token q_token q_domain,
       Gatekeeper.caddy_ask env_token (db w') q_token q_domain
       = Gatekeeper.caddy_ask env_token (db w) q_token q_domain.
Proof.
  intros w'. subst w'.
  assert (D : differ_only_in_validation (db w)
                (db (snd (handle h imp now id w)))
              /\ filter (fun r => negb (Z.eqb (site_id r) id))
                        (sites (db (snd (handle h imp now id w))))
                 = filter (fun r => negb (Z.eqb (site_id r) id))
                          (sites (db w))).
  { destruct (handle_registry h imp now id w) as [E | [st E]]; rewrite E.
    - split; [apply differ_refl | reflexivity].
    - simpl execute.
      destruct (update_where_id_same (set_last_checked now) id (db w))
        as [A1 A2]; [intros r; repeat split|].
      destruct (update_where_id_same (set_status st) id
                  (update_where_id (set_last_checked now) id (db w)))
        as [B1 B2]; [intros r; repeat split|].
      split; [eapply differ_trans; eassumption | congruence]. }
  destruct D as [D1 D2]. split; [exact D1|]. split; [exact D2|].
  intros. symmetry. now apply caddy_ask_same_registry.
Qed.

(** *** The notice of a run *)

Ltac run_flash_leaf :=
  eexists; eexists; eexists; eexists; eexists;
  split; [reflexivity|];
  split; [reflexivity|];
  split; [reflexivity|];
  split; [reflexivity | reflexivity].

Lemma run_checks_flash (imp : imports) (back domain : string) (id : Z)
  (w1 : world) :
  exists st f w' a b,
    run_checks imp back domain id w1 = (Normal (RedirectTo back), w')
    /\ db w' = execute (UpdateStatus st id) (db w1)
    /\ session_flash w' = Some f
    /\ flash_type f = flash_kind st
    /\ flash_message f = (a ++ domain ++ b)%string.
Proof.
  cbv beta delta [run_checks try_catch bind call object db_run set_flash
                  record lift_net ret throw].
  destruct (checkDnsCname imp) as [[g|s]|];
    cbn [net db log session_flash];
    [|run_flash_leaf|run_flash_leaf].
  destruct (g domain (net w1)) as [[[dr|]|e] n1];
    cbn [net db log session_flash]; [|run_flash_leaf|run_flash_leaf].
  destruct (ok dr); cbn [negb]; [|run_flash_leaf].
  destruct (checkHttpsHealth imp) as [[p|s]|];
    cbn [net db log session_flash]; [|run_flash_leaf|run_flash_leaf].
  destruct (p domain n1) as [[[hr|]|e] n2];
    cbn [net db log session_flash]; [|run_flash_leaf|run_flash_leaf].
  destruct (ok hr); run_flash_leaf.
Qed.

(** X12.  Every validation run leaves one notice in the session, about
    the domain validated, of the type that goes with the status written:
    [success] for [active], [warning] for [dns_ok_ssl_error], [error]
    otherwise.  The next page shows it and clears it; the page after
    shows none. *)
Theorem flash_follows_status (h : handler) (imp : imports) (now : string)
  (id : Z) (w : world) (domain : string) :
  validation_run h id w domain ->
  exists st f w' a b,
    handle h imp now id w = (Normal (RedirectTo (back_of h)), w')
    /\ status_of (db w') id = Some st
    /\ flash_type f = flash_kind st
    /\ flash_message f = (a ++ domain ++ b)%string
    /\ Locals.localsMiddleware w'
       = (Some f, {| db := db w'; session_flash := None;
                     net := net w'; log := log w' |})
    /\ fst (Locals.localsMiddleware (snd (Locals.localsMiddleware w')))
       = None.
Proof.
  intros Hrun. rewrite (handle_validation_run h imp now id w domain Hrun).
  destruct (run_checks_flash imp (back_of h) domain id (stamped now id w))
    as (st & f & w' & a & b & E & Hdb & Hf & Hk & Hm).
  exists st, f, w', a, b. split; [exact E|]. split.
  { destruct Hrun as (_ & site & Hsel & _). rewrite Hdb. simpl db.
    apply (record_after_run (db w) id site now st Hsel). }
  split; [exact Hk|]. split; [exact Hm|].
  unfold Locals.localsMiddleware. rewrite Hf. split; reflexivity.
Qed.

Lemma flash_follows_status_witness :
  exists st f w',
    handle Admin (Fixtures.bound_imports (Fixtures.network Fixtures.hello))
      Fixtures.NOW 2 (fresh Fixtures.registry)
    = (Normal (RedirectTo "/admin/sites"), w')
    /\ status_of (db w') 2 = Some st
    /\ flash_type f = flash_kind st.
Proof.
  destruct (flash_follows_status Admin
              (Fixtures.bound_imports (Fixtures.network Fixtures.hello))
              Fixtures.NOW 2 (fresh Fixtures.registry) "example.com"
              validation_run_site2)
    as (st & f & w' & a & b & E & Hs & Hk & _).
  exists st, f, w'. repeat split; assumption.
Defined.

Example notice_of_scenario_3 :
  session_flash
    (snd (handle Admin
            (Fixtures.bound_imports (Fixtures.network Fixtures.hello))
            Fixtures.NOW 2 (fresh Fixtures.registry)))
  = Some {| flash_type := "warning";
            flash_message := "Domain example.com DNS is OK but HTTPS check had issues: HTTPS /health returned 200 but did not match signature (missing x-sms-sites: 1)" |}.
Proof. reflexivity. Qed.

(** *** Who can start a run *)

(** X13.  Only an administrator gets past the guard of the admin route,
    and only an account user asking for the own site gets past the guard
    and the first test of the portal route.  Every other request leaves
    the registry, the session, the network and the log as they were, and
    is answered by a redirect to the login page or by 400 or 403. *)
Theorem validation_needs_authorisation (imp : imports) (now : string)
  (user : option Auth.session_user) (id : Z) (w : world) :
  ((forall u, user = Some u -> Auth.user_role u <> "admin") ->
   exists r,
     ValidateRoutes.post_admin_validate_domain imp now user id w
     = (Normal r, w)
     /\ In r [RedirectTo "/login"; Send 403 "Forbidden"])
  /\ ((forall u, user = Some u ->
                 ~ ((Auth.user_role u = "account_user"
                     \/ Auth.user_role u = "account_admin")
                    /\ Auth.user_site_id u = Some id /\ id <> 0)) ->
      exists r,
        ValidateRoutes.post_portal_validate_domain imp now user id w
        = (Normal r, w)
        /\ In r [RedirectTo "/login"; Send 403 "Forbidden";
                 Send 400 "User is not associated with a site.";
                 Send 403 "You can only validate your own site."]).
Proof.
  split; intros H.
  - unfold ValidateRoutes.post_admin_validate_domain,
      Auth.requireAdminSession.
    destruct user as [u|].
    + destruct (String.eqb_spec (Auth.user_role u) "admin") as [E|E].
      * now apply (H u eq_refl) in E.
      * eexists; split; [reflexivity | simpl; tauto].
    + eexists; split; [reflexivity | simpl; tauto].
  - unfold ValidateRoutes.post_portal_validate_domain,
      Auth.requireAccountUser.
    destruct user as [u|];
      [|eexists; split; [reflexivity | simpl; tauto]].
    specialize (H u eq_refl).
    destruct (String.eqb_spec (Auth.user_role u) "account_user") as [E1|E1];
      destruct (String.eqb_spec (Auth.user_role u) "account_admin")
        as [E2|E2]; simpl;
      try (eexists; split; [reflexivity | simpl; tauto]);
      (destruct (Auth.user_site_id u) as [s|] eqn:S; simpl;
       [|eexists; split; [reflexivity | simpl; tauto]];
       destruct (Z.eqb_spec s 0); simpl;
       [eexists; split; [reflexivity | simpl; tauto]|];
       unfold portal_validate_domain;
       destruct (Z.eqb_spec s 0); [contradiction|]; simpl;
       destruct (Z.eqb_spec s id); simpl;
       [exfalso; apply H; subst; tauto
       |eexists; split; [reflexivity | simpl; tauto]]).
Qed.

End RoutesMore.

(** ** Creating, editing and deleting sites *)

Module AdminSitesFacts.
Import JsString JsStringFacts CaseFacts Store Routes AdminSites.
Import RegistryTerms GatekeeperTerms.

Lemma stored_domain_is_normal (raw : string) :
  toLowerCase (trim raw) <> EmptyString ->
  normal_domain (toLowerCase (trim raw)).
Proof.
  intros H. split; [exact H|].
  now rewrite trim_lower, trim_idem, toLowerCase_idem.
Qed.

Lemma existsb_false_forall {A : Type} (p : A -> bool) (l : list A) :
  existsb p l = false <-> forall x, In x l -> p x = false.
Proof.
  induction l as [|a l IH]; simpl.
  - split; [intros _ x [] | reflexivity].
  - rewrite orb_false_iff, IH. split.
    + intros [H1 H2] x [<-|Hx]; auto.
    + intros H. split; [apply H; now left | intros x Hx; apply H; now right].
Qed.

(** Rows that a [DELETE] leaves keep a column distinct. *)
Lemma kept_rows_distinct {K : Type} (column : site_row -> K)
  (kept : site_row -> bool) (rows : list site_row)
  (distinct : NoDup (map column rows)) :
  NoDup (map column (filter kept rows)).
Proof.
  induction rows as [|r rows IH]; simpl; [constructor|].
  apply NoDup_cons_iff in distinct. destruct distinct as [Hnew Hrest].
  destruct (kept r); simpl; [|now apply IH].
  apply NoDup_cons_iff. split; [|now apply IH].
  rewrite in_map_iff. intros (r' & E & Hin).
  apply filter_In in Hin. apply Hnew.
  rewrite <- E. apply in_map. tauto.
Qed.

Lemma Forall_filter {A : Type} (P : A -> Prop) (p : A -> bool)
  (l : list A) :
  Forall P l -> Forall P (filter p l).
Proof.
  induction 1 as [|a l Ha _ IH]; simpl; [constructor|].
  destruct (p a); [constructor|]; assumption.
Qed.

(** *** The constraints *)

Lemma insert_keeps_well_formed (row : site_row) (d d' : database) :
  well_formed d ->
  ~ In (site_id row) (map site_id (sites d)) ->
  normal_domain (site_domain row) ->
  insert_site row d = Some d' ->
  well_formed d'.
Proof.
  intros (Hid & Hdom & Hn) Hfresh Hrow. unfold insert_site.
  destruct (db_failing d); [discriminate|].
  destruct (existsb _ (sites d)) eqn:E; [discriminate|].
  intros [= <-]. unfold well_formed. simpl.
  rewrite !map_app. simpl.
  split; [|split].
  - apply NoDup_app; [assumption | repeat constructor; inversion 1|].
    intros x Hx [<-|[]]. contradiction.
  - apply NoDup_app; [assumption | repeat constructor; inversion 1|].
    intros x Hx [<-|[]].
    apply in_map_iff in Hx. destruct Hx as (r & Hr & Hin).
    rewrite existsb_false_forall in E. specialize (E r Hin).
    rewrite Hr, String.eqb_refl in E. discriminate.
  - apply Forall_app. split; [assumption|].
    constructor; [exact Hrow | constructor].
Qed.

Lemma map_untouched (id : Z) (f : site_row -> site_row)
  (l : list site_row) :
  (forall r, In r l -> Z.eqb (site_id r) id = false) ->
  map (fun r => if Z.eqb (site_id r) id then f r else r) l = l.
Proof.
  induction l as [|r l IH]; simpl; [reflexivity|]. intros H.
  rewrite (H r (or_introl eq_refl)). f_equal. apply IH.
  intros x Hx. apply H. now right.
Qed.

Lemma rewrite_keeps_domains_distinct (id : Z) (domain : string)
  (cols : list (string * string)) (l : list site_row) :
  NoDup (map site_id l) ->
  NoDup (map site_domain l) ->
  (forall r, In r l -> Z.eqb (site_id r) id = false ->
             site_domain r <> domain) ->
  NoDup (map site_domain
           (map (fun r => if Z.eqb (site_id r) id
                          then rewritten domain cols r else r) l)).
Proof.
  induction l as [|r l IH]; simpl; [constructor|].
  intros Hid Hdom Hfree.
  inversion Hid as [|? ? Hid1 Hid2]; subst.
  inversion Hdom as [|? ? Hdom1 Hdom2]; subst.
  destruct (Z.eqb_spec (site_id r) id) as [E|E].
  - (* the row rewritten: no other row has its id *)
    rewrite map_untouched.
    + simpl. constructor; [|assumption].
      intros Hin. apply in_map_iff in Hin. destruct Hin as (x & Hx & Hxin).
      apply (Hfree x (or_intror Hxin)); [|assumption].
      apply Z.eqb_neq. intros Ex. apply Hid1.
      apply in_map_iff. exists x. split; [congruence | assumption].
    + intros x Hx. apply Z.eqb_neq. intros Ex. apply Hid1.
      apply in_map_iff. exists x. split; [congruence | assumption].
  - constructor.
    + intros Hin. apply in_map_iff in Hin. destruct Hin as (y & Hy & Hyin).
      apply in_map_iff in Hyin. destruct Hyin as (x & Hx & Hxin).
      destruct (Z.eqb (site_id x) id); subst y.
      * simpl in Hy.
        apply (Hfree r (or_introl eq_refl)).
        -- apply Z.eqb_neq. exact E.
        -- symmetry. exact Hy.
      * apply Hdom1; apply in_map_iff; eauto.
    + apply IH; auto.
Qed.

Lemma update_keeps_well_formed (id : Z) (domain : string)
  (cols : list (string * string)) (d d' : database) :
  well_formed d ->
  normal_domain domain ->
  update_site id domain cols d = Some d' ->
  well_formed d'.
Proof.
  intros (Hid & Hdom & Hn) Hnew. unfold update_site.
  destruct (db_failing d); [discriminate|].
  destruct (existsb (fun r => Z.eqb (site_id r) id) (sites d)) eqn:T;
    simpl andb.
  - match goal with
    | |- (if ?c then _ else _) = _ -> _ =>
        destruct c eqn:C; [discriminate|]
    end.
    intros [= <-]. unfold well_formed. simpl. split; [|split].
    + rewrite map_map.
      erewrite map_ext; [exact Hid|].
      intros r. now destruct (Z.eqb (site_id r) id).
    + apply rewrite_keeps_domains_distinct; auto.
      intros r Hr Hne Heq. rewrite existsb_false_forall in C.
      specialize (C r Hr). rewrite Hne, Heq, String.eqb_refl in C.
      discriminate.
    + apply Forall_map. eapply Forall_impl; [|exact Hn].
      intros r Hr. now destruct (Z.eqb (site_id r) id).
  - intros [= <-]. unfold well_formed. simpl.
    rewrite existsb_false_forall in T.
    rewrite (map_untouched id _ (sites d) T). auto.
Qed.

Lemma delete_keeps_well_formed (id : Z) (d d' : database) :
  well_formed d -> delete_site id d = Some d' -> well_formed d'.
Proof.
  intros (Hid & Hdom & Hn). unfold delete_site.
  destruct (db_failing d); [discriminate|]. intros [= <-].
  unfold well_formed. simpl.
  split; [now apply kept_rows_distinct|].
  split; [now apply kept_rows_distinct | now apply Forall_filter].
Qed.

Lemma same_ids_and_domains (l l' : list site_row) :
  Forall2 same_but_validation l l' ->
  map site_id l = map site_id l'
  /\ map site_domain l = map site_domain l'.
Proof.
  induction 1 as [|r r' l l' (A & B & _) _ [IH1 IH2]]; simpl;
    split; congruence.
Qed.

Lemma differ_keeps_well_formed (d d' : database) :
  differ_only_in_validation d d' -> well_formed d -> well_formed d'.
Proof.
  intros [H _] (Hid & Hdom & Hn).
  destruct (same_ids_and_domains _ _ H) as [E1 E2].
  unfold well_formed. rewrite <- E1, <- E2. split; [|split]; auto.
  clear E1 E2 Hid Hdom. revert Hn.
  generalize dependent (sites d'). generalize (sites d).
  induction 1 as [|r r' l l' (_ & B & _) _ IH]; intros Hn;
    [constructor|].
  inversion Hn; subst. constructor; [congruence | auto].
Qed.

(** X14.  The handlers keep the constraints of the table and the shape
    of the domains: starting from a registry with distinct ids, distinct
    domains and every domain not empty, trimmed and in lower case, each
    of create (with a fresh row id), edit, delete and validate-domain
    leaves such a registry, whatever the request. *)
Theorem handlers_keep_registry_well_formed (d : database) :
  well_formed d ->
  (forall lastID body,
      ~ In lastID (map site_id (sites d)) ->
      well_formed (snd (admin_new_site lastID body d)))
  /\ (forall id body, well_formed (snd (admin_edit_site id body d)))
  /\ (forall id, well_formed (snd (admin_delete_site id d)))
  /\ (forall h imp now id w,
        db w = d ->
        well_formed (db (snd (RoutesTerms.handle h imp now id w)))).
Proof.
  intros W. split; [|split; [|split]].
  - intros lastID body Hfresh. unfold admin_new_site.
    destruct (falsy (toLowerCase (trimmed body "domain"))) eqn:F;
      [exact W|].
    apply falsy_false in F.
    match goal with
    | |- context [insert_site ?r d] =>
        destruct (insert_site r d) as [d'|] eqn:E; [|exact W];
        apply (insert_keeps_well_formed r d d' W Hfresh); [|exact E]
    end.
    simpl. now apply stored_domain_is_normal.
  - intros id body. unfold admin_edit_site.
    destruct (falsy (toLowerCase (trimmed body "domain"))) eqn:F;
      [exact W|].
    apply falsy_false in F.
    match goal with
    | |- context [update_site id ?dom ?cols d] =>
        destruct (update_site id dom cols d) as [d'|] eqn:E; [|exact W];
        apply (update_keeps_well_formed id dom cols d d' W); [|exact E]
    end.
    now apply stored_domain_is_normal.
  - intros id. unfold admin_delete_site.
    destruct (select_site_by_id d id) as [|[row|]]; try exact W.
    destruct (String.eqb (site_domain row) "localhost"); [exact W|].
    destruct (delete_site id d) as [d'|] eqn:E; [|exact W].
    now apply (delete_keeps_well_formed id d d').
  - intros h imp now id w <-.
    destruct (RoutesMore.handle_registry h imp now id w) as [E | [st E]];
      rewrite E; [exact W|].
    eapply differ_keeps_well_formed; [|exact W].
    eapply RoutesMore.differ_trans; apply RoutesMore.execute_same.
Qed.

Lemma registry_well_formed : well_formed Fixtures.registry.
Proof.
  unfold well_formed. simpl.
  split; [repeat constructor; simpl; intuition discriminate|].
  split; [repeat constructor; simpl; intuition discriminate|].
  repeat constructor; discriminate.
Qed.

Lemma handlers_keep_registry_well_formed_witness :
  well_formed
    (snd (admin_new_site 4 [("domain", " Shop.Example.ORG ")]
            Fixtures.registry))
  /\ well_formed (snd (admin_delete_site 2 Fixtures.registry)).
Proof.
  destruct (handlers_keep_registry_well_formed Fixtures.registry
              registry_well_formed) as (Hnew & _ & Hdel & _).
  split; [apply Hnew | apply Hdel].
  simpl. intuition discriminate.
Defined.

(** *** Deleting *)

Lemma find_by_id_unique (id : Z) (row r : site_row) (l : list site_row) :
  NoDup (map site_id l) ->
  find (fun x => Z.eqb (site_id x) id) l = Some row ->
  In r l -> site_id r = id -> r = row.
Proof.
  induction l as [|x l IH]; simpl; [discriminate|].
  inversion 1 as [|? ? Hnot Hrest]; subst.
  destruct (Z.eqb_spec (site_id x) id) as [E|E].
  - intros [= ->] [->|Hin] Hr; [reflexivity|].
    exfalso. apply Hnot. apply in_map_iff. exists r. split; congruence.
  - intros Hfind [->|Hin] Hr; [contradiction | auto].
Qed.

(** The delete handler either deletes the rows of the id, none of them
    the [localhost] row, or changes nothing. *)
Lemma delete_cases (id : Z) (d : database) :
  (exists row,
      select_site_by_id d id = DbRow (Some row)
      /\ site_domain row <> "localhost"
      /\ admin_delete_site id d
         = (RedirectTo "/admin/sites",
            {| sites := filter (fun r => negb (Z.eqb (site_id r) id))
                               (sites d);
               db_failing := false |}))
  \/ (exists status body,
         admin_delete_site id d = (Send status body, d)
         /\ In status [400; 404; 500]).
Proof.
  unfold admin_delete_site.
  destruct (select_site_by_id d id) as [|[row|]] eqn:S.
  - right. eexists; eexists; split; [reflexivity | simpl; tauto].
  - destruct (String.eqb_spec (site_domain row) "localhost").
    + right. eexists; eexists; split; [reflexivity | simpl; tauto].
    + unfold delete_site. unfold select_site_by_id in S.
      destruct (db_failing d); [discriminate|].
      left. exists row. repeat split; auto.
  - right. eexists; eexists; split; [reflexivity | simpl; tauto].
Qed.

Lemma delete_keeps_localhost (id : Z) (d : database) (r : site_row) :
  NoDup (map site_id (sites d)) ->
  In r (sites d) -> site_domain r = "localhost" ->
  In r (sites (snd (admin_delete_site id d))).
Proof.
  intros Hid Hin Hloc.
  destruct (delete_cases id d) as [(row & S & Hrow & E) | (st & b & E & _)];
    rewrite E; simpl; [|assumption].
  apply filter_In. split; [assumption|].
  apply negb_true_iff. apply Z.eqb_neq. intros Eid.
  unfold select_site_by_id in S.
  destruct (db_failing d); [discriminate|]. injection S as S.
  assert (r = row) by (eapply find_by_id_unique; eassumption).
  congruence.
Qed.

(** X15.  The delete handler never deletes the [localhost] site.  In a
    registry with distinct ids, a request either is refused (400, 404 or
    500) and changes nothing, or deletes exactly the rows of the given
    id, whose domain is not [localhost]; a row with the domain
    [localhost] is still there afterwards. *)
Theorem delete_spares_localhost (id : Z) (d : database) :
  NoDup (map site_id (sites d)) ->
  let answer := fst (admin_delete_site id d) in
  let d' := snd (admin_delete_site id d) in
  ((answer = RedirectTo "/admin/sites"
    /\ sites d' = filter (fun r => negb (Z.eqb (site_id r) id)) (sites d)
    /\ exists row, In row (sites d) /\ site_id row = id
                   /\ site_domain row <> "localhost")
   \/ (d' = d /\ exists status body,
                   answer = Send status body /\ In status [400; 404; 500]))
  /\ (forall r, In r (sites d) -> site_domain r = "localhost" ->
                In r (sites d')).
Proof.
  intros Hid answer d'. subst answer d'. split.
  - destruct (delete_cases id d)
      as [(row & S & Hrow & E) | (st & b & E & Hst)]; rewrite E; simpl.
    + left. repeat split. exists row.
      unfold select_site_by_id in S.
      destruct (db_failing d); [discriminate|]. injection S as S.
      apply find_some in S. destruct S as [Hin Heq].
      apply Z.eqb_eq in Heq. auto.
    + right. split; [reflexivity|]. eauto.
  - intros r. now apply delete_keeps_localhost.
Qed.

Lemma delete_spares_localhost_witness :
  In (Fixtures.row 1 "localhost" (Some "pending"))
     (sites (snd (admin_delete_site 1 Fixtures.registry))).
Proof.
  apply (delete_spares_localhost 1 Fixtures.registry);
    [simpl; repeat constructor; simpl; intuition discriminate
    | simpl; tauto
    | reflexivity].
Defined.

(** *** Creating *)

Lemma host_chars_without_colon (s : string) :
  forallb Gatekeeper.host_char (chars s) = true ->
  splitFirst ":"%char s = s.
Proof.
  induction s as [|c s IH]; simpl; [reflexivity|].
  rewrite andb_true_iff. intros [Hc Hs].
  destruct (Ascii.eqb_spec c ":"%char) as [->|_]; [discriminate|].
  now rewrite IH.
Qed.

Lemma find_last {A : Type} (p : A -> bool) (l : list A) (x : A) :
  find p (l ++ [x]) = match find p l with
                      | Some y => Some y
                      | None => find p [x]
                      end.
Proof.
  induction l as [|y l IH]; simpl; [reflexivity|].
  now destruct (p y).
Qed.

(** X16.  A site just created is approved by [/caddy-ask] before any
    validation.  When the create handler succeeds and the stored domain
    (the submitted one, trimmed and lower-cased) passes the hygiene
    tests of the gatekeeper and has no leading [www.], a request with the
    right token for the domain as submitted is answered [200 ok], while
    the new row is [pending] and has no time stamp. *)
Theorem created_site_is_approved (env_token q_token : option string)
  (lastID : Z) (body : form) (d d' : database) (url : string) :
  let domain := toLowerCase (trimmed body "domain") in
  token_matches env_token q_token ->
  admin_new_site lastID body d = (RedirectTo url, d') ->
  Regex.test Gatekeeper.HOST_RE domain = true ->
  domain <> "localhost" ->
  Gatekeeper.isIPv4 domain = false ->
  startsWith domain "www." = false ->
  Gatekeeper.caddy_ask env_token d' q_token (column body "domain")
  = Gatekeeper.Send 200 "ok"
  /\ exists row,
       sites d' = (sites d ++ [row])%list
       /\ site_id row = lastID
       /\ site_domain row = domain
       /\ domain_status row = Some "pending"
       /\ domain_last_checked_at row = None.
Proof.
  intros domain Htok Hnew Hhost Hloc Hip Hwww.
  unfold admin_new_site in Hnew. fold domain in Hnew.
  destruct (falsy domain) eqn:F; [discriminate|].
  match type of Hnew with
  | context [insert_site ?r d] =>
      set (row := r) in *; destruct (insert_site row d) as [dd|] eqn:I;
      [|discriminate]
  end.
  injection Hnew as _ <-.
  unfold insert_site in I.
  destruct (db_failing d) eqn:Fd; [discriminate|].
  destruct (existsb _ (sites d)) eqn:Ex; [discriminate|].
  injection I as <-.
  split; [|exists row; repeat split].
  assert (N : Gatekeeper.normalizeCandidate (column body "domain") = domain).
  { unfold Gatekeeper.normalizeCandidate.
    change (toLowerCase (trim (orEmpty (column body "domain"))))
      with domain.
    rewrite host_chars_without_colon.
    - unfold Gatekeeper.stripWww. now rewrite Hwww.
    - unfold Gatekeeper.HOST_RE in Hhost.
      rewrite RegexFacts.test_Plus_Class in Hhost.
      apply andb_true_iff in Hhost. tauto. }
  apply (proj2 (GatekeeperFacts.token_gate _ _)) in Htok.
  unfold Gatekeeper.caddy_ask.
  change (Gatekeeper.stripWww
            (splitFirst ":"%char
               (toLowerCase (trim (orEmpty (column body "domain"))))))
    with (Gatekeeper.normalizeCandidate (column body "domain")).
  change (toLowerCase (trim (orEmpty (column body "domain"))))
    with domain.
  rewrite Htok, N, F, Hip, Hhost.
  destruct (String.eqb_spec domain "localhost"); [contradiction|].
  simpl negb. unfold select_id_by_domain. simpl.
  rewrite find_last.
  destruct (find _ (sites d)); [reflexivity|].
  simpl. subst row. simpl. now rewrite String.eqb_refl.
Qed.

Lemma created_site_is_approved_witness :
  Gatekeeper.caddy_ask (Some "s3cret")
    (snd (admin_new_site 4 [("domain", " Shop.Example.ORG ")]
            Fixtures.registry))
    (Some "s3cret") (Some " Shop.Example.ORG ")
  = Gatekeeper.Send 200 "ok".
Proof.
  apply (created_site_is_approved (Some "s3cret") (Some "s3cret") 4
           [("domain", " Shop.Example.ORG ")] Fixtures.registry
           (snd (admin_new_site 4 [("domain", " Shop.Example.ORG ")]
                   Fixtures.registry))
           "/admin/sites/4/edit");
    try reflexivity; try discriminate.
  split; [discriminate | reflexivity].
Defined.

(** *** Editing *)

(** X17.  Editing a site never resets its validation: whatever the
    form, also when it changes the domain, every row keeps its id, its
    [domain_status] and its [domain_last_checked_at], and the rows of
    other ids are left as they are.  Unless the answer is the redirect
    to the edit page, nothing changes at all. *)
Theorem edit_keeps_validation_state (id : Z) (body : form) (d : database) :
  let d' := snd (admin_edit_site id body d) in
  map site_id (sites d') = map site_id (sites d)
  /\ map domain_status (sites d') = map domain_status (sites d)
  /\ map domain_last_checked_at (sites d')
     = map domain_last_checked_at (sites d)
  /\ filter (fun r => negb (Z.eqb (site_id r) id)) (sites d')
     = filter (fun r => negb (Z.eqb (site_id r) id)) (sites d)
  /\ (d' = d
      \/ fst (admin_edit_site id body d)
         = RedirectTo ("/admin/sites/" ++ ofZ id ++ "/edit")).
Proof.
  intros d'. subst d'. unfold admin_edit_site.
  destruct (falsy (toLowerCase (trimmed body "domain")));
    [simpl; repeat split; now left|].
  match goal with
  | |- context [update_site id ?dom ?cols d] =>
      generalize dom, cols; intros dom' cols'
  end.
  unfold update_site.
  destruct (db_failing d); [simpl; repeat split; now left|].
  destruct (existsb _ (sites d) && existsb _ (sites d))%bool;
    [simpl; repeat split; now left|].
  simpl.
  split; [|split; [|split; [|split]]].
  - rewrite map_map. apply map_ext. intros r.
    now destruct (Z.eqb (site_id r) id).
  - rewrite map_map. apply map_ext. intros r.
    now destruct (Z.eqb (site_id r) id).
  - rewrite map_map. apply map_ext. intros r.
    now destruct (Z.eqb (site_id r) id).
  - induction (sites d) as [|r l IH]; simpl; [reflexivity|].
    destruct (Z.eqb (site_id r) id) eqn:E; simpl; rewrite E; simpl;
      [exact IH | now rewrite IH].
  - now right.
Qed.

Example edit_keeps_active :
  let d' := snd (admin_edit_site 2 [("domain", "Other.Example")]
                   Fixtures.registry_validated) in
  map site_domain (sites d') = ["localhost"; "other.example"; "shop.example"]
  /\ status_of d' 2 = Some "active".
Proof. split; reflexivity. Qed.

End AdminSitesFacts.

(** ** The site resolver of middleware/siteResolver.js *)

Module ResolverFacts.
Import JsString JsStringFacts CaseFacts Store SiteResolver AdminSites.
Import Gatekeeper GatekeeperTerms.

Lemma find_domain_some (x : string) (l : list site_row) :
  In x (map site_domain l) ->
  exists row, find (fun r => String.eqb (site_domain r) x) l = Some row
              /\ In row l /\ site_domain row = x.
Proof.
  intros Hin. apply in_map_iff in Hin. destruct Hin as (r & Hr & Hin).
  destruct (find (fun r => String.eqb (site_domain r) x) l) as [row|] eqn:F.
  - exists row. split; [reflexivity|].
    apply find_some in F. destruct F as [H1 H2].
    apply String.eqb_eq in H2. auto.
  - exfalso. apply (find_none _ _ F) in Hin.
    rewrite Hr, String.eqb_refl in Hin. discriminate.
Qed.

Lemma resolver_configured (d : database) (hostname : option string) :
  In "localhost" (map site_domain (sites d)) ->
  siteResolverMiddleware d hostname <> NotConfigured.
Proof.
  intros Hloc. unfold siteResolverMiddleware, select_site_by_domain.
  destruct (db_failing d); [discriminate|].
  destruct (find _ (sites d)); [discriminate|].
  destruct (find_domain_some _ _ Hloc) as (row & F & _). rewrite F.
  discriminate.
Qed.

(** What [normalizeHost] makes of the lower-cased host is the candidate
    of the gatekeeper, unless a dot ends the host. *)
Lemma normalizeHost_as_candidate (h : string) :
  let cut := splitFirst ":"%char (toLowerCase (trim h)) in
  stripTrailingDot cut = cut ->
  Locals.normalizeHost (toLowerCase h) = normalizeCandidate (Some h).
Proof.
  intros cut Hdot. unfold Locals.normalizeHost, normalizeCandidate.
  destruct h as [|c h]; [reflexivity|].
  cbn [falsy toLowerCase orEmpty].
  change (String (lower_char c) (toLowerCase h))
    with (toLowerCase (String c h)).
  rewrite trim_lower, toLowerCase_idem.
  fold cut. now rewrite Hdot.
Qed.

(** X18.  A host the gatekeeper approves is served from its own row.
    When [/caddy-ask] approves a host that no dot ends (after the port
    is cut), the resolver, for the same host, continues with the row
    whose domain is the candidate of the gatekeeper, and that row is not
    the [localhost] fallback. *)
Theorem approved_hosts_are_served (env_token : option string)
  (d : database) (q_token : option string) (h : string) :
  let cut := splitFirst ":"%char (toLowerCase (trim h)) in
  shouldIssueCertificate env_token d (Some h) q_token = true ->
  stripTrailingDot cut = cut ->
  exists row,
    siteResolverMiddleware d (Some h)
    = Continue {| requestHost := toLowerCase h;
                  lookupHost := normalizeCandidate (Some h);
                  locals_site := mapRowToSite row |}
    /\ In row (sites d)
    /\ site_domain row = normalizeCandidate (Some h)
    /\ site_domain row <> "localhost".
Proof.
  intros cut Hok Hdot.
  apply GatekeeperFacts.caddy_ask_decision in Hok.
  destruct Hok as (_ & _ & Hloc & _ & _ & id & Hsel).
  unfold select_id_by_domain in Hsel.
  destruct (db_failing d) eqn:Fd; [discriminate|].
  destruct (find _ (sites d)) as [row|] eqn:F; [|discriminate].
  exists row.
  unfold siteResolverMiddleware, select_site_by_domain.
  cbn [orEmpty]. rewrite Fd.
  rewrite (normalizeHost_as_candidate h Hdot), F.
  apply find_some in F. destruct F as [Hin Heq].
  apply String.eqb_eq in Heq.
  repeat split; auto.
  rewrite Heq. now apply String.eqb_neq.
Qed.

Lemma approved_hosts_are_served_witness :
  exists row,
    siteResolverMiddleware Fixtures.registry (Some "WWW.Example.com:443")
    = Continue {| requestHost := "www.example.com:443";
                  lookupHost := "example.com";
                  locals_site := mapRowToSite row |}
    /\ In row (sites Fixtures.registry)
    /\ site_domain row = "example.com"
    /\ site_domain row <> "localhost".
Proof.
  apply (approved_hosts_are_served (Some "s3cret") Fixtures.registry
           (Some "s3cret") "WWW.Example.com:443"); reflexivity.
Defined.

(** A stored domain that a dot ends is approved by the gatekeeper under
    that name, and served from the fallback. *)
Example dotted_host_is_approved_but_not_served :
  let d := snd (admin_new_site 4 [("domain", "dot.example.")]
                  Fixtures.registry) in
  shouldIssueCertificate (Some "s3cret") d (Some "dot.example.")
    (Some "s3cret") = true
  /\ siteResolverMiddleware d (Some "dot.example.")
     = Continue {| requestHost := "dot.example.";
                   lookupHost := "dot.example";
                   locals_site := mapRowToSite
                                    (Fixtures.row 1 "localhost"
                                       (Some "pending")) |}.
Proof. split; reflexivity. Qed.

(** X19.  With a working store and a [localhost] row the resolver
    always continues: with the row whose domain is the normalised host,
    or, when no row has that domain, with the [localhost] row. *)
Theorem resolver_serves_own_or_fallback (d : database)
  (hostname : option string) :
  db_failing d = false ->
  In "localhost" (map site_domain (sites d)) ->
  exists l row,
    siteResolverMiddleware d hostname = Continue l
    /\ requestHost l = toLowerCase (orEmpty hostname)
    /\ lookupHost l = Locals.normalizeHost (requestHost l)
    /\ locals_site l = mapRowToSite row
    /\ In row (sites d)
    /\ (site_domain row = lookupHost l
        \/ site_domain row = "localhost"
           /\ ~ In (lookupHost l) (map site_domain (sites d))).
Proof.
  intros Fd Hloc. unfold siteResolverMiddleware, select_site_by_domain.
  rewrite Fd.
  destruct (find _ (sites d)) as [row|] eqn:F.
  - eexists; exists row. split; [reflexivity|]. cbn.
    apply find_some in F. destruct F as [Hin Heq].
    apply String.eqb_eq in Heq. auto 10.
  - destruct (find_domain_some _ _ Hloc) as (row & F' & Hin & Hd).
    rewrite F'. eexists; exists row. split; [reflexivity|]. cbn.
    repeat split; auto. right. split; [assumption|].
    intros Hin'. destruct (find_domain_some _ _ Hin') as (r & F'' & _).
    congruence.
Qed.

Lemma resolver_serves_own_or_fallback_witness :
  exists l row,
    siteResolverMiddleware Fixtures.registry (Some "unknown.example")
    = Continue l
    /\ requestHost l = "unknown.example"
    /\ lookupHost l = Locals.normalizeHost (requestHost l)
    /\ locals_site l = mapRowToSite row
    /\ In row (sites Fixtures.registry)
    /\ (site_domain row = lookupHost l
        \/ site_domain row = "localhost"
           /\ ~ In (lookupHost l)
                  (map site_domain (sites Fixtures.registry))).
Proof.
  apply (resolver_serves_own_or_fallback Fixtures.registry
           (Some "unknown.example")); [reflexivity | simpl; tauto].
Defined.

Lemma edit_keeps_other_rows (id : Z) (body : form) (d : database)
  (r : site_row) :
  In r (sites d) -> site_id r <> id ->
  In r (sites (snd (admin_edit_site id body d))).
Proof.
  intros Hin Hid. unfold admin_edit_site.
  destruct (falsy _); [exact Hin|].
  match goal with
  | |- context [update_site id ?dom ?cols d] =>
      generalize dom, cols; intros dom' cols'
  end.
  unfold update_site.
  destruct (db_failing d); [exact Hin|].
  destruct (_ && _)%bool; [exact Hin|].
  simpl. apply in_map_iff. exists r. split; [|exact Hin].
  apply Z.eqb_neq in Hid. now rewrite Hid.
Qed.

Lemma new_keeps_rows (lastID : Z) (body : form) (d : database)
  (r : site_row) :
  In r (sites d) -> In r (sites (snd (admin_new_site lastID body d))).
Proof.
  intros Hin. unfold admin_new_site.
  destruct (falsy _); [exact Hin|].
  match goal with
  | |- context [insert_site ?row d] => generalize row; intros row'
  end.
  unfold insert_site.
  destruct (db_failing d); [exact Hin|].
  destruct (existsb _ (sites d)); [exact Hin|].
  simpl. apply in_or_app. now left.
Qed.

(** X20.  The handlers of the registry do not take the fallback site
    away.  In a registry that has distinct ids and a [localhost] row,
    the resolver does not answer [404 No site configured yet.] after a
    site is created, after a site is deleted, after a validation run, or
    after an edit of a site other than the [localhost] site. *)
Theorem fallback_site_survives (d : database) (hostname : option string) :
  NoDup (map site_id (sites d)) ->
  In "localhost" (map site_domain (sites d)) ->
  (forall lastID body,
      siteResolverMiddleware (snd (admin_new_site lastID body d)) hostname
      <> NotConfigured)
  /\ (forall id,
        siteResolverMiddleware (snd (admin_delete_site id d)) hostname
        <> NotConfigured)
  /\ (forall h imp now id w,
        Routes.db w = d ->
        siteResolverMiddleware
          (Routes.db (snd (RoutesTerms.handle h imp now id w))) hostname
        <> NotConfigured)
  /\ (forall id body,
        (forall r, In r (sites d) -> site_domain r = "localhost" ->
                   site_id r <> id) ->
        siteResolverMiddleware (snd (admin_edit_site id body d)) hostname
        <> NotConfigured).
Proof.
  intros Hid Hloc.
  pose proof Hloc as Hrow. apply in_map_iff in Hrow.
  destruct Hrow as (r & Hd & Hin).
  assert (K : forall d', In r (sites d') ->
                         siteResolverMiddleware d' hostname
                         <> NotConfigured).
  { intros d' H. apply resolver_configured. apply in_map_iff. eauto. }
  split; [|split; [|split]].
  - intros lastID body. apply K. now apply new_keeps_rows.
  - intros id. apply K. now apply AdminSitesFacts.delete_keeps_localhost.
  - intros h imp now id w <-. apply resolver_configured.
    assert (D : differ_only_in_validation (Routes.db w)
                  (Routes.db (snd (RoutesTerms.handle h imp now id w)))).
    { destruct (RoutesMore.handle_registry h imp now id w) as [E | [st E]];
        rewrite E; [apply RoutesMore.differ_refl|].
      eapply RoutesMore.differ_trans; apply RoutesMore.execute_same. }
    destruct D as [D _].
    apply AdminSitesFacts.same_ids_and_domains in D. destruct D as [_ D].
    now rewrite <- D.
  - intros id body Hother. apply K. apply edit_keeps_other_rows; auto.
Qed.

Lemma fallback_site_survives_witness :
  siteResolverMiddleware (snd (admin_delete_site 2 Fixtures.registry))
    (Some "example.com")
  <> NotConfigured.
Proof.
  apply (fallback_site_survives Fixtures.registry (Some "example.com"));
    [simpl; repeat constructor; simpl; intuition discriminate
    | simpl; tauto].
Defined.

(** An edit of the [localhost] site can take the fallback away. *)
Example edit_can_unconfigure :
  siteResolverMiddleware
    (snd (admin_edit_site 1 [("domain", "main.example")] Fixtures.registry))
    (Some "unknown.example")
  = NotConfigured.
Proof. reflexivity. Qed.

End ResolverFacts.

(** ** The phone helpers of middleware/locals.js *)

Module PhoneFacts.
Import JsString JsStringFacts Locals.

Lemma digitsOnly_app (a b : string) :
  digitsOnly (a ++ b) = (digitsOnly a ++ digitsOnly b)%string.
Proof.
  induction a as [|c a IH]; simpl; [reflexivity|].
  destruct (Regex.digit c); simpl; now rewrite IH.
Qed.

Lemma digitsOnly_digits (s : string) :
  forallb Regex.digit (chars (digitsOnly s)) = true.
Proof.
  induction s as [|c s IH]; simpl; [reflexivity|].
  destruct (Regex.digit c) eqn:D; simpl; [now rewrite D|exact IH].
Qed.

Lemma digitsOnly_fixed (s : string) :
  forallb Regex.digit (chars s) = true -> digitsOnly s = s.
Proof.
  induction s as [|c s IH]; simpl; [reflexivity|].
  rewrite andb_true_iff. intros [-> H]. now rewrite IH.
Qed.

Lemma digits_sliceFrom (n : nat) (s : string) :
  forallb Regex.digit (chars s) = true ->
  forallb Regex.digit (chars (sliceFrom n s)) = true.
Proof.
  revert s. induction n as [|n IH]; intros [|c s]; simpl; auto.
  rewrite andb_true_iff. intros [_ H]. now apply IH.
Qed.

Lemma digits_sliceTo (n : nat) (s : string) :
  forallb Regex.digit (chars s) = true ->
  forallb Regex.digit (chars (sliceTo n s)) = true.
Proof.
  revert s. induction n as [|n IH]; intros [|c s]; simpl; auto.
  rewrite !andb_true_iff. intros [-> H]. split; [reflexivity|].
  now apply IH.
Qed.

Lemma slice_split (n : nat) (s : string) :
  (sliceTo n s ++ sliceFrom n s)%string = s.
Proof.
  revert s. induction n as [|n IH]; intros [|c s]; simpl; auto.
  now rewrite IH.
Qed.

Lemma sliceFrom_add (a b : nat) (s : string) :
  sliceFrom a (sliceFrom b s) = sliceFrom (b + a) s.
Proof.
  revert s. induction b as [|b IH]; intros s; simpl; [reflexivity|].
  destruct s as [|c s]; [now destruct a|]. apply IH.
Qed.

(** The two ways to a result of [normalizeUsPhone]. *)
Lemma normalize_ten (s d : string) :
  s <> EmptyString -> digitsOnly s = d -> String.length d = 10%nat ->
  normalizeUsPhone s = Some d.
Proof.
  intros Hs Hd Hlen. unfold normalizeUsPhone.
  apply falsy_false in Hs. rewrite Hs, Hd, Hlen.
  cbn [Nat.eqb andb]. now rewrite Hlen.
Qed.

Lemma normalize_eleven (s d : string) :
  digitsOnly s = String "1"%char d -> String.length d = 10%nat ->
  normalizeUsPhone s = Some d.
Proof.
  intros Hd Hlen. unfold normalizeUsPhone.
  destruct s as [|c s]; [discriminate|].
  cbn [falsy]. rewrite Hd. cbn [String.length]. rewrite Hlen.
  assert (W : startsWith (String "1"%char d) "1" = true)
    by (simpl; now destruct d).
  rewrite W. cbn [Nat.eqb andb sliceFrom]. now rewrite Hlen.
Qed.

Lemma normalize_shape (raw d : string) :
  normalizeUsPhone raw = Some d ->
  String.length d = 10%nat /\ forallb Regex.digit (chars d) = true.
Proof.
  unfold normalizeUsPhone.
  destruct (falsy raw); [discriminate|].
  pose proof (digitsOnly_digits raw) as D.
  destruct (_ && _)%bool.
  - destruct (Nat.eqb (String.length (sliceFrom 1 (digitsOnly raw))) 10%nat)
      eqn:L; [|discriminate].
    intros [= <-]. apply Nat.eqb_eq in L. split; [exact L|].
    exact (digits_sliceFrom 1 _ D).
  - destruct (Nat.eqb (String.length (digitsOnly raw)) 10%nat) eqn:L;
      [|discriminate].
    intros [= <-]. apply Nat.eqb_eq in L. auto.
Qed.

Lemma national_digits (d : string) :
  forallb Regex.digit (chars d) = true ->
  digitsOnly ("(" ++ sliceTo 3%nat d ++ ") " ++ sliceTo 3%nat (sliceFrom 3%nat d)
              ++ "-" ++ sliceFrom 6%nat d)
  = d.
Proof.
  intros D. rewrite !digitsOnly_app.
  change (digitsOnly "(") with EmptyString.
  change (digitsOnly ") ") with EmptyString.
  change (digitsOnly "-") with EmptyString.
  rewrite !digitsOnly_fixed
    by auto using digits_sliceTo, digits_sliceFrom.
  cbn [append].
  change 6%nat with (3 + 3)%nat. rewrite <- sliceFrom_add.
  now rewrite !slice_split.
Qed.

(** X21.  Formatting a phone number does not change what it normalises
    to: for every input, [formatPhoneNational] gives a text with the
    same [normalizeUsPhone] and the same [formatPhoneE164], and
    formatting that text again gives it back. *)
Theorem phone_formatting_is_stable (raw : string) :
  normalizeUsPhone (formatPhoneNational raw) = normalizeUsPhone raw
  /\ formatPhoneE164 (formatPhoneNational raw) = formatPhoneE164 raw
  /\ formatPhoneNational (formatPhoneNational raw)
     = formatPhoneNational raw.
Proof.
  assert (N : normalizeUsPhone (formatPhoneNational raw)
              = normalizeUsPhone raw).
  { unfold formatPhoneNational at 1.
    destruct (normalizeUsPhone raw) as [d|] eqn:E; [|exact E].
    destruct (normalize_shape raw d E) as [L D]. cbv zeta.
    apply normalize_ten; [discriminate | now apply national_digits | exact L]. }
  split; [exact N|]. split.
  - unfold formatPhoneE164. now rewrite N.
  - unfold formatPhoneNational at 1. rewrite N.
    unfold formatPhoneNational.
    now destruct (normalizeUsPhone raw).
Qed.

(** X22.  What [normalizeUsPhone] accepts is ten digits, and the
    E.164 form goes back to them: when [normalizeUsPhone raw] is
    [digits], then [digits] has length 10 and only digits, it
    normalises to itself, and [formatPhoneE164 raw], which is [+1]
    followed by [digits], normalises to [digits] and formats to
    itself. *)
Theorem normalized_phone_round_trip (raw digits : string) :
  normalizeUsPhone raw = Some digits ->
  String.length digits = 10%nat
  /\ forallb Regex.digit (chars digits) = true
  /\ normalizeUsPhone digits = Some digits
  /\ formatPhoneE164 raw = Some ("+1" ++ digits)
  /\ normalizeUsPhone ("+1" ++ digits) = Some digits
  /\ formatPhoneE164 ("+1" ++ digits) = Some ("+1" ++ digits).
Proof.
  intros E. destruct (normalize_shape raw digits E) as [L D].
  assert (P : normalizeUsPhone ("+1" ++ digits) = Some digits).
  { apply normalize_eleven; [|exact L].
    rewrite digitsOnly_app. now rewrite (digitsOnly_fixed digits D). }
  split; [exact L|]. split; [exact D|]. split; [|split; [|split]].
  - apply normalize_ten; [|now apply digitsOnly_fixed|exact L].
    intros ->. discriminate.
  - unfold formatPhoneE164. now rewrite E.
  - exact P.
  - unfold formatPhoneE164. now rewrite P.
Qed.

Lemma normalized_phone_round_trip_witness :
  String.length "2125550123" = 10%nat
  /\ forallb Regex.digit (chars "2125550123") = true
  /\ normalizeUsPhone "2125550123" = Some "2125550123"
  /\ formatPhoneE164 "1 (212) 555-0123" = Some "+12125550123"
  /\ normalizeUsPhone "+12125550123" = Some "2125550123"
  /\ formatPhoneE164 "+12125550123" = Some "+12125550123".
Proof.
  apply (normalized_phone_round_trip "1 (212) 555-0123" "2125550123").
  reflexivity.
Defined.

End PhoneFacts.
